(** * HSK analog-digital conversion driver (hsk_adc.c)

    A shallow embedding of the XC878 ADC driver: the interrupt service
    routines, the timing computation of [hsk_adc_init], channel
    registration, the round robin scheduler and the warm-up procedure.

    Conventions of the embedding:
    - [ubyte] and [uword] values are integers of [Z]; every C operation that
      can leave the 8 or 16 bit range has its wrap-around written out with
      [u8] and [u16] ([int] has 16 bits on this target);
    - pointers are addresses of [Z], the null pointer is [0];
    - the driver's globals, the special function registers it touches and
      the conversion hardware form one record, [adc], that every function
      takes and returns;
    - loops that the C code does not bound carry a fuel of 256, the period
      of the [ubyte] loop counter: running out of fuel is divergence;
    - SFR page switching ([SFR_PAGE]) is not modelled. *)

From Stdlib Require Import ZArith Lia Bool List.
From stdpp Require Import base decidable option list.
Import ListNotations.
Local Open Scope Z_scope.

(** ** Machine integers *)

Definition u8 (x : Z) : Z := x mod 256.
Definition u16 (x : Z) : Z := x mod 65536.

(** ** Constants of hsk_adc.c *)

Definition ADC_CLK_12MHz : Z := 0.
Definition ADC_CLK_8MHz : Z := 1.
Definition ADC_CLK_6MHz : Z := 2.
Definition ADC_CLK_750kHz : Z := 3.
Definition ADC_CHANNELS : Z := 8.
Definition ADC_QUEUE : Z := 4.
Definition BIT_CHNR : Z := 0.
Definition CNT_CHNR : Z := 3.
Definition BIT_RESULT : Z := 6.
Definition CNT_RESULT : Z := 10.
Definition BIT_DW : Z := 6.
Definition BIT_CTC : Z := 4.
Definition CNT_CTC : Z := 2.
Definition BIT_ASEN_SEQUENTIAL : Z := 6.
Definition BIT_ASEN_PARALLEL : Z := 7.
Definition BIT_IEN : Z := 4.
Definition BIT_WFR : Z := 6.
Definition BIT_VFCTR : Z := 7.
Definition BIT_ENGT : Z := 0.
Definition BIT_ANON : Z := 7.
Definition BIT_IMODE : Z := 4.
Definition BIT_FILL : Z := 0.
Definition CNT_FILL : Z := 2.
Definition BIT_EMPTY : Z := 5.
Definition BIT_REQCHNR : Z := 0.
Definition CNT_REQCHNR : Z := 3.

(** Modelled from the spec: hsk_adc.h, which declares the two resolution
    selectors, is not part of the sources.  The driver stores the selector
    in the data width bit of ADC_GLOBCTR ([resolution << BIT_DW]) and
    compares that bit with the selector again, so the selectors are the two
    values of that bit: 0 selects 10 bit and 1 selects 8 bit results. *)
Definition ADC_RESOLUTION_10 : Z := 0.
Definition ADC_RESOLUTION_8 : Z := 1.

(** The value the warm-up writes into every target. *)
Definition WARMUP_MARK : Z := 0xffff.

(** ** State *)

(** The routines that can sit in the ADCSR0 slot of [hsk_isr6]. *)
Inductive handler : Type :=
  | H_unset
  | H_isr10
  | H_isr8
  | H_isr_warmup10.

#[global] Instance handler_eq_dec : EqDecision handler.
Proof. solve_decision. Defined.

(** Writes of foreground code to the state it shares with the interrupt
    routines: an entry of [targets], the whole array, the ADCSR0 slot. *)
Inductive shared_write : Type :=
  | WrTarget (i p : Z)
  | WrClear
  | WrHandler (h : handler).

(** The configuration registers [hsk_adc_init] programs. *)
Record sfr : Type := mkSfr {
  ADC_GLOBCTR : Z;
  ADC_INPCR0 : Z;
  ADC_LCBR : Z;
  ADC_PRAR : Z;
  ADC_RCR0 : Z;
  ADC_CHINPR : Z;
  ADC_EVINPR : Z;
  ADC_QMR0 : Z;
  SYSCON0 : Z
}.

(** Driver globals, interrupt system, memory and converter.

    - [targets] is the array of [ADC_CHANNELS] target pointers, [beyond]
      is what a read of [targets[i]] yields for an index past the array;
    - [mem] is the memory the targets point into;
    - [queue] holds the requests the converter has accepted and not yet
      finished, [ev] is the event flag of ADC_QSR0;
    - [stores], [requests] and [audit] are ghost logs, newest entry first
      for [stores] and [audit], oldest first for [requests]: the stores
      through a target pointer, the values written to ADC_QINR0, and the
      foreground writes to shared state with the value of [EADC] at the
      time of the write. *)
Record adc : Type := mkAdc {
  regs : sfr;
  EADC : bool;
  ADCSR0 : handler;
  nextChannel : Z;
  targets : list Z;
  beyond : Z -> Z;
  mem : Z -> Z;
  queue : list Z;
  ev : bool;
  ADC_RESR0L : Z;
  ADC_RESR0H : Z;
  stores : list (Z * Z);
  requests : list Z;
  audit : list (shared_write * bool)
}.

Definition set_regs (v : sfr) (s : adc) : adc :=
  mkAdc v (EADC s) (ADCSR0 s) (nextChannel s) (targets s) (beyond s) (mem s) (queue s)
        (ev s) (ADC_RESR0L s) (ADC_RESR0H s) (stores s) (requests s) (audit s).

Definition set_EADC (v : bool) (s : adc) : adc :=
  mkAdc (regs s) v (ADCSR0 s) (nextChannel s) (targets s) (beyond s) (mem s) (queue s)
        (ev s) (ADC_RESR0L s) (ADC_RESR0H s) (stores s) (requests s) (audit s).

Definition set_ADCSR0 (v : handler) (s : adc) : adc :=
  mkAdc (regs s) (EADC s) v (nextChannel s) (targets s) (beyond s) (mem s) (queue s)
        (ev s) (ADC_RESR0L s) (ADC_RESR0H s) (stores s) (requests s) (audit s).

Definition set_nextChannel (v : Z) (s : adc) : adc :=
  mkAdc (regs s) (EADC s) (ADCSR0 s) v (targets s) (beyond s) (mem s) (queue s) (ev s)
        (ADC_RESR0L s) (ADC_RESR0H s) (stores s) (requests s) (audit s).

Definition set_targets (v : list Z) (s : adc) : adc :=
  mkAdc (regs s) (EADC s) (ADCSR0 s) (nextChannel s) v (beyond s) (mem s) (queue s)
        (ev s) (ADC_RESR0L s) (ADC_RESR0H s) (stores s) (requests s) (audit s).

Definition set_beyond (v : Z -> Z) (s : adc) : adc :=
  mkAdc (regs s) (EADC s) (ADCSR0 s) (nextChannel s) (targets s) v (mem s) (queue s)
        (ev s) (ADC_RESR0L s) (ADC_RESR0H s) (stores s) (requests s) (audit s).

Definition set_mem (v : Z -> Z) (s : adc) : adc :=
  mkAdc (regs s) (EADC s) (ADCSR0 s) (nextChannel s) (targets s) (beyond s) v
        (queue s) (ev s) (ADC_RESR0L s) (ADC_RESR0H s) (stores s) (requests s)
        (audit s).

Definition set_queue (v : list Z) (s : adc) : adc :=
  mkAdc (regs s) (EADC s) (ADCSR0 s) (nextChannel s) (targets s) (beyond s) (mem s) v
        (ev s) (ADC_RESR0L s) (ADC_RESR0H s) (stores s) (requests s) (audit s).

Definition set_stores (v : list (Z * Z)) (s : adc) : adc :=
  mkAdc (regs s) (EADC s) (ADCSR0 s) (nextChannel s) (targets s) (beyond s) (mem s)
        (queue s) (ev s) (ADC_RESR0L s) (ADC_RESR0H s) v (requests s) (audit s).

Definition set_requests (v : list Z) (s : adc) : adc :=
  mkAdc (regs s) (EADC s) (ADCSR0 s) (nextChannel s) (targets s) (beyond s) (mem s)
        (queue s) (ev s) (ADC_RESR0L s) (ADC_RESR0H s) (stores s) v (audit s).

Definition set_audit (v : list (shared_write * bool)) (s : adc) : adc :=
  mkAdc (regs s) (EADC s) (ADCSR0 s) (nextChannel s) (targets s) (beyond s) (mem s)
        (queue s) (ev s) (ADC_RESR0L s) (ADC_RESR0H s) (stores s) (requests s) v.

Definition set_result (lo hi : Z) (s : adc) : adc :=
  mkAdc (regs s) (EADC s) (ADCSR0 s) (nextChannel s) (targets s) (beyond s) (mem s)
        (queue s) (ev s) lo hi (stores s) (requests s) (audit s).

(** *** Memory accesses *)

(** [targets[i].ptr10] (and [.ptr8], the same storage) as an rvalue: the
    array entry, or whatever lies past the array for an index out of
    range. *)
Definition read_target (s : adc) (i : Z) : Z :=
  match targets s !! Z.to_nat i with
  | Some p => p
  | None => beyond s i
  end.

(** [targets[i].ptr10 = p] in foreground code. *)
Definition write_target (i p : Z) (s : adc) : adc :=
  let s := set_audit ((WrTarget i p, EADC s) :: audit s) s in
  match targets s !! Z.to_nat i with
  | Some _ => set_targets (<[Z.to_nat i := p]> (targets s)) s
  | None => set_beyond (fun j => if j =? i then p else beyond s j) s
  end.

(** [hsk_isr6.ADCSR0 = &h] in foreground code. *)
Definition write_handler (h : handler) (s : adc) : adc :=
  set_ADCSR0 h (set_audit ((WrHandler h, EADC s) :: audit s) s).

(** [*p = v] for a target pointer [p]. *)
Definition store (p v : Z) (s : adc) : adc :=
  set_stores ((p, v) :: stores s)
    (set_mem (fun a => if a =? p then v else mem s a) s).

(** ADC_RESR0LH, the 16 bit view of result register 0. *)
Definition ADC_RESR0LH (s : adc) : Z := ADC_RESR0H s * 256 + ADC_RESR0L s.

(** ** Interrupt service routines *)

(** [(ADC_RESR0L >> BIT_CHNR) & ((1 << CNT_CHNR) - 1)] *)
Definition result_channel (s : adc) : Z :=
  Z.land (Z.shiftr (ADC_RESR0L s) BIT_CHNR) (Z.shiftl 1 CNT_CHNR - 1).

(** [(ADC_RESR0LH >> BIT_RESULT) & ((1 << CNT_RESULT) - 1)] *)
Definition result_value10 (s : adc) : Z :=
  Z.land (Z.shiftr (ADC_RESR0LH s) BIT_RESULT) (Z.shiftl 1 CNT_RESULT - 1).

Definition hsk_adc_isr10 (s : adc) : adc :=
  let channel := result_channel s in
  let result := result_value10 s in
  if read_target s channel =? 0 then s
  else store (read_target s channel) result s.

Definition hsk_adc_isr8 (s : adc) : adc :=
  let channel := result_channel s in
  let result := ADC_RESR0H s in
  if read_target s channel =? 0 then s
  else store (read_target s channel) result s.

(** The scan of [hsk_adc_isr_warmup10]: is there a registered target that
    still holds the mark?  ([*targets[i].ptr10 == -1] compares a [uword]
    with [-1], which the 16 bit conversion turns into [0xffff].) *)
Definition warmup_pending (s : adc) : bool :=
  existsb (fun i => negb (read_target s i =? 0) && (mem s (read_target s i) =? u16 (-1)))
          (seqZ 0 ADC_CHANNELS).

Definition hsk_adc_isr_warmup10 (s : adc) : adc :=
  let s := hsk_adc_isr10 s in
  if warmup_pending s then s else set_ADCSR0 H_isr10 s.

(** ** Initialisation *)

(** The conversion time computation of [hsk_adc_init]: the prescaler
    selector [ctc] and the sample time [stc].  [convTime] is a [uword], so
    [convTime *= 24] and the subtractions wrap at 16 bits. *)
Definition conv_timing (resolution convTime : Z) : Z * Z :=
  let resolution := if resolution =? ADC_RESOLUTION_10 then 10 else 8 in
  let convTime := u16 (convTime * 24) in
  let '(ctc, stc) :=
    if convTime <=? 1 + 2 * (258 + resolution) then
      (ADC_CLK_12MHz, u16 (u16 (u16 (convTime - 1) / 2 - 3) - resolution))
    else if convTime <=? 1 + 3 * (258 + resolution) then
      (ADC_CLK_8MHz, u16 (u16 (u16 (convTime - 1) / 3 - 3) - resolution))
    else if convTime <=? 1 + 4 * (258 + resolution) then
      (ADC_CLK_6MHz, u16 (u16 (u16 (convTime - 1) / 4 - 3) - resolution))
    else
      (ADC_CLK_750kHz, u16 (u16 (u16 (convTime - 1) / 32 - 3) - resolution)) in
  let stc := if stc >=? Z.shiftl 1 8 then Z.shiftl 1 8 - 1 else stc in
  (ctc, stc).

Definition hsk_adc_init (resolution convTime : Z) (s : adc) : adc :=
  (* memset(targets, 0, sizeof(targets)) *)
  let s := set_audit ((WrClear, EADC s) :: audit s) s in
  let s := set_targets (replicate (Z.to_nat ADC_CHANNELS) 0) s in
  let r := regs s in
  let globctr :=
    u8 (Z.lor (Z.land (ADC_GLOBCTR r) (Z.lnot (Z.shiftl 1 BIT_DW)))
              (Z.shiftl resolution BIT_DW)) in
  let '(ctc, stc) := conv_timing resolution convTime in
  let resolution := if resolution =? ADC_RESOLUTION_10 then 10 else 8 in
  let globctr :=
    u8 (Z.lor (Z.land globctr (Z.lnot (Z.shiftl (Z.shiftl 1 CNT_CTC - 1) BIT_CTC)))
              (Z.shiftl ctc BIT_CTC)) in
  let prar := u8 (Z.lor (ADC_PRAR r) (Z.shiftl 1 BIT_ASEN_SEQUENTIAL)) in
  let prar := u8 (Z.land prar (Z.lnot (Z.shiftl 1 BIT_ASEN_PARALLEL))) in
  let rcr0 :=
    u8 (Z.lor (ADC_RCR0 r)
              (Z.lor (Z.lor (Z.shiftl 1 BIT_IEN) (Z.shiftl 1 BIT_WFR)) (Z.shiftl 1 BIT_VFCTR))) in
  let qmr0 := u8 (Z.lor (ADC_QMR0 r) (Z.shiftl 1 BIT_ENGT)) in
  let globctr := u8 (Z.lor globctr (Z.shiftl 1 BIT_ANON)) in
  let s := set_regs (mkSfr globctr (u8 stc) 0 prar rcr0 0 0 qmr0 (SYSCON0 r)) s in
  let s := set_EADC false s in
  let s :=
    if resolution =? 10 then write_handler H_isr10 s
    else if resolution =? 8 then write_handler H_isr8 s
    else s in
  let r := regs s in
  let s :=
    set_regs (mkSfr (ADC_GLOBCTR r) (ADC_INPCR0 r) (ADC_LCBR r) (ADC_PRAR r) (ADC_RCR0 r)
                    (ADC_CHINPR r) (ADC_EVINPR r) (ADC_QMR0 r)
                    (u8 (Z.lor (SYSCON0 r) (Z.shiftl 1 BIT_IMODE)))) s in
  set_EADC true s.

(** ** Channel registration *)

Definition hsk_adc_open10 (channel target : Z) (s : adc) : adc :=
  let eadc := EADC s in
  if negb (Z.land (Z.shiftr (ADC_GLOBCTR (regs s)) BIT_DW) 1 =? ADC_RESOLUTION_10) then s
  else
    let s := set_EADC false s in
    let s := write_target channel target s in
    let s := set_EADC eadc s in
    if nextChannel s >=? ADC_CHANNELS then set_nextChannel channel s else s.

Definition hsk_adc_open8 (channel target : Z) (s : adc) : adc :=
  let eadc := EADC s in
  if negb (Z.land (Z.shiftr (ADC_GLOBCTR (regs s)) BIT_DW) 1 =? ADC_RESOLUTION_8) then s
  else
    let s := set_EADC false s in
    let s := write_target channel target s in
    let s := set_EADC eadc s in
    if nextChannel s >=? ADC_CHANNELS then set_nextChannel channel s else s.

(** What [hsk_adc_open10] and [hsk_adc_open8] do once the resolution has
    been found to match. *)
Definition opened (channel target : Z) (s : adc) : adc :=
  let s1 := set_EADC (EADC s) (write_target channel target (set_EADC false s)) in
  if nextChannel s1 >=? ADC_CHANNELS then set_nextChannel channel s1 else s1.

(** [hsk_adc_close] up to the search: the target is cleared. *)
Definition cleared (channel : Z) (s : adc) : adc :=
  set_EADC (EADC s) (write_target channel 0 (set_EADC false s)).

(** The search loop of [hsk_adc_close],
    [for (; nextChannel < channel + ADC_CHANNELS && !targets[nextChannel].ptr10; nextChannel++);]
    started with [nextChannel = n].  It returns the final [nextChannel]
    together with the indices at which it read [targets], in order. *)
Fixpoint close_scan (fuel : nat) (s : adc) (channel n : Z) : option (Z * list Z) :=
  match fuel with
  | O => None
  | S fuel =>
      if n <? channel + ADC_CHANNELS then
        if read_target s n =? 0 then
          '(m, reads) ← close_scan fuel s channel (u8 (n + 1));
          Some (m, n :: reads)
        else Some (n, [n])
      else Some (n, [])
  end.

(** [hsk_adc_close], with the indices at which the search and the check
    that follows it read [targets]. *)
Definition close_traced (channel : Z) (s : adc) : option (adc * list Z) :=
  let eadc := EADC s in
  let s := set_EADC false s in
  let s := write_target channel 0 s in
  let s := set_EADC eadc s in
  if nextChannel s =? channel then
    '(n, reads) ← close_scan 256 s channel (nextChannel s);
    let n := n mod ADC_CHANNELS in
    let s := set_nextChannel n s in
    if read_target s n =? 0 then Some (set_nextChannel ADC_CHANNELS s, reads ++ [n])
    else Some (s, reads ++ [n])
  else Some (s, []).

Definition hsk_adc_close (channel : Z) (s : adc) : option adc :=
  fst <$> close_traced channel s.

Definition close_reads (channel : Z) (s : adc) : option (list Z) :=
  snd <$> close_traced channel s.

(** ** Requests *)

(** The converter's request queue as the driver sees it in ADC_QSR0: the
    fill level field holds the number of valid entries less one, the empty
    flag tells no entry from one, bit 4 is the event flag. *)
Definition ADC_QSR0 (s : adc) : Z :=
  Z.lor (match queue s with
         | [] => Z.shiftl 1 BIT_EMPTY
         | _ :: q => Z.shiftl (Z.of_nat (length q)) BIT_FILL
         end)
        (if ev s then Z.shiftl 1 4 else 0).

(** A write to ADC_QINR0: the converter takes the channel number bits as a
    new entry unless its [ADC_QUEUE] slots are taken. *)
Definition write_QINR0 (v : Z) (s : adc) : adc :=
  let s := set_requests (requests s ++ [v]) s in
  if (length (queue s) <? Z.to_nat ADC_QUEUE)%nat
  then set_queue (queue s ++ [Z.land v (Z.shiftl 1 CNT_REQCHNR - 1)]) s
  else s.

Definition hsk_adc_request (channel : Z) (s : adc) : bool * adc :=
  if Z.land (ADC_QSR0 s)
            (Z.lor (Z.shiftl (Z.shiftl 1 CNT_FILL - 1) BIT_FILL) (Z.shiftl 1 BIT_EMPTY))
     =? Z.shiftl (ADC_QUEUE - 1) BIT_FILL
  then (false, s)
  else (true, write_QINR0 (u8 (Z.shiftl channel BIT_REQCHNR)) s).

(** The loop of [hsk_adc_service],
    [while (!targets[++nextChannel % ADC_CHANNELS].ptr10);]
    started with [nextChannel = n]; it returns the final [nextChannel]. *)
Fixpoint service_scan (fuel : nat) (s : adc) (n : Z) : option Z :=
  match fuel with
  | O => None
  | S fuel =>
      let n := u8 (n + 1) in
      if read_target s (n mod ADC_CHANNELS) =? 0 then service_scan fuel s n
      else Some n
  end.

Definition hsk_adc_service (s : adc) : option (bool * adc) :=
  if nextChannel s >=? ADC_CHANNELS then Some (false, s)
  else
    let '(ok, s) := hsk_adc_request (nextChannel s) s in
    if ok then
      n ← service_scan 256 s (nextChannel s);
      Some (true, set_nextChannel (n mod ADC_CHANNELS) s)
    else Some (false, s).

(** ** Conversion hardware *)

(** The routine in the ADCSR0 slot. *)
Definition run_handler (s : adc) : adc :=
  match ADCSR0 s with
  | H_unset => s
  | H_isr10 => hsk_adc_isr10 s
  | H_isr8 => hsk_adc_isr8 s
  | H_isr_warmup10 => hsk_adc_isr_warmup10 s
  end.

(** The converter finishes the oldest request with the ten result bits
    [r]: result register 0 takes the result in bits 6 to 15, the valid flag
    in bit 4 and the channel number in bits 0 to 2, and the routine in the
    ADCSR0 slot runs if the interrupt is enabled.  Nothing completes while
    no request is queued. *)
Definition hw_complete (r : Z) (s : adc) : adc :=
  match queue s with
  | [] => s
  | c :: q =>
      let w := Z.lor (Z.shiftl (Z.land r 1023) BIT_RESULT) (Z.lor (Z.shiftl 1 4) (Z.land c 7)) in
      let s := set_result (Z.land w 255) (Z.shiftr w 8) (set_queue q s) in
      if EADC s then run_handler s else s
  end.

Definition hw_event (e : option Z) (s : adc) : adc :=
  match e with
  | None => s
  | Some r => hw_complete r s
  end.

(** ** Warm-up *)

(** The first loop of [hsk_adc_warmup10]: mark every registered target. *)
Definition warmup10_mark (s : adc) : adc :=
  fold_left (fun s i => if read_target s i =? 0 then s
                        else store (read_target s i) WARMUP_MARK s)
            (seqZ 0 ADC_CHANNELS) s.

(** [EADC = 0; hsk_isr6.ADCSR0 = &hsk_adc_isr_warmup10; EADC = 1;] *)
Definition warmup10_hijack (s : adc) : adc :=
  set_EADC true (write_handler H_isr_warmup10 (set_EADC false s)).

(** The polling loop of [hsk_adc_warmup10].  One element of [sched] is the
    converter's activity during one iteration: [Some r] if a conversion
    completes (with result [r]), [None] if none does.  The loop is still
    running when the schedule is used up: [None]. *)
Fixpoint warmup_loop (sched : list (option Z)) (s : adc) : option adc :=
  if bool_decide (ADCSR0 s = H_isr_warmup10) then
    match sched with
    | [] => None
    | e :: sched =>
        '(_, s) ← hsk_adc_service s;
        warmup_loop sched (hw_event e s)
    end
  else Some s.

Definition hsk_adc_warmup10 (sched : list (option Z)) (s : adc) : option adc :=
  if negb (Z.land (Z.shiftr (ADC_GLOBCTR (regs s)) BIT_DW) 1 =? ADC_RESOLUTION_10) then Some s
  else warmup_loop sched (warmup10_hijack (warmup10_mark s)).

(** ** Call sequences *)

(** The state at power-on: the static initialisers of hsk_adc.c
    ([nextChannel = ADC_CHANNELS], [targets] zeroed), registers cleared,
    no handler installed, an idle converter.  [bey] is the content of the
    memory that follows [targets]. *)
Definition power_on (bey : Z -> Z) : adc :=
  mkAdc (mkSfr 0 0 0 0 0 0 0 0 0) false H_unset ADC_CHANNELS
        (replicate (Z.to_nat ADC_CHANNELS) 0) bey (fun _ => 0) [] false 0 0 [] [] [].

(** The driver after [hsk_adc_init(ADC_RESOLUTION_10, 20)]. *)
Definition booted10 (bey : Z -> Z) : adc :=
  hsk_adc_init ADC_RESOLUTION_10 20 (power_on bey).

(** The driver after [hsk_adc_init(ADC_RESOLUTION_8, 20)]. *)
Definition booted8 (bey : Z -> Z) : adc :=
  hsk_adc_init ADC_RESOLUTION_8 20 (power_on bey).

Inductive call : Type :=
  | Open10 (channel target : Z)
  | Open8 (channel target : Z)
  | Close (channel : Z).

Definition do_call (c : call) (s : adc) : option adc :=
  match c with
  | Open10 channel target => Some (hsk_adc_open10 channel target s)
  | Open8 channel target => Some (hsk_adc_open8 channel target s)
  | Close channel => hsk_adc_close channel s
  end.

Fixpoint do_calls (cs : list call) (s : adc) : option adc :=
  match cs with
  | [] => Some s
  | c :: cs => s ← do_call c s; do_calls cs s
  end.

(** A call the interface admits: a channel of the converter and, for an
    open, the address of a target. *)
Definition call_ok (c : call) : Prop :=
  match c with
  | Open10 channel target | Open8 channel target =>
      0 <= channel < ADC_CHANNELS /\ target <> 0
  | Close channel => 0 <= channel < ADC_CHANNELS
  end.

(** ** Notions of the specification *)

(** Channel [i] is open: a target is registered for it. *)
Definition is_open (s : adc) (i : Z) : bool := negb (read_target s i =? 0).

Definition open_channels (s : adc) : list Z :=
  List.filter (is_open s) (seqZ 0 ADC_CHANNELS).

(** The next open channel after [c], by a forward search that wraps over
    the channels 0 to 7: the first open one of [c+1], [c+2], ..., [c+8]
    (modulo 8), or "none" ([ADC_CHANNELS]). *)
Definition next_open (s : adc) (c : Z) : Z :=
  match find (fun i => is_open s i) (map (fun k => (c + k) mod ADC_CHANNELS) (seqZ 1 ADC_CHANNELS)) with
  | Some i => i
  | None => ADC_CHANNELS
  end.

(** The cursor is "none" or the index of an open channel. *)
Definition cursor_valid (s : adc) : Prop :=
  nextChannel s = ADC_CHANNELS \/
  (0 <= nextChannel s < ADC_CHANNELS /\ is_open s (nextChannel s) = true).

(** The cursor is "none" exactly if no channel is open, and else the index
    of an open channel. *)
Definition cursor_exact (s : adc) : Prop :=
  (nextChannel s = ADC_CHANNELS /\ open_channels s = []) \/
  (0 <= nextChannel s < ADC_CHANNELS /\ is_open s (nextChannel s) = true).

(** [targets] has its [ADC_CHANNELS] entries. *)
Definition targets_ok (s : adc) : Prop := length (targets s) = Z.to_nat ADC_CHANNELS.

(** The clock ticks one sample time unit takes under prescaler [ctc]. *)
Definition clk_div (ctc : Z) : Z :=
  if ctc =? ADC_CLK_12MHz then 2
  else if ctc =? ADC_CLK_8MHz then 3
  else if ctc =? ADC_CLK_6MHz then 4
  else 32.

(** The sample time that a conversion of [bits] result bits in [ticks]
    clock ticks asks for under prescaler [ctc], in unbounded arithmetic. *)
Definition ideal_stc (bits ticks ctc : Z) : Z := (ticks - 1) / clk_div ctc - 3 - bits.

(** The same as the driver computes it, in 16 bit arithmetic. *)
Definition wrapped_stc (bits ticks ctc : Z) : Z :=
  u16 (u16 (u16 (ticks - 1) / clk_div ctc - 3) - bits).

(** The result bits a resolution selector stands for. *)
Definition result_bits (resolution : Z) : Z :=
  if resolution =? ADC_RESOLUTION_10 then 10 else 8.

(** [n] consecutive calls of [hsk_adc_service] and what they returned. *)
Fixpoint service_n (n : nat) (s : adc) : option (list bool * adc) :=
  match n with
  | O => Some ([], s)
  | S n =>
      '(b, s) ← hsk_adc_service s;
      '(bs, s) ← service_n n s;
      Some (b :: bs, s)
  end.

(** What the converter and the interrupt routines leave alone between two
    calls of the foreground code: the registry, the cursor and the log of
    requests. *)
Definition hw_agrees (s s' : adc) : Prop :=
  targets s' = targets s /\ beyond s' = beyond s /\
  nextChannel s' = nextChannel s /\ requests s' = requests s.

(** [serve_run n s s']: [n] calls of [hsk_adc_service] that all returned
    true lead from [s] to [s'], the converter being active in between, no
    call of open or close. *)
Inductive serve_run : nat -> adc -> adc -> Prop :=
  | serve_done (s : adc) : serve_run O s s
  | serve_more (n : nat) (s s1 s2 s3 : adc) :
      hw_agrees s s1 ->
      hsk_adc_service s1 = Some (true, s2) ->
      serve_run n s2 s3 ->
      serve_run (S n) s s3.

(** [c], [nx c], [nx (nx c)], ...: [k] elements. *)
Fixpoint orbit (nx : Z -> Z) (k : nat) (c : Z) : list Z :=
  match k with
  | O => []
  | S k => c :: orbit nx k (nx c)
  end.

(** The channels [k] successful calls of [hsk_adc_service] are to request,
    the cursor being at [c]. *)
Definition cycle (s : adc) (k : nat) (c : Z) : list Z := orbit (next_open s) k c.

(** *** Registries by their open channels *)

(** Which of the eight entries of [targets] are null. *)
Definition closed_bits (s : adc) : list bool :=
  map (fun i => read_target s i =? 0) (seqZ 0 ADC_CHANNELS).

(** A state whose registry has the given null entries. *)
Definition state_of_bits (b : list bool) : adc :=
  set_targets (map (fun x : bool => if x then 0 else 1) b) (power_on (fun _ => 0)).

(** All registries up to the addresses of the targets. *)
Fixpoint all_bits (n : nat) : list (list bool) :=
  match n with
  | O => [[]]
  | S n => map (cons true) (all_bits n) ++ map (cons false) (all_bits n)
  end.

(** Two states have the same open channels. *)
Definition same_open (s s' : adc) : Prop :=
  forall i, 0 <= i < ADC_CHANNELS -> is_open s i = is_open s' i.

(** The service loop finds the next open channel, which is open. *)
Definition check_scan (s : adc) (c : Z) : bool :=
  implb (is_open s c)
        match service_scan 256 s c with
        | Some n => (n mod ADC_CHANNELS =? next_open s c) && is_open s (n mod ADC_CHANNELS)
        | None => false
        end.

(** One round from an open channel [c] requests every open channel once,
    no closed channel, and ends at [c]. *)
Definition check_round (s : adc) (c : Z) : bool :=
  implb (is_open s c)
        (let k := length (open_channels s) in
         (Nat.iter k (next_open s) c =? c) &&
         forallb (fun i => (count_occ Z.eq_dec (cycle s k c) i =? (if is_open s i then 1 else 0))%nat)
                 (seqZ 0 ADC_CHANNELS)).

Definition check_bits (b : list bool) : bool :=
  forallb (fun c => check_scan (state_of_bits b) c && check_round (state_of_bits b) c)
          (seqZ 0 ADC_CHANNELS).

(** The timing computation on a conversion time whose clock ticks fit
    into 16 bits and that is not below the shortest conversion: the
    fastest prescaler whose sample time fits is selected, the slowest if
    none fits, and the sample time is the ideal one, cut at 255. *)
Definition check_timing (resolution convTime : Z) : bool :=
  let bits := result_bits resolution in
  let ticks := convTime * 24 in
  let '(ctc, stc) := conv_timing resolution convTime in
  implb (0 <=? ideal_stc bits ticks ADC_CLK_12MHz)
        ((stc =? Z.min 255 (ideal_stc bits ticks ctc)) &&
         (0 <=? ctc) && (ctc <=? 3) &&
         forallb (fun p => 255 <? ideal_stc bits ticks p) (seqZ 0 ctc) &&
         ((ideal_stc bits ticks ctc <=? 255) || (ctc =? ADC_CLK_750kHz))).

(** ** Sample states *)

(** 10 bit mode, channel 3 registered with the target at address 256, the
    conversion of channel 3 just finished with the result bits 0x049. *)
Definition sample_delivery : adc :=
  set_result 0x43 0x12 (hsk_adc_open10 3 256 (booted10 (fun _ => 0))).

(** 10 bit mode, the channels 3 and 5 registered. *)
Definition sample_two : adc :=
  hsk_adc_open10 5 258 (hsk_adc_open10 3 256 (booted10 (fun _ => 0))).

(** The state a call of [hsk_adc_service] leaves. *)
Definition after_service (s : adc) : adc :=
  match hsk_adc_service s with
  | Some (_, s') => s'
  | None => s
  end.

(** 10 bit mode, no channel registered, the caller has masked the
    conversion interrupt. *)
Definition sample_masked : adc := set_EADC false (booted10 (fun _ => 0)).

(** ** Clock gating *)

Definition BIT_ADC_DIS : Z := 0.

(** [hsk_adc_enable] and [hsk_adc_disable] touch PMCON1 only: they are
    functions of that register. *)
Definition hsk_adc_enable (pmcon1 : Z) : Z :=
  u8 (Z.land pmcon1 (Z.lnot (Z.shiftl 1 BIT_ADC_DIS))).

Definition hsk_adc_disable (pmcon1 : Z) : Z :=
  u8 (Z.lor pmcon1 (Z.shiftl 1 BIT_ADC_DIS)).

(** ** The driver in use *)

(** What foreground code and converter can do to a driver in operation. *)
Inductive step : Type :=
  | StOpen10 (channel target : Z)
  | StOpen8 (channel target : Z)
  | StClose (channel : Z)
  | StService
  | StRequest (channel : Z)
  | StComplete (r : Z).

Definition do_step (st : step) (s : adc) : option adc :=
  match st with
  | StOpen10 channel target => Some (hsk_adc_open10 channel target s)
  | StOpen8 channel target => Some (hsk_adc_open8 channel target s)
  | StClose channel => hsk_adc_close channel s
  | StService => snd <$> hsk_adc_service s
  | StRequest channel => Some (snd (hsk_adc_request channel s))
  | StComplete r => Some (hw_complete r s)
  end.

Fixpoint do_steps (sts : list step) (s : adc) : option adc :=
  match sts with
  | [] => Some s
  | st :: sts => s ← do_step st s; do_steps sts s
  end.

(** A step the interface admits: channels of the converter, targets that
    are addresses. *)
Definition step_ok (st : step) : Prop :=
  match st with
  | StOpen10 channel target | StOpen8 channel target =>
      0 <= channel < ADC_CHANNELS /\ target <> 0
  | StClose channel | StRequest channel => 0 <= channel < ADC_CHANNELS
  | StService | StComplete _ => True
  end.

(** The driver is in order: the registry has its entries, the cursor is
    "none" or at an open channel, the queue holds at most [ADC_QUEUE]
    requests. *)
Definition driver_ok (s : adc) : Prop :=
  targets_ok s /\ cursor_valid s /\ (length (queue s) <= Z.to_nat ADC_QUEUE)%nat.

(** The driver is configured for 10 bit results. *)
Definition mode10 (s : adc) : Prop :=
  Z.land (Z.shiftr (ADC_GLOBCTR (regs s)) BIT_DW) 1 = ADC_RESOLUTION_10.

(** The driver is configured for 8 bit results. *)
Definition mode8 (s : adc) : Prop :=
  Z.land (Z.shiftr (ADC_GLOBCTR (regs s)) BIT_DW) 1 = ADC_RESOLUTION_8.


(** The clock ticks of a conversion of [bits] result bits with prescaler
    [ctc] and sample time [stc]; the bounds [hsk_adc_init] compares the
    ticks with are the conversions with the longest sample time, 255. *)
Definition conv_ticks (bits ctc stc : Z) : Z := 1 + clk_div ctc * (3 + bits + stc).

(** ADC_GLOBCTR as [hsk_adc_init] leaves it, from its old value, the
    resolution selector and the prescaler. *)
Definition globctr_after (g resolution ctc : Z) : Z :=
  let g := u8 (Z.lor (Z.land g (Z.lnot (Z.shiftl 1 BIT_DW))) (Z.shiftl resolution BIT_DW)) in
  let g := u8 (Z.lor (Z.land g (Z.lnot (Z.shiftl (Z.shiftl 1 CNT_CTC - 1) BIT_CTC)))
                     (Z.shiftl ctc BIT_CTC)) in
  u8 (Z.lor g (Z.shiftl 1 BIT_ANON)).

Definition check_globctr (g : Z) : bool :=
  forallb (fun resolution =>
    forallb (fun ctc =>
      let g' := globctr_after g resolution ctc in
      (Z.land (Z.shiftr g' BIT_DW) 1 =? resolution) &&
      (Z.land (Z.shiftr g' BIT_CTC) (Z.shiftl 1 CNT_CTC - 1) =? ctc) &&
      Z.testbit g' BIT_ANON &&
      (Z.land g' 15 =? Z.land g 15))
      (seqZ 0 4))
    [ADC_RESOLUTION_10; ADC_RESOLUTION_8].

Definition check_pmcon1 (p : Z) : bool :=
  (Z.land (hsk_adc_enable p) 1 =? 0) &&
  (Z.land (hsk_adc_disable p) 1 =? 1) &&
  (Z.shiftr (hsk_adc_enable p) 1 =? Z.shiftr p 1) &&
  (Z.shiftr (hsk_adc_disable p) 1 =? Z.shiftr p 1) &&
  (hsk_adc_enable (hsk_adc_disable p) =? hsk_adc_enable p) &&
  (hsk_adc_disable (hsk_adc_enable p) =? hsk_adc_disable p).


(** The state a warm-up leaves, the state itself if it does not return. *)
Definition after_warmup (sched : list (option Z)) (s : adc) : adc :=
  match hsk_adc_warmup10 sched s with
  | Some s' => s'
  | None => s
  end.


(** * ICM7228 display driver (hsk_icm7228.c) *)

(** The code page: the 7 segment pattern of every 7 bit ASCII character.
    Bit 7 of a pattern is the decimal point, lit when the bit is clear. *)
Definition codepage : list Z :=
  [0xFB; 0xB0; 0xED; 0xF5; 0xB6; 0xD7; 0xDF; 0xF0;
   0xFF; 0xF7; 0xFE; 0x9F; 0xCB; 0xBD; 0xCF; 0xCE;
   0x80; 0xC0; 0xE0; 0xF0; 0xF1; 0xF9; 0xFB; 0xFF;
   0x7F; 0x00; 0x00; 0x00; 0x00; 0x00; 0x00; 0x00;
   0x80; 0x00; 0x00; 0x00; 0x00; 0x82; 0x00; 0x00;
   0x00; 0x00; 0x00; 0x00; 0x00; 0x00; 0x00; 0x00;
   0xFB; 0xB0; 0xED; 0xF5; 0xB6; 0xD7; 0xDF; 0xF0;
   0xFF; 0xF7; 0xFE; 0x9F; 0xCB; 0xBD; 0xCF; 0xCE;
   0x00; 0xFE; 0x9F; 0xCB; 0xBD; 0xCF; 0xCE; 0xDF;
   0xBE; 0x8A; 0xB1; 0xDE; 0x8B; 0xFA; 0xFA; 0x9D;
   0xEE; 0xF6; 0x8C; 0xD7; 0x8F; 0xBB; 0x99; 0xBB;
   0xB4; 0xB6; 0xC5; 0x00; 0x00; 0x00; 0x00; 0x00;
   0x00; 0xFE; 0x9F; 0xCB; 0xBD; 0xCF; 0xCE; 0xDF;
   0xBE; 0x8A; 0xB1; 0xDE; 0x8B; 0xFA; 0xFA; 0x9D;
   0xEE; 0xF6; 0x8C; 0xD7; 0x8F; 0xBB; 0x99; 0xBB;
   0xB4; 0xB6; 0xC5; 0x00; 0x00; 0x00; 0x00; 0x00].

Definition ILLUMINATE_OFFSET : Z := 16.

(** A [char] after an increment: [char] is signed here, as the tests
    [power <= 0] of the driver for negative powers presume. *)
Definition s8 (x : Z) : Z := (x + 128) mod 256 - 128.

(** [buffer[i] = v]: the display buffer is the xdata memory from the
    address [buffer] on, a function of the offset. *)
Definition poke (buffer : Z -> Z) (i v : Z) : Z -> Z :=
  fun j => if j =? i then v else buffer j.

(** [codepage[i]]; [rom] is the code memory around the table, read for an
    index outside of it. *)
Definition codepage_at (rom : Z -> Z) (i : Z) : Z :=
  if i <? 0 then rom i
  else match codepage !! Z.to_nat i with
       | Some b => b
       | None => rom i
       end.



(** The loop of [hsk_icm7228_writeDec] with [len = n] on entry. *)
Fixpoint writeDec_loop (rom : Z -> Z) (n : nat) (buffer : Z -> Z) (value power pos point : Z)
  : Z -> Z :=
  match n with
  | O => buffer
  | S n =>
      let len := Z.of_nat n in
      let b := if negb (value =? 0) || (power <=? 0) then codepage_at rom (value mod 10)
               else codepage_at rom 32 in
      let b := if power =? 0 then Z.land b point else b in
      writeDec_loop rom n (poke buffer (pos + len) b) (value / 10) (s8 (power + 1)) pos point
  end.

Definition hsk_icm7228_writeDec (rom : Z -> Z) (buffer : Z -> Z) (value power pos len : Z)
  : Z -> Z :=
  let point := if negb (power =? 0) then 0x7f else 0xff in
  writeDec_loop rom (Z.to_nat len) buffer value power pos point.

(** The loop of [hsk_icm7228_writeHex] with [len = n] on entry. *)
Fixpoint writeHex_loop (rom : Z -> Z) (n : nat) (buffer : Z -> Z) (value power pos point : Z)
  : Z -> Z :=
  match n with
  | O => buffer
  | S n =>
      let len := Z.of_nat n in
      let b := if negb (value =? 0) || (power <=? 0) then codepage_at rom (Z.land value 0xf)
               else codepage_at rom 32 in
      let b := if power =? 0 then Z.land b point else b in
      writeHex_loop rom n (poke buffer (pos + len) b) (Z.shiftr value 4) (s8 (power + 1)) pos point
  end.

Definition hsk_icm7228_writeHex (rom : Z -> Z) (buffer : Z -> Z) (value power pos len : Z)
  : Z -> Z :=
  let point := if negb (power =? 0) then 0x7f else 0xff in
  writeHex_loop rom (Z.to_nat len) buffer value power pos point.

(** The loop of [hsk_icm7228_illuminate] with [len = n] on entry. *)
Fixpoint illuminate_loop (rom : Z -> Z) (n : nat) (buffer : Z -> Z) (segments pos : Z)
  : Z -> Z :=
  match n with
  | O => buffer
  | S n =>
      let illuminate := if segments >? 8 then 8 else segments in
      illuminate_loop rom n (poke buffer pos (codepage_at rom (ILLUMINATE_OFFSET + illuminate)))
                      (u8 (segments - illuminate)) (u8 (pos + 1))
  end.

Definition hsk_icm7228_illuminate (rom : Z -> Z) (buffer : Z -> Z) (segments pos len : Z)
  : Z -> Z :=
  illuminate_loop rom (Z.to_nat len) buffer segments pos.

(** *** Reading a display buffer *)

(** The position of [b] in [l], counted from [i]. *)
Fixpoint index_of (b : Z) (l : list Z) (i : Z) : option Z :=
  match l with
  | [] => None
  | x :: l => if x =? b then Some i else index_of b l (i + 1)
  end.

(** The digit a pattern shows in base [base]: the decimal point is
    ignored, a blank counts as 0, and the pattern must be that of one of
    the first [base] characters of the code page. *)
Definition glyph_digit (base : Z) (b : Z) : option Z :=
  let g := Z.lor b 0x80 in
  if g =? 0x80 then Some 0 else index_of g (take (Z.to_nat base) codepage) 0.

(** The number [n] cells from [pos] on show, most significant digit
    first. *)
Fixpoint read_number (base : Z) (buffer : Z -> Z) (pos : Z) (n : nat) : option Z :=
  match n with
  | O => Some 0
  | S n =>
      hi ← read_number base buffer pos n;
      d ← glyph_digit base (buffer (pos + Z.of_nat n));
      Some (hi * base + d)
  end.

(** The segments a pattern lights, the decimal point included. *)
Definition lit (b : Z) : Z :=
  Z.of_nat (length (List.filter (Z.testbit (Z.lxor b 0x80)) (seqZ 0 8))).

(** The segments [n] cells from [pos] on light. *)
Fixpoint lit_cells (buffer : Z -> Z) (pos : Z) (n : nat) : Z :=
  match n with
  | O => 0
  | S n => lit (buffer pos) + lit_cells buffer (pos + 1) n
  end.

(** The pattern of digit [k] (counted from the right) that
    [hsk_icm7228_writeDec] and [hsk_icm7228_writeHex] are to write for
    [value] in base [base] with the power [power]: the digit, a blank in
    place of a leading zero left of the point, the point lit at the
    digit of power 0. *)
Definition digit_pattern (base value power k : Z) : Z :=
  let v := value / base ^ k in
  let b := if (v =? 0) && (0 <? power + k) then nth 32 codepage 0
           else nth (Z.to_nat (v mod base)) codepage 0 in
  if (power + k =? 0) && negb (power =? 0) then Z.land b 0x7f else b.

Definition check_glyphs (point : Z) : bool :=
  forallb (fun d =>
    bool_decide (glyph_digit 10 (Z.land (nth (Z.to_nat d) codepage 0) point) = Some d))
    (seqZ 0 10) &&
  forallb (fun d =>
    bool_decide (glyph_digit 16 (Z.land (nth (Z.to_nat d) codepage 0) point) = Some d))
    (seqZ 0 16) &&
  forallb (fun base =>
    bool_decide (glyph_digit base (Z.land (nth 32 codepage 0) point) = Some 0)) [10; 16].

(** The loops of [hsk_icm7228_writeDec] and [hsk_icm7228_writeHex] in one:
    digits in base [base]. *)
Fixpoint digits_loop (base : Z) (n : nat) (buffer : Z -> Z) (value power pos point : Z)
  : Z -> Z :=
  match n with
  | O => buffer
  | S n =>
      let b := if negb (value =? 0) || (power <=? 0)
               then nth (Z.to_nat (value mod base)) codepage 0
               else nth 32 codepage 0 in
      let b := if power =? 0 then Z.land b point else b in
      digits_loop base n (poke buffer (pos + Z.of_nat n) b) (value / base) (s8 (power + 1))
                  pos point
  end.

(** [digit_pattern] with the mask of the point left open. *)
Definition masked_pattern (base point value power k : Z) : Z :=
  let v := value / base ^ k in
  let b := if (v =? 0) && (0 <? power + k) then nth 32 codepage 0
           else nth (Z.to_nat (v mod base)) codepage 0 in
  if power + k =? 0 then Z.land b point else b.




(** * Properties *)

(** ** Basic facts *)

(** Case analysis on the condition of a conditional of the goal. *)
Ltac case_cond :=
  match goal with |- context [if ?c then _ else _] => destruct c eqn:? end.

Lemma result_channel_range (s : adc) : 0 <= result_channel s < ADC_CHANNELS.
Proof.
  unfold result_channel, BIT_CHNR, CNT_CHNR, ADC_CHANNELS.
  rewrite Z.shiftr_0_r. change (Z.shiftl 1 3 - 1) with (Z.ones 3).
  rewrite Z.land_ones by lia. apply Z.mod_pos_bound. reflexivity.
Qed.

Lemma result_value10_range (s : adc) : 0 <= result_value10 s <= 1023.
Proof.
  unfold result_value10, CNT_RESULT.
  change (Z.shiftl 1 10 - 1) with (Z.ones 10).
  rewrite Z.land_ones by lia.
  pose proof (Z.mod_pos_bound (Z.shiftr (ADC_RESR0LH s) BIT_RESULT) (2 ^ 10) eq_refl).
  change (2 ^ 10) with 1024 in *. lia.
Qed.

Lemma read_target_lookup (s : adc) (i p : Z) :
  targets s !! Z.to_nat i = Some p -> read_target s i = p.
Proof. unfold read_target. intros ->. reflexivity. Qed.

Lemma audit_write_target (i p : Z) (s : adc) :
  audit (write_target i p s) = (WrTarget i p, EADC s) :: audit s.
Proof. unfold write_target. cbn. destruct (targets s !! Z.to_nat i); reflexivity. Qed.

Lemma EADC_write_target (i p : Z) (s : adc) : EADC (write_target i p s) = EADC s.
Proof. unfold write_target. cbn. destruct (targets s !! Z.to_nat i); reflexivity. Qed.

Lemma nextChannel_write_target (i p : Z) (s : adc) :
  nextChannel (write_target i p s) = nextChannel s.
Proof. unfold write_target. cbn. destruct (targets s !! Z.to_nat i); reflexivity. Qed.

(** The search loop of [hsk_adc_close] ends for every channel up to 247,
    not before its start and not past the bound of the loop. *)
Lemma close_scan_total (s : adc) (channel : Z) :
  0 <= channel -> channel + ADC_CHANNELS <= 255 ->
  forall (fuel : nat) (n : Z),
    0 <= n <= channel + ADC_CHANNELS ->
    (Z.to_nat (channel + ADC_CHANNELS - n) < fuel)%nat ->
    exists m reads,
      close_scan fuel s channel n = Some (m, reads) /\ n <= m <= channel + ADC_CHANNELS.
Proof.
  intros Hc Hb fuel. induction fuel as [|fuel IH]; intros n Hn Hf; [lia|].
  cbn [close_scan].
  destruct (n <? channel + ADC_CHANNELS) eqn:Hlt.
  - apply Z.ltb_lt in Hlt.
    destruct (read_target s n =? 0).
    + assert (Hu : u8 (n + 1) = n + 1) by (unfold u8; apply Z.mod_small; lia).
      rewrite Hu.
      destruct (IH (n + 1)) as (m & reads & -> & Hm); [lia|lia|].
      cbn. exists m, (n :: reads). split; [reflexivity|lia].
    + exists n, [n]. split; [reflexivity|lia].
  - exists n, []. split; [reflexivity|lia].
Qed.

Lemma open10_cases (channel target : Z) (s : adc) :
  hsk_adc_open10 channel target s = s \/
  hsk_adc_open10 channel target s = opened channel target s.
Proof. unfold hsk_adc_open10. case_cond; [left|right]; reflexivity. Qed.

Lemma open8_cases (channel target : Z) (s : adc) :
  hsk_adc_open8 channel target s = s \/
  hsk_adc_open8 channel target s = opened channel target s.
Proof. unfold hsk_adc_open8. case_cond; [left|right]; reflexivity. Qed.

(** [hsk_adc_close] by cases: the cursor is elsewhere, or the search from
    the cursor ends at some [m] and the cursor becomes [m % ADC_CHANNELS]
    or "none". *)
Lemma close_traced_cases (channel : Z) (s : adc) :
  0 <= channel < ADC_CHANNELS ->
  let s1 := cleared channel s in
  (nextChannel s <> channel /\ close_traced channel s = Some (s1, [])) \/
  (nextChannel s = channel /\
   exists m reads,
     close_scan 256 s1 channel channel = Some (m, reads) /\
     channel <= m <= channel + ADC_CHANNELS /\
     close_traced channel s =
       Some (set_nextChannel (if read_target s1 (m mod ADC_CHANNELS) =? 0 then ADC_CHANNELS
                              else m mod ADC_CHANNELS) s1,
             reads ++ [m mod ADC_CHANNELS])).
Proof.
  intros Hc s1. unfold close_traced. fold (cleared channel s). fold s1.
  assert (Hn : nextChannel s1 = nextChannel s)
    by (unfold s1, cleared; cbn; rewrite nextChannel_write_target; reflexivity).
  rewrite Hn.
  destruct (nextChannel s =? channel) eqn:He.
  - apply Z.eqb_eq in He. right. split; [assumption|]. rewrite He.
    unfold ADC_CHANNELS in Hc.
    destruct (close_scan_total s1 channel) with (fuel := 256%nat) (n := channel)
      as (m & reads & Hscan & Hm); unfold ADC_CHANNELS; try lia.
    exists m, reads. rewrite Hscan. cbn.
    split; [reflexivity|]. split; [exact Hm|].
    change (read_target (set_nextChannel (m mod 8) s1) (m mod 8))
      with (read_target s1 (m mod 8)).
    unfold ADC_CHANNELS. destruct (read_target s1 (m mod 8) =? 0); reflexivity.
  - apply Z.eqb_neq in He. left. split; [assumption|reflexivity].
Qed.

Lemma close_traced_total (channel : Z) (s : adc) :
  0 <= channel < ADC_CHANNELS ->
  exists s1 reads,
    close_traced channel s = Some (s1, reads) /\
    audit s1 = (WrTarget channel 0, false) :: audit s /\
    EADC s1 = EADC s.
Proof.
  intros Hc.
  assert (Ha : audit (cleared channel s) = (WrTarget channel 0, false) :: audit s)
    by (unfold cleared; cbn; rewrite audit_write_target; reflexivity).
  destruct (close_traced_cases channel s Hc) as [[_ ->]|[_ (m & reads & _ & _ & ->)]];
    eexists; eexists; (split; [reflexivity|]); split; try exact Ha; reflexivity.
Qed.

(** ** Result delivery *)

(** C6.  On a completion for channel [result_channel s]: if the target [T]
    of that channel is registered, the handler (10 bit or 8 bit) stores the
    raw result, masked to ten bits or the result byte, into [T] and does
    nothing else: one store is logged and the rest of the memory is
    untouched; if no target is registered the handler changes nothing, so
    it stores through no target pointer. *)
Theorem isr_delivers_result_once (s : adc) (T : Z) :
  targets s !! Z.to_nat (result_channel s) = Some T ->
  (T <> 0 ->
     stores (hsk_adc_isr10 s) = (T, result_value10 s) :: stores s /\
     mem (hsk_adc_isr10 s) T = result_value10 s /\
     (forall a, a <> T -> mem (hsk_adc_isr10 s) a = mem s a) /\
     stores (hsk_adc_isr8 s) = (T, ADC_RESR0H s) :: stores s /\
     mem (hsk_adc_isr8 s) T = ADC_RESR0H s /\
     (forall a, a <> T -> mem (hsk_adc_isr8 s) a = mem s a)) /\
  (T = 0 -> hsk_adc_isr10 s = s /\ hsk_adc_isr8 s = s).
Proof.
  intros Hl. apply read_target_lookup in Hl.
  unfold hsk_adc_isr10, hsk_adc_isr8. rewrite Hl. split.
  - intros HT. apply Z.eqb_neq in HT. rewrite HT. cbn.
    rewrite Z.eqb_refl.
    repeat split; try reflexivity; intros a Ha; apply Z.eqb_neq in Ha; rewrite Ha; reflexivity.
  - intros ->. cbn. split; reflexivity.
Qed.

(** The handler reads [targets] inside the array whatever the result
    register holds. *)
Lemma isr_reads_in_bounds (s : adc) :
  targets_ok s -> is_Some (targets s !! Z.to_nat (result_channel s)).
Proof.
  intros Hok. apply lookup_lt_is_Some. rewrite Hok.
  pose proof (result_channel_range s). lia.
Qed.

(** What the converter latches is what the handler extracts: the channel
    of the finished request and its ten result bits. *)
Lemma latched_result (r c : Z) (s : adc) :
  0 <= c < ADC_CHANNELS ->
  let w := Z.lor (Z.shiftl (Z.land r 1023) BIT_RESULT) (Z.lor (Z.shiftl 1 4) (Z.land c 7)) in
  let s' := set_result (Z.land w 255) (Z.shiftr w 8) s in
  result_channel s' = c /\ result_value10 s' = Z.land r 1023.
Proof.
  intros Hc.
  assert (Hr : 0 <= Z.land r 1023 < 0 + 1024).
  { change 1023 with (Z.ones 10). rewrite Z.land_ones by lia. apply Z.mod_pos_bound. lia. }
  unfold result_channel, result_value10, ADC_RESR0LH. cbn [ADC_RESR0L ADC_RESR0H set_result].
  generalize dependent (Z.land r 1023). intros v Hv.
  pose (chk := fun c v : Z =>
    let w := Z.lor (Z.shiftl v BIT_RESULT) (Z.lor (Z.shiftl 1 4) (Z.land c 7)) in
    (Z.land (Z.shiftr (Z.land w 255) BIT_CHNR) (Z.shiftl 1 CNT_CHNR - 1) =? c) &&
    (Z.land (Z.shiftr (Z.shiftr w 8 * 256 + Z.land w 255) BIT_RESULT) (Z.shiftl 1 CNT_RESULT - 1)
     =? v)).
  assert (Hall : forallb (fun c => forallb (chk c) (seqZ 0 1024)) (seqZ 0 ADC_CHANNELS) = true)
    by (vm_compute; reflexivity).
  rewrite forallb_forall in Hall.
  specialize (Hall c). rewrite <- list_elem_of_In, elem_of_seqZ in Hall.
  specialize (Hall ltac:(unfold ADC_CHANNELS in *; lia)).
  rewrite forallb_forall in Hall.
  specialize (Hall v). rewrite <- list_elem_of_In, elem_of_seqZ in Hall.
  specialize (Hall Hv). unfold chk in Hall.
  apply andb_true_iff in Hall as [H1 H2].
  apply Z.eqb_eq in H1, H2. split; assumption.
Qed.

(** A completion for a channel with a registered target, the 10 bit
    handler installed and the interrupt enabled, delivers the ten result
    bits of the converter. *)
Lemma hw_complete_delivers (r c T : Z) (q : list Z) (s : adc) :
  queue s = c :: q -> 0 <= c < ADC_CHANNELS ->
  EADC s = true -> ADCSR0 s = H_isr10 ->
  targets s !! Z.to_nat c = Some T -> T <> 0 ->
  stores (hw_complete r s) = (T, Z.land r 1023) :: stores s /\
  mem (hw_complete r s) T = Z.land r 1023.
Proof.
  intros Hq Hc He Hh Ht HT. unfold hw_complete. rewrite Hq.
  destruct (latched_result r c (set_queue q s) Hc) as [Hch Hval]. cbn zeta in Hch, Hval.
  set (s1 := set_result _ _ (set_queue q s)) in *.
  change (EADC s1) with (EADC s). rewrite He.
  unfold run_handler. change (ADCSR0 s1) with (ADCSR0 s). rewrite Hh.
  unfold hsk_adc_isr10. rewrite Hch, Hval.
  assert (Hrd : read_target s1 c = T) by (apply read_target_lookup; exact Ht).
  rewrite Hrd. apply Z.eqb_neq in HT. rewrite HT. cbn.
  rewrite Z.eqb_refl. split; reflexivity.
Qed.

(** C9.  The mark of the warm-up is no conversion result: what the 10 bit
    handler stores into a registered target is at most 1023, below
    [0xffff], so one delivery for a channel leaves a value other than the
    mark in that channel's target, whatever the target held. *)
Theorem isr10_overwrites_warmup_mark (s : adc) (T : Z) :
  targets s !! Z.to_nat (result_channel s) = Some T ->
  T <> 0 ->
  0 <= mem (hsk_adc_isr10 s) T <= 1023 /\
  1023 < WARMUP_MARK /\
  mem (hsk_adc_isr10 s) T <> WARMUP_MARK /\
  (mem (hsk_adc_isr10 s) T =? u16 (-1)) = false.
Proof.
  intros Hl HT. apply read_target_lookup in Hl.
  assert (Hm : mem (hsk_adc_isr10 s) T = result_value10 s).
  { unfold hsk_adc_isr10. rewrite Hl. apply Z.eqb_neq in HT. rewrite HT. cbn.
    rewrite Z.eqb_refl. reflexivity. }
  rewrite Hm. pose proof (result_value10_range s) as Hr.
  unfold WARMUP_MARK. change (u16 (-1)) with 65535.
  split; [lia|]. split; [lia|]. split; [lia|]. apply Z.eqb_neq. lia.
Qed.

(** ** Requests *)

(** [hsk_adc_request] by the fill of the queue. *)
Lemma request_by_fill (channel : Z) (s : adc) :
  0 <= channel < ADC_CHANNELS ->
  (length (queue s) <= Z.to_nat ADC_QUEUE)%nat ->
  (length (queue s) = Z.to_nat ADC_QUEUE -> hsk_adc_request channel s = (false, s)) /\
  (length (queue s) <> Z.to_nat ADC_QUEUE ->
     hsk_adc_request channel s = (true, write_QINR0 channel s) /\
     requests (write_QINR0 channel s) = requests s ++ [channel] /\
     queue (write_QINR0 channel s) = queue s ++ [channel]) /\
  (length (queue (snd (hsk_adc_request channel s))) <= Z.to_nat ADC_QUEUE)%nat.
Proof.
  intros Hc Hq. unfold ADC_CHANNELS in Hc.
  assert (Hu : u8 (Z.shiftl channel BIT_REQCHNR) = channel).
  { unfold BIT_REQCHNR, u8. rewrite Z.shiftl_0_r. apply Z.mod_small. lia. }
  assert (Hl : Z.land channel (Z.shiftl 1 CNT_REQCHNR - 1) = channel).
  { change (Z.shiftl 1 CNT_REQCHNR - 1) with (Z.ones 3).
    rewrite Z.land_ones by lia. apply Z.mod_small. change (2 ^ 3) with 8. lia. }
  unfold hsk_adc_request, ADC_QSR0, write_QINR0. rewrite Hu. cbn [queue requests set_requests set_queue].
  rewrite Hl.
  change (Z.to_nat ADC_QUEUE) with 4%nat in *.
  destruct (queue s) as [|q0 [|q1 [|q2 [|q3 [|q4 q]]]]] eqn:Hqs; cbn [length] in Hq; try lia;
    destruct (ev s); cbn;
    match goal with
    | |- context [Z.land ?a ?b =? ?c] =>
        let v := eval vm_compute in (Z.land a b =? c) in
        change (Z.land a b =? c) with v
    end; cbn;
    (split; [intros ?; try lia; reflexivity|]);
    (split; [intros ?; try lia; repeat split; reflexivity|]);
    rewrite ?Hqs; cbn; lia.
Qed.

(** C5.  With at most [ADC_QUEUE] = 4 requests pending, [hsk_adc_request]
    returns false and changes nothing, so writes nothing to ADC_QINR0, if
    four requests are pending; with fewer it writes the channel to
    ADC_QINR0, which queues it, and returns true.  Either way at most four
    requests are pending afterwards. *)
Theorem request_respects_queue_bound (channel : Z) (s : adc) :
  0 <= channel < ADC_CHANNELS ->
  (length (queue s) <= Z.to_nat ADC_QUEUE)%nat ->
  (length (queue s) = Z.to_nat ADC_QUEUE -> hsk_adc_request channel s = (false, s)) /\
  (length (queue s) <> Z.to_nat ADC_QUEUE ->
     hsk_adc_request channel s = (true, write_QINR0 channel s) /\
     requests (write_QINR0 channel s) = requests s ++ [channel] /\
     queue (write_QINR0 channel s) = queue s ++ [channel]) /\
  (length (queue (snd (hsk_adc_request channel s))) <= Z.to_nat ADC_QUEUE)%nat.
Proof. exact (request_by_fill channel s). Qed.

(** ** Conversion timing *)

(** C4, at a conversion time whose clock ticks do not fit into 16 bits:
    [hsk_adc_init(ADC_RESOLUTION_10, 2740)] computes with 224 ticks instead
    of 65760, selects the fastest prescaler and programs the sample time
    98, although no prescaler has a sample time of at most 255 for 65760
    ticks, the case in which the sample time is to be 255. *)
Theorem init_timing_wraps_at_2740 :
  u16 (2740 * 24) = 224 /\
  conv_timing ADC_RESOLUTION_10 2740 = (ADC_CLK_12MHz, 98) /\
  ADC_INPCR0 (regs (hsk_adc_init ADC_RESOLUTION_10 2740 (power_on (fun _ => 0)))) = 98 /\
  Forall (fun ctc => 255 < ideal_stc 10 (2740 * 24) ctc)
         [ADC_CLK_12MHz; ADC_CLK_8MHz; ADC_CLK_6MHz; ADC_CLK_750kHz].
Proof.
  split; [reflexivity|]. split; [reflexivity|]. split; [reflexivity|].
  repeat constructor.
Qed.

(** Another wrapped tick count: [hsk_adc_init(ADC_RESOLUTION_8, 2764)]
    computes with 800 ticks instead of 66336 and selects the 6 MHz
    prescaler, although on 800 ticks the 8 MHz prescaler has the sample
    time 255; on tick counts that did not wrap the tests of the driver
    never meet this gap. *)
Example init_timing_wraps_at_2764 :
  u16 (2764 * 24) = 800 /\
  conv_timing ADC_RESOLUTION_8 2764 = (ADC_CLK_6MHz, 188) /\
  wrapped_stc 8 800 ADC_CLK_8MHz = 255 /\
  Forall (fun ctc => 255 < ideal_stc 8 (2764 * 24) ctc)
         [ADC_CLK_12MHz; ADC_CLK_8MHz; ADC_CLK_6MHz; ADC_CLK_750kHz].
Proof.
  split; [reflexivity|]. split; [reflexivity|]. split; [reflexivity|].
  repeat constructor.
Qed.

(** On conversion times whose clock ticks fit into 16 bits and that are
    not below the shortest conversion, the timing computation does what
    its comments say: it selects the fastest prescaler whose sample time
    is at most 255, the slowest if none is, and the sample time is the
    ideal one, cut at 255. *)
Lemma conv_timing_in_range (resolution convTime : Z) :
  resolution = ADC_RESOLUTION_10 \/ resolution = ADC_RESOLUTION_8 ->
  0 <= convTime -> convTime * 24 < 65536 ->
  0 <= ideal_stc (result_bits resolution) (convTime * 24) ADC_CLK_12MHz ->
  let bits := result_bits resolution in
  let ctc := fst (conv_timing resolution convTime) in
  let stc := snd (conv_timing resolution convTime) in
  stc = Z.min 255 (ideal_stc bits (convTime * 24) ctc) /\
  0 <= ctc <= 3 /\
  (forall p, 0 <= p < ctc -> 255 < ideal_stc bits (convTime * 24) p) /\
  (ideal_stc bits (convTime * 24) ctc <= 255 \/ ctc = ADC_CLK_750kHz).
Proof.
  intros Hres H0 Hfit Hmin bits ctc stc.
  assert (Hall : forallb (fun c => check_timing ADC_RESOLUTION_10 c && check_timing ADC_RESOLUTION_8 c)
                         (seqZ 0 2731) = true) by (vm_compute; reflexivity).
  rewrite forallb_forall in Hall. specialize (Hall convTime).
  rewrite <- list_elem_of_In, elem_of_seqZ in Hall. specialize (Hall ltac:(lia)).
  apply andb_true_iff in Hall as [H10 H8].
  assert (Hchk : check_timing resolution convTime = true) by (destruct Hres; subst; assumption).
  clear H10 H8. unfold check_timing in Hchk. fold bits in Hchk.
  subst ctc stc. destruct (conv_timing resolution convTime) as [ctc stc]. cbn [fst snd].
  fold bits in Hmin. apply Z.leb_le in Hmin. rewrite Hmin in Hchk. cbn [implb] in Hchk.
  repeat (apply andb_true_iff in Hchk as [Hchk ?]).
  rewrite forallb_forall in *.
  split; [lia|]. split; [lia|]. split.
  - intros p Hp. apply Z.ltb_lt.
    match goal with H : forall x, In x _ -> _ |- _ => apply H end.
    rewrite <- list_elem_of_In, elem_of_seqZ. lia.
  - match goal with H : (_ || _) = true |- _ => apply orb_true_iff in H as [H|H] end;
      [left; lia | right; lia].
Qed.

(** ** Critical sections *)

(** C8, the claim as it stands, at a caller that has masked the interrupt:
    the handler swap of the warm-up leaves the interrupt enabled. *)
Lemma warmup_hijack_does_not_restore_EADC :
  EADC sample_masked = false /\
  EADC (warmup10_hijack (warmup10_mark sample_masked)) = true /\
  EADC (warmup10_hijack (warmup10_mark sample_masked)) <> EADC sample_masked.
Proof. vm_compute. repeat split; discriminate. Qed.

(** C8, amended.  The registration of a target in open, the clearing of a
    target in close and the handler swap of the warm-up are done with EADC
    cleared; open and close then put EADC back to the value it had on
    entry, the warm-up sets it. *)
Theorem shared_writes_are_masked (channel target : Z) (s : adc) :
  0 <= channel < ADC_CHANNELS ->
  (audit (hsk_adc_open10 channel target s) = audit s \/
   audit (hsk_adc_open10 channel target s) = (WrTarget channel target, false) :: audit s) /\
  EADC (hsk_adc_open10 channel target s) = EADC s /\
  (audit (hsk_adc_open8 channel target s) = audit s \/
   audit (hsk_adc_open8 channel target s) = (WrTarget channel target, false) :: audit s) /\
  EADC (hsk_adc_open8 channel target s) = EADC s /\
  audit <$> hsk_adc_close channel s = Some ((WrTarget channel 0, false) :: audit s) /\
  EADC <$> hsk_adc_close channel s = Some (EADC s) /\
  audit (warmup10_hijack s) = (WrHandler H_isr_warmup10, false) :: audit s /\
  ADCSR0 (warmup10_hijack s) = H_isr_warmup10 /\
  EADC (warmup10_hijack s) = true.
Proof.
  intros Hc.
  assert (Ho : audit (opened channel target s) = (WrTarget channel target, false) :: audit s
               /\ EADC (opened channel target s) = EADC s).
  { unfold opened. cbn zeta. case_cond; cbn; rewrite audit_write_target; split; reflexivity. }
  destruct Ho as [Hoa Hoe].
  split; [destruct (open10_cases channel target s) as [->| ->]; auto|].
  split; [destruct (open10_cases channel target s) as [->| ->]; auto|].
  split; [destruct (open8_cases channel target s) as [->| ->]; auto|].
  split; [destruct (open8_cases channel target s) as [->| ->]; auto|].
  destruct (close_traced_total channel s Hc) as (s1 & reads & Hcl & Ha & He).
  unfold hsk_adc_close. rewrite Hcl. cbn. rewrite Ha, He.
  repeat split; reflexivity.
Qed.

(** What a call of [hsk_adc_service] can change: nothing, or the request
    log, the queue and the cursor. *)
Lemma service_frame (s s1 : adc) (b : bool) :
  hsk_adc_service s = Some (b, s1) ->
  s1 = s \/
  exists n, s1 = set_nextChannel n (write_QINR0 (u8 (Z.shiftl (nextChannel s) BIT_REQCHNR)) s).
Proof.
  unfold hsk_adc_service, hsk_adc_request.
  destruct (nextChannel s >=? ADC_CHANNELS); [intros [= _ <-]; left; reflexivity|].
  match goal with |- context [if ?c then (false, s) else _] => destruct c end.
  - intros [= _ <-]. left. reflexivity.
  - destruct (service_scan 256 _ _) as [n|]; cbn; [|discriminate].
    intros [= _ <-]. right. eexists. reflexivity.
Qed.

Lemma write_QINR0_frame (v : Z) (s : adc) :
  EADC (write_QINR0 v s) = EADC s /\ ADCSR0 (write_QINR0 v s) = ADCSR0 s /\
  targets (write_QINR0 v s) = targets s /\ beyond (write_QINR0 v s) = beyond s /\
  nextChannel (write_QINR0 v s) = nextChannel s /\
  requests (write_QINR0 v s) = requests s ++ [v].
Proof. unfold write_QINR0. cbn. case_cond; cbn; repeat split; reflexivity. Qed.

(** What the converter and the handlers can change leaves the registry,
    the cursor, the request log and the interrupt enable alone. *)
Lemma hw_event_frame (e : option Z) (s : adc) :
  hw_agrees s (hw_event e s) /\ EADC (hw_event e s) = EADC s.
Proof.
  unfold hw_agrees. destruct e as [r|]; cbn [hw_event]; [|repeat split; reflexivity].
  unfold hw_complete. destruct (queue s); [repeat split; reflexivity|].
  cbn [EADC set_result set_queue]. destruct (EADC s) eqn:He; [|repeat split; assumption].
  unfold run_handler. cbn [ADCSR0 set_result set_queue].
  destruct (ADCSR0 s); [repeat split; assumption| | |];
    unfold hsk_adc_isr_warmup10, hsk_adc_isr10, hsk_adc_isr8;
    repeat match goal with |- context [if ?b then _ else _] => destruct b end;
    cbn; repeat split; assumption.
Qed.

(** The handler swap is the only write of the warm-up to the interrupt
    enable: a warm-up that returns leaves the interrupt enabled. *)
Lemma warmup_loop_keeps_EADC (sched : list (option Z)) :
  forall s s', warmup_loop sched s = Some s' -> EADC s' = EADC s.
Proof.
  induction sched as [|e sched IH]; intros s s' H; cbn [warmup_loop] in H.
  - destruct (bool_decide _); [discriminate|]. congruence.
  - destruct (bool_decide _); [|congruence].
    destruct (hsk_adc_service s) as [[b s1]|] eqn:Hs; [|discriminate]. cbn in H.
    apply IH in H. rewrite H. clear H IH.
    destruct (hw_event_frame e s1) as [_ ->].
    apply service_frame in Hs as [->|[n ->]]; [reflexivity|].
    cbn. apply write_QINR0_frame.
Qed.

(** ** The registry and the cursor under open and close *)

Lemma read_target_write (c p i : Z) (s : adc) :
  targets_ok s -> 0 <= c < ADC_CHANNELS -> 0 <= i ->
  read_target (write_target c p s) i = if i =? c then p else read_target s i.
Proof.
  intros Hok Hc Hi. unfold targets_ok in Hok. unfold ADC_CHANNELS in *.
  unfold read_target, write_target. cbn [targets set_audit].
  destruct (lookup_lt_is_Some_2 (targets s) (Z.to_nat c)) as [x Hx]; [lia|].
  rewrite Hx. cbn [targets set_targets beyond].
  destruct (Z.eqb_spec i c) as [->|Hne].
  - rewrite list_lookup_insert_eq by lia. reflexivity.
  - rewrite list_lookup_insert_ne by lia. reflexivity.
Qed.

Lemma targets_ok_write (c p : Z) (s : adc) :
  targets_ok s -> targets_ok (write_target c p s).
Proof.
  unfold targets_ok, write_target. cbn [targets set_audit]. intros Hok.
  destruct (targets s !! Z.to_nat c); cbn; [rewrite length_insert|]; assumption.
Qed.

Lemma opened_valid (c t : Z) (s : adc) :
  targets_ok s -> cursor_valid s -> 0 <= c < ADC_CHANNELS -> t <> 0 ->
  targets_ok (opened c t s) /\ cursor_valid (opened c t s).
Proof.
  intros Hok Hcur Hc Ht. unfold opened. cbn zeta.
  set (s1 := set_EADC (EADC s) (write_target c t (set_EADC false s))).
  assert (Hok1 : targets_ok s1) by (apply (targets_ok_write c t (set_EADC false s)); exact Hok).
  assert (Hrd : forall i, 0 <= i -> is_open s1 i = if i =? c then true else is_open s i).
  { intros i Hi. unfold is_open.
    change (read_target s1 i) with (read_target (write_target c t (set_EADC false s)) i).
    rewrite read_target_write by assumption.
    destruct (i =? c); [|reflexivity].
    apply Z.eqb_neq in Ht. rewrite Ht. reflexivity. }
  assert (Hn : nextChannel s1 = nextChannel s)
    by (unfold s1; cbn; rewrite nextChannel_write_target; reflexivity).
  rewrite Hn. destruct (nextChannel s >=? ADC_CHANNELS) eqn:Hge.
  - split; [exact Hok1|]. right. cbn [nextChannel set_nextChannel]. split; [assumption|].
    change (is_open (set_nextChannel c s1) c) with (is_open s1 c).
    rewrite Hrd by lia. rewrite Z.eqb_refl. reflexivity.
  - split; [exact Hok1|]. unfold cursor_valid. rewrite Hn.
    destruct Hcur as [H8|[Hr Ho]]; [rewrite H8 in Hge; discriminate|].
    right. split; [assumption|]. rewrite Hrd by lia.
    destruct (_ =? _); [reflexivity|assumption].
Qed.

Lemma close_valid (c : Z) (s : adc) :
  targets_ok s -> cursor_valid s -> 0 <= c < ADC_CHANNELS ->
  exists s', hsk_adc_close c s = Some s' /\ targets_ok s' /\ cursor_valid s'.
Proof.
  intros Hok Hcur Hc. unfold hsk_adc_close.
  assert (Hok1 : targets_ok (cleared c s))
    by (apply (targets_ok_write c 0 (set_EADC false s)); exact Hok).
  pose proof (close_traced_cases c s Hc) as Hcases. cbn zeta in Hcases.
  destruct Hcases as [[Hne ->]|[Heq (m & reads & _ & Hm & ->)]]; cbn.
  - eexists. split; [reflexivity|]. split; [exact Hok1|].
    assert (Hn : nextChannel (cleared c s) = nextChannel s)
      by (unfold cleared; cbn; rewrite nextChannel_write_target; reflexivity).
    unfold cursor_valid. rewrite Hn.
    destruct Hcur as [H8|[Hr Ho]]; [left; assumption|right].
    split; [assumption|]. unfold is_open in *.
    change (read_target (cleared c s) (nextChannel s))
      with (read_target (write_target c 0 (set_EADC false s)) (nextChannel s)).
    rewrite read_target_write by (assumption || lia).
    apply Z.eqb_neq in Hne. rewrite Hne. exact Ho.
  - eexists. split; [reflexivity|]. split; [exact Hok1|].
    unfold cursor_valid. cbn [nextChannel set_nextChannel].
    destruct (read_target (cleared c s) (m mod ADC_CHANNELS) =? 0) eqn:Hz; [left; reflexivity|].
    right. split; [apply Z.mod_pos_bound; reflexivity|].
    unfold is_open.
    change (read_target (set_nextChannel (m mod ADC_CHANNELS) (cleared c s)) (m mod ADC_CHANNELS))
      with (read_target (cleared c s) (m mod ADC_CHANNELS)).
    rewrite Hz. reflexivity.
Qed.

(** The part of C1 that holds.  Whatever lies past [targets], every
    sequence of open and close calls on the channels 0 to 7 returns and
    leaves the cursor at "none" or at an open channel. *)
Lemma calls_keep_cursor_valid (cs : list call) :
  forall s, targets_ok s -> cursor_valid s -> Forall call_ok cs ->
  exists s', do_calls cs s = Some s' /\ targets_ok s' /\ cursor_valid s'.
Proof.
  induction cs as [|c cs IH]; intros s Hok Hcur Hcs.
  - exists s. auto.
  - inversion Hcs as [|? ? Hc Hcs']; subst. cbn [do_calls].
    assert (Hstep : exists s1, do_call c s = Some s1 /\ targets_ok s1 /\ cursor_valid s1).
    { destruct c as [ch t|ch t|ch]; cbn [do_call call_ok] in *.
      - destruct Hc as [Hch Ht]. eexists. split; [reflexivity|].
        destruct (open10_cases ch t s) as [-> | ->]; [auto|apply opened_valid; assumption].
      - destruct Hc as [Hch Ht]. eexists. split; [reflexivity|].
        destruct (open8_cases ch t s) as [-> | ->]; [auto|apply opened_valid; assumption].
      - apply close_valid; assumption. }
    destruct Hstep as (s1 & -> & Hok1 & Hcur1). cbn. apply IH; assumption.
Qed.

(** ** The search of close *)

Lemma close_scan_skip (s : adc) (c n : Z) (fuel : nat) :
  n < c + ADC_CHANNELS -> read_target s n = 0 ->
  close_scan (S fuel) s c n =
    ('(m, reads) ← close_scan fuel s c (u8 (n + 1)); Some (m, n :: reads)).
Proof.
  intros Hlt Hz. cbn [close_scan]. apply Z.ltb_lt in Hlt. rewrite Hlt, Hz. reflexivity.
Qed.

Lemma close_scan_stop (s : adc) (c n : Z) (fuel : nat) :
  n < c + ADC_CHANNELS -> read_target s n <> 0 ->
  close_scan (S fuel) s c n = Some (n, [n]).
Proof.
  intros Hlt Hz. cbn [close_scan]. apply Z.ltb_lt in Hlt. apply Z.eqb_neq in Hz.
  rewrite Hlt, Hz. reflexivity.
Qed.

(** C10, at [hsk_adc_close(7)] with the cursor at channel 7, the only open
    channel: the search reads [targets[8]], past the array, whatever the
    memory there holds. *)
Theorem close_reads_past_targets (bey : Z -> Z) :
  let s := hsk_adc_open10 7 256 (booted10 bey) in
  nextChannel s = 7 /\
  length (targets s) = 8%nat /\
  targets s !! 8%nat = None /\
  exists reads, close_reads 7 s = Some (7 :: 8 :: reads).
Proof.
  intros s. split; [reflexivity|]. split; [reflexivity|]. split; [reflexivity|].
  unfold close_reads.
  pose proof (close_traced_cases 7 s ltac:(unfold ADC_CHANNELS; lia)) as Hcases.
  cbn zeta in Hcases.
  destruct Hcases as [[Hne _]|[_ (m & reads & Hscan & Hm & ->)]]; [exfalso; apply Hne; reflexivity|].
  cbn. change 256%nat with (S (S 254)) in Hscan.
  rewrite close_scan_skip in Hscan by (unfold ADC_CHANNELS; (lia || reflexivity)).
  change (u8 (7 + 1)) with 8 in Hscan.
  destruct (Z.eq_dec (read_target (cleared 7 s) 8) 0) as [Hz|Hnz].
  - rewrite close_scan_skip in Hscan by (unfold ADC_CHANNELS; (lia || assumption)).
    destruct (close_scan 254 _ _ _) as [[m' reads']|]; cbn in Hscan; [|discriminate].
    injection Hscan as <- <-. eexists. reflexivity.
  - rewrite close_scan_stop in Hscan by (unfold ADC_CHANNELS; (lia || assumption)).
    cbn in Hscan. injection Hscan as <- <-. eexists. reflexivity.
Qed.

(** The same for every channel but 0: if the cursor is at the channel to
    close and no channel above it is open, the search leaves the array. *)
Lemma close_scan_leaves_array (s : adc) (c : Z) :
  1 <= c < ADC_CHANNELS ->
  (forall i, c <= i < ADC_CHANNELS -> read_target s i = 0) ->
  forall (k fuel : nat) (n m : Z) (reads : list Z),
    n = ADC_CHANNELS - Z.of_nat k -> c <= n -> (k + 2 <= fuel)%nat ->
    close_scan fuel s c n = Some (m, reads) -> In ADC_CHANNELS reads.
Proof.
  intros Hc Hclosed k. unfold ADC_CHANNELS in *.
  induction k as [|k IH]; intros fuel n m reads Hn Hcn Hf Hscan;
    (destruct fuel as [|fuel]; [lia|]).
  - replace n with 8 in * by lia.
    destruct (Z.eq_dec (read_target s 8) 0) as [Hz|Hnz].
    + rewrite close_scan_skip in Hscan by (unfold ADC_CHANNELS; (lia || assumption)).
      destruct (close_scan fuel s c _) as [[m' reads']|]; cbn in Hscan; [|discriminate].
      injection Hscan as <- <-. left. reflexivity.
    + rewrite close_scan_stop in Hscan by (unfold ADC_CHANNELS; (lia || assumption)).
      injection Hscan as <- <-. left. reflexivity.
  - rewrite close_scan_skip in Hscan
      by (unfold ADC_CHANNELS; (lia || (apply Hclosed; lia))).
    assert (Hu : u8 (n + 1) = n + 1) by (unfold u8; apply Z.mod_small; lia).
    rewrite Hu in Hscan.
    destruct (close_scan fuel s c (n + 1)) as [[m' reads']|] eqn:Hrec; cbn in Hscan;
      [|discriminate].
    injection Hscan as <- <-. right.
    apply (IH fuel (n + 1) m' reads'); (lia || assumption).
Qed.

Lemma close_reads_leave_array (s : adc) (c : Z) (reads : list Z) :
  targets_ok s -> 1 <= c < ADC_CHANNELS -> nextChannel s = c ->
  (forall i, c < i < ADC_CHANNELS -> is_open s i = false) ->
  close_reads c s = Some reads ->
  In ADC_CHANNELS reads /\ targets s !! Z.to_nat ADC_CHANNELS = None.
Proof.
  intros Hok Hc Hn Hclosed Hreads. split; [|apply lookup_ge_None_2; rewrite Hok; lia].
  unfold close_reads in Hreads.
  pose proof (close_traced_cases c s ltac:(lia)) as Hcases. cbn zeta in Hcases.
  destruct Hcases as [[Hne _]|[_ (m & rs & Hscan & _ & Heq)]]; [contradiction|].
  rewrite Heq in Hreads. cbn in Hreads. injection Hreads as <-.
  apply in_or_app. left.
  apply (close_scan_leaves_array (cleared c s) c Hc) with (k := Z.to_nat (ADC_CHANNELS - c))
    (fuel := 256%nat) (n := c) (m := m); unfold ADC_CHANNELS in *; try lia; try assumption.
  intros i Hi.
  change (read_target (cleared c s) i) with (read_target (write_target c 0 (set_EADC false s)) i).
  rewrite read_target_write by (assumption || unfold ADC_CHANNELS; lia).
  destruct (Z.eqb_spec i c) as [_|Hne]; [reflexivity|].
  specialize (Hclosed i ltac:(lia)). unfold is_open in Hclosed.
  change (read_target (set_EADC false s) i) with (read_target s i).
  destruct (Z.eqb_spec (read_target s i) 0); [assumption|discriminate].
Qed.

Lemma do_calls_cons (c : call) (cs : list call) (s : adc) :
  do_calls (c :: cs) s = do_call c s ≫= do_calls cs.
Proof. reflexivity. Qed.

(** C1, at [hsk_adc_close(7)] with the cursor at channel 7 and one more
    channel open.  Whatever lies past [targets], one of two call sequences
    ends with the cursor at "none" although a channel is open, the one the
    forward, wrapping search is to find: with channel 1 open if the word
    after the array is not null, with channel 0 open if it is. *)
Theorem close_search_misses_open_channel (bey : Z -> Z) :
  (exists s,
     do_calls [Open10 7 256; Open10 1 258; Close 7] (booted10 bey) = Some s /\
     nextChannel s = ADC_CHANNELS /\ open_channels s = [1] /\ next_open s 7 = 1) \/
  (exists s,
     do_calls [Open10 7 256; Open10 0 258; Close 7] (booted10 bey) = Some s /\
     nextChannel s = ADC_CHANNELS /\ open_channels s = [0] /\ next_open s 7 = 0).
Proof.
  destruct (Z.eq_dec (bey 8) 0) as [Hz|Hnz]; [right|left].
  - repeat (rewrite do_calls_cons; cbn [do_call mbind option_bind]).
    set (s := hsk_adc_open10 0 258 (hsk_adc_open10 7 256 (booted10 bey))).
    unfold hsk_adc_close.
    pose proof (close_traced_cases 7 s ltac:(unfold ADC_CHANNELS; lia)) as Hcases.
    cbn zeta in Hcases.
    destruct Hcases as [[Hne _]|[_ (m & reads & Hscan & _ & ->)]];
      [exfalso; apply Hne; reflexivity|].
    change 256%nat with (S (S 254)) in Hscan.
    rewrite close_scan_skip in Hscan by (unfold ADC_CHANNELS; (lia || reflexivity)).
    change (u8 (7 + 1)) with 8 in Hscan.
    rewrite close_scan_skip in Hscan by (unfold ADC_CHANNELS; (lia || exact Hz)).
    change (u8 (8 + 1)) with 9 in Hscan.
    destruct (close_scan_total (cleared 7 s) 7) with (fuel := 254%nat) (n := 9)
      as (m' & reads' & Hscan' & Hm'); unfold ADC_CHANNELS; try lia.
    rewrite Hscan' in Hscan. cbn [mbind option_bind] in Hscan. injection Hscan as <- <-.
    unfold ADC_CHANNELS in Hm'.
    assert (Hread : read_target (cleared 7 s) (m' mod 8) = 0).
    { assert (Hcase : m' = 9 \/ m' = 10 \/ m' = 11 \/ m' = 12 \/ m' = 13 \/ m' = 14 \/ m' = 15)
        by lia.
      destruct Hcase as [->|[->|[->|[->|[->|[->| ->]]]]]]; vm_compute; reflexivity. }
    rewrite Hread. rewrite Z.eqb_refl.
    eexists. split; [reflexivity|].
    split; [reflexivity|]. split; vm_compute; reflexivity.
  - repeat (rewrite do_calls_cons; cbn [do_call mbind option_bind]).
    set (s := hsk_adc_open10 1 258 (hsk_adc_open10 7 256 (booted10 bey))).
    unfold hsk_adc_close.
    pose proof (close_traced_cases 7 s ltac:(unfold ADC_CHANNELS; lia)) as Hcases.
    cbn zeta in Hcases.
    destruct Hcases as [[Hne _]|[_ (m & reads & Hscan & _ & ->)]];
      [exfalso; apply Hne; reflexivity|].
    change 256%nat with (S (S 254)) in Hscan.
    rewrite close_scan_skip in Hscan by (unfold ADC_CHANNELS; (lia || reflexivity)).
    change (u8 (7 + 1)) with 8 in Hscan.
    rewrite close_scan_stop in Hscan by (unfold ADC_CHANNELS; (lia || exact Hnz)).
    injection Hscan as <- <-.
    assert (Hread : read_target (cleared 7 s) (8 mod ADC_CHANNELS) = 0) by (vm_compute; reflexivity).
    rewrite Hread, Z.eqb_refl.
    eexists. split; [reflexivity|].
    split; [reflexivity|]. split; vm_compute; reflexivity.
Qed.

(** The same with zeroed memory after [targets]: closing channel 7 loses
    channel 0. *)
Example close_7_loses_channel_0 :
  (nextChannel <$> do_calls [Open10 7 256; Open10 0 258; Close 7] (booted10 (fun _ => 0)))
  = Some ADC_CHANNELS /\
  (open_channels <$> do_calls [Open10 7 256; Open10 0 258; Close 7] (booted10 (fun _ => 0)))
  = Some [0].
Proof. split; vm_compute; reflexivity. Qed.

(** ** Warm-up *)

(** The loop of the warm-up returns as soon as the ordinary handler is
    back in the ADCSR0 slot. *)
Lemma warmup_loop_returns (sched : list (option Z)) (s : adc) :
  ADCSR0 s <> H_isr_warmup10 -> warmup_loop sched s = Some s.
Proof.
  intros H. destruct sched; cbn [warmup_loop]; rewrite bool_decide_eq_false_2 by assumption;
    reflexivity.
Qed.

Lemma warmup_loop_polls (e : option Z) (sched : list (option Z)) (s : adc) :
  ADCSR0 s = H_isr_warmup10 ->
  warmup_loop (e :: sched) s =
    ('(_, s1) ← hsk_adc_service s; warmup_loop sched (hw_event e s1)).
Proof.
  intros H. cbn [warmup_loop]. rewrite bool_decide_eq_true_2 by assumption. reflexivity.
Qed.

Lemma service_without_cursor (s : adc) :
  ADC_CHANNELS <= nextChannel s -> hsk_adc_service s = Some (false, s).
Proof.
  intros H. unfold hsk_adc_service.
  destruct (Z.geb_spec (nextChannel s) ADC_CHANNELS); [reflexivity|lia].
Qed.

Lemma hw_event_idle (e : option Z) (s : adc) : queue s = [] -> hw_event e s = s.
Proof. intros H. destruct e; [|reflexivity]. cbn. unfold hw_complete. rewrite H. reflexivity. Qed.

(** With the cursor at "none" and an idle converter the loop of the
    warm-up does not end. *)
Lemma warmup_loop_hangs (sched : list (option Z)) (s : adc) :
  ADCSR0 s = H_isr_warmup10 -> ADC_CHANNELS <= nextChannel s -> queue s = [] ->
  warmup_loop sched s = None.
Proof.
  intros Hh Hn Hq. induction sched as [|e sched IH]; cbn [warmup_loop].
  - rewrite bool_decide_eq_true_2 by assumption. reflexivity.
  - rewrite bool_decide_eq_true_2 by assumption.
    rewrite service_without_cursor by assumption. cbn [mbind option_bind].
    rewrite hw_event_idle by assumption. exact IH.
Qed.

Lemma warmup10_mark_frame (s : adc) :
  nextChannel (warmup10_mark s) = nextChannel s /\ queue (warmup10_mark s) = queue s.
Proof.
  unfold warmup10_mark. generalize (seqZ 0 ADC_CHANNELS). intros l. revert s.
  induction l as [|i l IH]; intros s; [split; reflexivity|].
  cbn [fold_left]. destruct (read_target s i =? 0); [apply IH|].
  destruct (IH (store (read_target s i) WARMUP_MARK s)) as [-> ->]. split; reflexivity.
Qed.

(** [hsk_adc_warmup10] in 10 bit mode, the cursor at "none", the converter
    idle: no return. *)
Lemma warmup10_never_returns (sched : list (option Z)) (s : adc) :
  Z.land (Z.shiftr (ADC_GLOBCTR (regs s)) BIT_DW) 1 = ADC_RESOLUTION_10 ->
  ADC_CHANNELS <= nextChannel s -> queue s = [] ->
  hsk_adc_warmup10 sched s = None.
Proof.
  intros Hres Hn Hq. unfold hsk_adc_warmup10. rewrite Hres, Z.eqb_refl. cbn [negb].
  destruct (warmup10_mark_frame s) as [Hn' Hq'].
  apply warmup_loop_hangs; cbn; [reflexivity|rewrite Hn'; exact Hn|rewrite Hq'; exact Hq].
Qed.

(** C3, at a driver with no open channel and an idle converter: the loop
    of the warm-up finds the warm-up handler installed, [hsk_adc_service]
    returns false without a request, so nothing completes, no handler runs
    and the state stays as it is; the warm-up outlasts every schedule. *)
Theorem warmup10_hangs_without_open_channel (bey : Z -> Z) (sched : list (option Z)) :
  open_channels (booted10 bey) = [] /\
  queue (booted10 bey) = [] /\
  (let s := warmup10_hijack (warmup10_mark (booted10 bey)) in
   ADCSR0 s = H_isr_warmup10 /\
   stores s = [] /\
   hsk_adc_service s = Some (false, s) /\
   forall e, hw_event e s = s) /\
  hsk_adc_warmup10 sched (booted10 bey) = None.
Proof.
  split; [vm_compute; reflexivity|]. split; [vm_compute; reflexivity|].
  set (s := warmup10_hijack (warmup10_mark (booted10 bey))).
  assert (Hh : ADCSR0 s = H_isr_warmup10) by (vm_compute; reflexivity).
  assert (Hn : ADC_CHANNELS <= nextChannel s) by (vm_compute; discriminate).
  assert (Hq : queue s = []) by (vm_compute; reflexivity).
  split.
  - split; [exact Hh|]. split; [vm_compute; reflexivity|].
    split; [apply service_without_cursor; exact Hn|].
    intros e. apply hw_event_idle. exact Hq.
  - unfold hsk_adc_warmup10.
    assert (Hg : negb (Z.land (Z.shiftr (ADC_GLOBCTR (regs (booted10 bey))) BIT_DW) 1
                       =? ADC_RESOLUTION_10) = false) by (vm_compute; reflexivity).
    rewrite Hg. apply warmup_loop_hangs; assumption.
Qed.

(** ** The service loop *)

Lemma all_bits_complete (n : nat) (b : list bool) : length b = n -> In b (all_bits n).
Proof.
  revert b. induction n as [|n IH]; intros [|x b] Hl; try discriminate.
  - left. reflexivity.
  - cbn [all_bits]. apply in_app_iff. injection Hl as Hl.
    destruct x; [left|right]; apply in_map; apply IH; assumption.
Qed.

Lemma check_bits_all : forallb check_bits (all_bits 8) = true.
Proof. vm_compute. reflexivity. Qed.

Lemma read_target_frame (s s' : adc) (i : Z) :
  targets s' = targets s -> beyond s' = beyond s -> read_target s' i = read_target s i.
Proof. unfold read_target. intros -> ->. reflexivity. Qed.

Lemma same_open_frame (s s' : adc) :
  targets s' = targets s -> beyond s' = beyond s -> same_open s s'.
Proof. intros Ht Hb i _. unfold is_open. rewrite (read_target_frame s s') by assumption. reflexivity. Qed.

Lemma same_open_canon (s : adc) : same_open s (state_of_bits (closed_bits s)).
Proof.
  intros i Hi. unfold ADC_CHANNELS in Hi. unfold is_open.
  assert (Hcase : i = 0 \/ i = 1 \/ i = 2 \/ i = 3 \/ i = 4 \/ i = 5 \/ i = 6 \/ i = 7) by lia.
  destruct Hcase as [->|[->|[->|[->|[->|[->|[->| ->]]]]]]];
    match goal with
    | |- negb (read_target s ?k =? 0) = _ =>
        change (read_target (state_of_bits (closed_bits s)) k)
          with (if read_target s k =? 0 then 0 else 1);
        destruct (read_target s k =? 0); reflexivity
    end.
Qed.

Lemma service_scan_ext (s s' : adc) :
  same_open s s' -> forall fuel n, service_scan fuel s n = service_scan fuel s' n.
Proof.
  intros Hs fuel. induction fuel as [|fuel IH]; intros n; [reflexivity|].
  cbn [service_scan].
  assert (Hr : (read_target s (u8 (n + 1) mod ADC_CHANNELS) =? 0)
               = (read_target s' (u8 (n + 1) mod ADC_CHANNELS) =? 0)).
  { specialize (Hs (u8 (n + 1) mod ADC_CHANNELS) (Z.mod_pos_bound (u8 (n + 1)) ADC_CHANNELS eq_refl)).
    unfold is_open in Hs. destruct (_ =? 0), (_ =? 0); cbn in Hs; congruence. }
  rewrite Hr, IH. reflexivity.
Qed.

Lemma find_ext_in {A : Type} (f g : A -> bool) (l : list A) :
  (forall x, In x l -> f x = g x) -> find f l = find g l.
Proof.
  induction l as [|a l IH]; intros H; [reflexivity|]. cbn [find].
  rewrite (H a) by (left; reflexivity).
  rewrite IH by (intros x Hx; apply H; right; assumption). reflexivity.
Qed.

Lemma next_open_ext (s s' : adc) (c : Z) : same_open s s' -> next_open s c = next_open s' c.
Proof.
  intros Hs. unfold next_open.
  rewrite (find_ext_in (fun i => is_open s i) (fun i => is_open s' i)); [reflexivity|].
  intros x Hx. apply in_map_iff in Hx as (k & <- & _).
  apply Hs. apply Z.mod_pos_bound. reflexivity.
Qed.

Lemma open_channels_ext (s s' : adc) : same_open s s' -> open_channels s = open_channels s'.
Proof.
  intros Hs. unfold open_channels. apply filter_ext_in.
  intros x Hx. apply Hs. apply list_elem_of_In, elem_of_seqZ in Hx. lia.
Qed.

Lemma orbit_ext (f g : Z -> Z) :
  (forall c, f c = g c) -> forall k c, orbit f k c = orbit g k c.
Proof.
  intros H k. induction k as [|k IH]; intros c; [reflexivity|].
  cbn [orbit]. rewrite H, IH. reflexivity.
Qed.

Lemma iter_ext (f g : Z -> Z) :
  (forall c, f c = g c) -> forall k c, Nat.iter k f c = Nat.iter k g c.
Proof.
  intros H k c. induction k as [|k IH]; [reflexivity|].
  change (f (Nat.iter k f c) = g (Nat.iter k g c)). rewrite IH, H. reflexivity.
Qed.

Lemma cycle_ext (s s' : adc) (k : nat) (c : Z) :
  same_open s s' -> cycle s k c = cycle s' k c.
Proof. intros Hs. apply orbit_ext. intros x. apply next_open_ext. exact Hs. Qed.

Lemma forallb_ext_in {A : Type} (f g : A -> bool) (l : list A) :
  (forall x, In x l -> f x = g x) -> forallb f l = forallb g l.
Proof.
  induction l as [|a l IH]; intros H; [reflexivity|]. cbn [forallb].
  rewrite (H a) by (left; reflexivity).
  rewrite IH by (intros x Hx; apply H; right; assumption). reflexivity.
Qed.

Lemma check_scan_ext (s s' : adc) (c : Z) :
  0 <= c < ADC_CHANNELS -> same_open s s' -> check_scan s c = check_scan s' c.
Proof.
  intros Hc Hs. unfold check_scan.
  rewrite (service_scan_ext s s' Hs), (next_open_ext s s' c Hs), (Hs c Hc).
  destruct (service_scan 256 s' c) as [n|]; [|reflexivity].
  rewrite (Hs (n mod ADC_CHANNELS)) by (apply Z.mod_pos_bound; reflexivity).
  reflexivity.
Qed.

Lemma check_round_ext (s s' : adc) (c : Z) :
  0 <= c < ADC_CHANNELS -> same_open s s' -> check_round s c = check_round s' c.
Proof.
  intros Hc Hs. unfold check_round. cbn zeta.
  rewrite (Hs c Hc), (open_channels_ext s s' Hs).
  rewrite (iter_ext (next_open s) (next_open s')) by (intros x; apply next_open_ext; exact Hs).
  f_equal. f_equal. apply forallb_ext_in. intros i Hi.
  apply list_elem_of_In, elem_of_seqZ in Hi.
  rewrite (cycle_ext s s') by exact Hs. rewrite (Hs i) by lia. reflexivity.
Qed.

(** The two checks hold of every state: they depend on the open channels
    only, and hold of all 256 sets of open channels. *)
Lemma checks_hold (s : adc) (c : Z) :
  0 <= c < ADC_CHANNELS -> check_scan s c = true /\ check_round s c = true.
Proof.
  intros Hc.
  rewrite (check_scan_ext s _ c Hc (same_open_canon s)).
  rewrite (check_round_ext s _ c Hc (same_open_canon s)).
  pose proof check_bits_all as Hall. rewrite forallb_forall in Hall.
  specialize (Hall (closed_bits s)
                   (all_bits_complete 8 (closed_bits s) ltac:(unfold closed_bits; reflexivity))).
  unfold check_bits in Hall. rewrite forallb_forall in Hall.
  specialize (Hall c). rewrite <- list_elem_of_In, elem_of_seqZ in Hall.
  specialize (Hall ltac:(lia)). apply andb_true_iff in Hall. exact Hall.
Qed.

(** The loop of [hsk_adc_service] started at an open channel ends at the
    next open channel. *)
Lemma service_scan_finds_next (s : adc) (c : Z) :
  0 <= c < ADC_CHANNELS -> is_open s c = true ->
  exists n, service_scan 256 s c = Some n /\
            n mod ADC_CHANNELS = next_open s c /\
            0 <= next_open s c < ADC_CHANNELS /\
            is_open s (next_open s c) = true.
Proof.
  intros Hc Ho. destruct (checks_hold s c Hc) as [Hchk _].
  unfold check_scan in Hchk. rewrite Ho in Hchk. cbn [implb] in Hchk.
  destruct (service_scan 256 s c) as [n|]; [|discriminate].
  apply andb_true_iff in Hchk as [Hn Hopen]. apply Z.eqb_eq in Hn.
  exists n. split; [reflexivity|]. split; [exact Hn|]. rewrite <- Hn.
  split; [apply Z.mod_pos_bound; reflexivity|exact Hopen].
Qed.

Lemma in_open_channels (s : adc) (i : Z) :
  In i (open_channels s) <-> 0 <= i < ADC_CHANNELS /\ is_open s i = true.
Proof.
  unfold open_channels. rewrite filter_In, <- list_elem_of_In, elem_of_seqZ.
  unfold ADC_CHANNELS. intuition lia.
Qed.

(** A successful call of [hsk_adc_service]: the cursor is requested and
    moves to the next open channel. *)
Lemma service_true (s s' : adc) :
  cursor_valid s -> hsk_adc_service s = Some (true, s') ->
  0 <= nextChannel s < ADC_CHANNELS /\ is_open s (nextChannel s) = true /\
  s' = set_nextChannel (next_open s (nextChannel s)) (write_QINR0 (nextChannel s) s).
Proof.
  intros Hcur Hs. unfold hsk_adc_service in Hs.
  destruct (Z.geb_spec (nextChannel s) ADC_CHANNELS) as [Hge|Hlt]; [discriminate|].
  destruct Hcur as [H8|[Hr Ho]]; [lia|].
  split; [exact Hr|]. split; [exact Ho|].
  unfold hsk_adc_request in Hs.
  assert (Hu : u8 (Z.shiftl (nextChannel s) BIT_REQCHNR) = nextChannel s).
  { unfold BIT_REQCHNR, u8. rewrite Z.shiftl_0_r. apply Z.mod_small.
    unfold ADC_CHANNELS in Hr. lia. }
  rewrite Hu in Hs.
  match type of Hs with context [if ?b then (false, s) else _] => destruct b end;
    [discriminate|].
  destruct (write_QINR0_frame (nextChannel s) s) as (_ & _ & Ht & Hb & Hn & _).
  rewrite Hn in Hs.
  rewrite (service_scan_ext _ s (fun i Hi => eq_sym (same_open_frame s _ Ht Hb i Hi))) in Hs.
  destruct (service_scan_finds_next s (nextChannel s) Hr Ho) as (n & Hscan & Hnx & _).
  rewrite Hscan in Hs. cbn [mbind option_bind] in Hs. rewrite Hnx in Hs.
  injection Hs as <-. reflexivity.
Qed.

(** The contract of [hsk_adc_service] under the invariant of the data
    model.  In a state whose cursor is "none" exactly if no channel is open,
    with at most four requests pending:
    - if no channel is open [hsk_adc_service] returns false and changes
      nothing, and so does every further call;
    - if a channel is open and the queue is full it returns false and
      changes nothing, the cursor included;
    - if a channel is open and the queue has room it requests the channel
      at the cursor, moves the cursor to the next open channel of the
      forward, wrapping search and returns true; the cursor is again at an
      open channel. *)
Theorem service_contract (s : adc) :
  cursor_exact s ->
  (length (queue s) <= Z.to_nat ADC_QUEUE)%nat ->
  (open_channels s = [] ->
     hsk_adc_service s = Some (false, s) /\
     forall n, service_n n s = Some (repeat false n, s)) /\
  (open_channels s <> [] -> length (queue s) = Z.to_nat ADC_QUEUE ->
     hsk_adc_service s = Some (false, s)) /\
  (open_channels s <> [] -> length (queue s) <> Z.to_nat ADC_QUEUE ->
     let c := nextChannel s in
     let s' := set_nextChannel (next_open s c) (write_QINR0 c s) in
     is_open s c = true /\
     hsk_adc_service s = Some (true, s') /\
     requests s' = requests s ++ [c] /\
     nextChannel s' = next_open s c /\
     targets s' = targets s /\
     cursor_exact s').
Proof.
  intros Hcur Hq.
  assert (Hopen : open_channels s <> [] ->
                  0 <= nextChannel s < ADC_CHANNELS /\ is_open s (nextChannel s) = true).
  { intros Hne. destruct Hcur as [[_ He]|H]; [contradiction|exact H]. }
  split; [|split].
  - intros He.
    assert (Hs : hsk_adc_service s = Some (false, s)).
    { apply service_without_cursor. destruct Hcur as [[H8 _]|[Hr Ho]]; [lia|].
      assert (Hin : In (nextChannel s) (open_channels s)) by (apply in_open_channels; auto).
      rewrite He in Hin. destruct Hin. }
    split; [exact Hs|]. intros n. induction n as [|n IH]; [reflexivity|].
    cbn [service_n]. rewrite Hs. cbn [mbind option_bind]. rewrite IH. reflexivity.
  - intros Hne Hfull. destruct (Hopen Hne) as [Hr Ho].
    destruct (request_by_fill (nextChannel s) s Hr Hq) as (Hreq & _ & _).
    unfold hsk_adc_service.
    destruct (Z.geb_spec (nextChannel s) ADC_CHANNELS) as [Hge|_]; [lia|].
    rewrite (Hreq Hfull). reflexivity.
  - intros Hne Hroom c s'. destruct (Hopen Hne) as [Hr Ho].
    destruct (request_by_fill c s Hr Hq) as (_ & Hreq & _).
    destruct (Hreq Hroom) as (Hreq' & Hlog & _).
    destruct (write_QINR0_frame c s) as (_ & _ & Ht & Hb & Hn & _).
    destruct (service_scan_finds_next s c Hr Ho) as (n & Hscan & Hnx & Hnr & Hno).
    assert (Hsame : same_open s s') by (apply same_open_frame; assumption).
    split; [exact Ho|]. split; [|split; [exact Hlog|split; [reflexivity|split; [exact Ht|]]]].
    + unfold hsk_adc_service.
      destruct (Z.geb_spec (nextChannel s) ADC_CHANNELS) as [Hge|_]; [lia|].
      fold c. rewrite Hreq'. rewrite Hn.
      rewrite (service_scan_ext _ s (fun i Hi => eq_sym (same_open_frame s _ Ht Hb i Hi))).
      fold c. rewrite Hscan. cbn [mbind option_bind]. rewrite Hnx. reflexivity.
    + right. change (nextChannel s') with (next_open s c).
      split; [exact Hnr|]. rewrite <- (Hsame _ Hnr). exact Hno.
Qed.

(** With the cursor at "none" [hsk_adc_service] returns false and changes
    nothing, on every call, whatever the registry holds. *)
Lemma service_n_without_cursor (s : adc) (n : nat) :
  ADC_CHANNELS <= nextChannel s -> service_n n s = Some (repeat false n, s).
Proof.
  intros H. induction n as [|n IH]; [reflexivity|].
  cbn [service_n]. rewrite (service_without_cursor s H). cbn [mbind option_bind].
  rewrite IH. reflexivity.
Qed.

(** C2, after [hsk_adc_init(ADC_RESOLUTION_10, 20)], [hsk_adc_open10] of
    the channels 7 and 0 and [hsk_adc_close(7)], with room for four
    requests in the queue: channel 0 is open, and the forward, wrapping
    search from channel 7 is to find it, yet [hsk_adc_service] returns
    false, requests nothing and leaves the state as it is, on this call
    and on every further one.  The search of [hsk_adc_close] has left the
    cursor at "none", and [hsk_adc_service] takes that for a registry with
    no open channel. *)
Theorem service_refuses_open_channel :
  exists s,
    do_calls [Open10 7 256; Open10 0 258; Close 7] (booted10 (fun _ => 0)) = Some s /\
    open_channels s = [0] /\ is_open s 0 = true /\ next_open s 7 = 0 /\
    queue s = [] /\ nextChannel s = ADC_CHANNELS /\
    hsk_adc_service s = Some (false, s) /\
    forall n, service_n n s = Some (repeat false n, s).
Proof.
  assert (Hfacts :
    (fun s => (nextChannel s, open_channels s, is_open s 0, next_open s 7, queue s))
      <$> do_calls [Open10 7 256; Open10 0 258; Close 7] (booted10 (fun _ => 0))
    = Some (ADC_CHANNELS, [0], true, 0, [])) by (vm_compute; reflexivity).
  destruct (do_calls [Open10 7 256; Open10 0 258; Close 7] (booted10 (fun _ => 0)))
    as [s|]; [|discriminate Hfacts].
  cbn [fmap option_fmap option_map] in Hfacts.
  injection Hfacts as Hn Ho Hi Hx Hq.
  exists s. split; [reflexivity|].
  split; [exact Ho|]. split; [exact Hi|]. split; [exact Hx|].
  split; [exact Hq|]. split; [exact Hn|].
  split.
  - apply service_without_cursor. lia.
  - intros n. apply service_n_without_cursor. lia.
Qed.

(** ** Round robin *)

Section Rounds.

Variable nx : Z -> Z.

Lemma orbit_app (a b : nat) (c : Z) :
  orbit nx (a + b) c = orbit nx a c ++ orbit nx b (Nat.iter a nx c).
Proof.
  revert c. induction a as [|a IH]; intros c; [reflexivity|].
  cbn [Nat.add orbit app]. rewrite IH. rewrite Nat.iter_succ_r. reflexivity.
Qed.

Lemma length_orbit (k : nat) (c : Z) : length (orbit nx k c) = k.
Proof. revert c. induction k as [|k IH]; intros c; cbn; [|rewrite IH]; reflexivity. Qed.

Variables (K : nat) (c : Z).
Hypothesis round : Nat.iter K nx c = c.

Lemma count_rounds (i : Z) (q r : nat) :
  count_occ Z.eq_dec (orbit nx (q * K + r) c) i
  = (q * count_occ Z.eq_dec (orbit nx K c) i + count_occ Z.eq_dec (orbit nx r c) i)%nat.
Proof.
  induction q as [|q IH]; [reflexivity|].
  replace (S q * K + r)%nat with (K + (q * K + r))%nat by lia.
  rewrite orbit_app, round, count_occ_app, IH. lia.
Qed.

Lemma count_part (i : Z) (r : nat) :
  (r <= K)%nat ->
  (count_occ Z.eq_dec (orbit nx r c) i <= count_occ Z.eq_dec (orbit nx K c) i)%nat.
Proof.
  intros Hr. replace K with (r + (K - r))%nat at 1 by lia.
  rewrite orbit_app, count_occ_app. lia.
Qed.

(** If a round meets [i] once, [N] steps meet it [N / K] times, rounded
    down or up. *)
Lemma count_floor_or_ceil (i : Z) (N : nat) :
  count_occ Z.eq_dec (orbit nx K c) i = 1%nat ->
  count_occ Z.eq_dec (orbit nx N c) i = (N / K)%nat \/
  count_occ Z.eq_dec (orbit nx N c) i = ((N + K - 1) / K)%nat.
Proof.
  intros Hone.
  assert (HK : (0 < K)%nat).
  { destruct K; [cbn in Hone; discriminate|lia]. }
  pose proof (Nat.div_mod_eq N K) as Hdm.
  pose proof (Nat.mod_upper_bound N K ltac:(lia)) as Hmod.
  set (q := (N / K)%nat) in *. set (r := (N mod K)%nat) in *.
  assert (Hcount : count_occ Z.eq_dec (orbit nx N c) i
                   = (q + count_occ Z.eq_dec (orbit nx r c) i)%nat).
  { replace N with (q * K + r)%nat at 1 by lia. rewrite count_rounds, Hone. lia. }
  pose proof (count_part i r ltac:(lia)) as Hle. rewrite Hone in Hle.
  destruct (count_occ Z.eq_dec (orbit nx r c) i) as [|[|k]] eqn:Hcr; [left; lia| |lia].
  right. rewrite Hcount.
  assert (Hr : (0 < r)%nat) by (destruct r; [cbn in Hcr; discriminate|lia]).
  apply (Nat.div_unique _ _ _ (r - 1)); lia.
Qed.

End Rounds.

Lemma cursor_valid_frame (s s' : adc) :
  targets s' = targets s -> beyond s' = beyond s -> nextChannel s' = nextChannel s ->
  cursor_valid s -> cursor_valid s'.
Proof.
  intros Ht Hb Hn. unfold cursor_valid, is_open. rewrite Hn.
  rewrite (read_target_frame s s') by assumption. tauto.
Qed.

(** [n] successful calls of [hsk_adc_service] request the channels of the
    cycle that starts at the cursor. *)
Lemma serve_run_requests (n : nat) (s s' : adc) :
  serve_run n s s' -> cursor_valid s ->
  requests s' = requests s ++ cycle s n (nextChannel s) /\
  targets s' = targets s /\ beyond s' = beyond s.
Proof.
  induction 1 as [s|n s s1 s2 s3 (Ht1 & Hb1 & Hn1 & Hr1) Hserv Hrun IH]; intros Hcur.
  - cbn. rewrite app_nil_r. auto.
  - assert (Hcur1 : cursor_valid s1) by (apply (cursor_valid_frame s); assumption).
    destruct (service_true s1 s2 Hcur1 Hserv) as (Hr & Ho & Hs2).
    destruct (write_QINR0_frame (nextChannel s1) s1) as (_ & _ & Ht & Hb & _ & Hlog).
    destruct (service_scan_finds_next s1 (nextChannel s1) Hr Ho) as (_ & _ & _ & Hnr & Hno).
    assert (Ht2 : targets s2 = targets s) by (rewrite Hs2; cbn; congruence).
    assert (Hb2 : beyond s2 = beyond s) by (rewrite Hs2; cbn; congruence).
    assert (Hn2 : nextChannel s2 = next_open s (nextChannel s)).
    { rewrite Hs2. cbn [nextChannel set_nextChannel]. rewrite Hn1.
      symmetry. apply next_open_ext, same_open_frame; assumption. }
    assert (Hq2 : requests s2 = requests s ++ [nextChannel s]).
    { rewrite Hs2. cbn [requests set_nextChannel]. rewrite Hlog, Hr1, Hn1. reflexivity. }
    assert (Hcur2 : cursor_valid s2).
    { right. rewrite Hs2. cbn [nextChannel set_nextChannel]. split; [exact Hnr|].
      unfold is_open in *. rewrite <- Hno. f_equal. f_equal.
      apply read_target_frame; cbn; assumption. }
    destruct (IH Hcur2) as (Hreq & Ht3 & Hb3).
    split; [|split; congruence].
    rewrite Hreq, Hq2, Hn2, <- app_assoc.
    rewrite (cycle_ext s2 s) by (apply same_open_frame; congruence).
    reflexivity.
Qed.

(** C7.  [N] calls of [hsk_adc_service] that all return true, from a state
    whose cursor is "none" or at an open channel, the converter active in
    between, no open and no close: the calls make [N] requests, the open
    channels stay the same [K], and each open channel is requested [N / K]
    times, rounded down or rounded up. *)
Theorem service_round_robin (N : nat) (s s' : adc) :
  cursor_valid s ->
  serve_run N s s' ->
  let K := length (open_channels s) in
  exists reqs,
    requests s' = requests s ++ reqs /\
    length reqs = N /\
    open_channels s' = open_channels s /\
    forall i, In i (open_channels s) ->
      count_occ Z.eq_dec reqs i = (N / K)%nat \/
      count_occ Z.eq_dec reqs i = ((N + K - 1) / K)%nat.
Proof.
  intros Hcur Hrun K.
  destruct (serve_run_requests N s s' Hrun Hcur) as (Hreq & Ht & Hb).
  exists (cycle s N (nextChannel s)).
  split; [exact Hreq|]. split; [apply length_orbit|].
  split; [symmetry; apply open_channels_ext, same_open_frame; assumption|].
  intros i Hi.
  destruct Hrun as [s|n s s1 s2 s3 (Ht1 & Hb1 & Hn1 & Hr1) Hserv _].
  - left. destruct K; reflexivity.
  - assert (Hcur1 : cursor_valid s1) by (apply (cursor_valid_frame s); assumption).
    destruct (service_true s1 s2 Hcur1 Hserv) as (Hr & Ho & _).
    rewrite Hn1 in Hr, Ho.
    assert (Ho' : is_open s (nextChannel s) = true).
    { rewrite (same_open_frame s s1 Ht1 Hb1 _ Hr). exact Ho. }
    destruct (checks_hold s (nextChannel s) Hr) as [_ Hchk].
    unfold check_round in Hchk. rewrite Ho' in Hchk. cbn [implb] in Hchk. fold K in Hchk.
    apply andb_true_iff in Hchk as [Hround Hcount].
    apply Z.eqb_eq in Hround. rewrite forallb_forall in Hcount.
    apply in_open_channels in Hi as [Hir Hio].
    specialize (Hcount i). rewrite <- list_elem_of_In, elem_of_seqZ in Hcount.
    specialize (Hcount ltac:(unfold ADC_CHANNELS in *; lia)).
    rewrite Hio in Hcount. apply Nat.eqb_eq in Hcount.
    apply count_floor_or_ceil; assumption.
Qed.

(** ** Instances *)

Lemma isr_delivers_result_once_witness :
  targets sample_delivery !! Z.to_nat (result_channel sample_delivery) = Some 256 /\
  stores (hsk_adc_isr10 sample_delivery) = [(256, 0x49)] /\
  mem (hsk_adc_isr10 sample_delivery) 256 = 0x49.
Proof.
  assert (H : targets sample_delivery !! Z.to_nat (result_channel sample_delivery) = Some 256)
    by reflexivity.
  split; [exact H|].
  destruct (isr_delivers_result_once sample_delivery 256 H) as [Hreg _].
  destruct (Hreg ltac:(discriminate)) as (Hs & Hm & _).
  split; [exact Hs|exact Hm].
Defined.

Lemma isr10_overwrites_warmup_mark_witness :
  targets sample_delivery !! Z.to_nat (result_channel sample_delivery) = Some 256 /\
  256 <> 0 /\
  mem (hsk_adc_isr10 sample_delivery) 256 <> WARMUP_MARK.
Proof.
  assert (H : targets sample_delivery !! Z.to_nat (result_channel sample_delivery) = Some 256)
    by reflexivity.
  assert (H0 : 256 <> 0) by discriminate.
  split; [exact H|]. split; [exact H0|].
  destruct (isr10_overwrites_warmup_mark sample_delivery 256 H H0) as (_ & _ & Hm & _).
  exact Hm.
Defined.

Lemma request_respects_queue_bound_witness :
  0 <= 3 < ADC_CHANNELS /\
  (length (queue sample_two) <= Z.to_nat ADC_QUEUE)%nat /\
  hsk_adc_request 3 sample_two = (true, write_QINR0 3 sample_two).
Proof.
  assert (Hc : 0 <= 3 < ADC_CHANNELS) by (unfold ADC_CHANNELS; lia).
  assert (Hq : (length (queue sample_two) <= Z.to_nat ADC_QUEUE)%nat) by (vm_compute; lia).
  split; [exact Hc|]. split; [exact Hq|].
  destruct (request_respects_queue_bound 3 sample_two Hc Hq) as (_ & Hroom & _).
  apply Hroom. vm_compute. discriminate.
Defined.

Lemma shared_writes_are_masked_witness :
  0 <= 3 < ADC_CHANNELS /\
  EADC <$> hsk_adc_close 3 sample_two = Some (EADC sample_two) /\
  EADC (warmup10_hijack sample_two) = true.
Proof.
  assert (Hc : 0 <= 3 < ADC_CHANNELS) by (unfold ADC_CHANNELS; lia).
  split; [exact Hc|].
  destruct (shared_writes_are_masked 3 256 sample_two Hc)
    as (_ & _ & _ & _ & _ & Hclose & _ & _ & Hwarm).
  split; [exact Hclose|exact Hwarm].
Defined.

Lemma service_contract_witness :
  cursor_exact sample_two /\
  (length (queue sample_two) <= Z.to_nat ADC_QUEUE)%nat /\
  hsk_adc_service sample_two
  = Some (true, set_nextChannel (next_open sample_two 3) (write_QINR0 3 sample_two)).
Proof.
  assert (Hcur : cursor_exact sample_two).
  { right. split; [vm_compute; split; [discriminate|reflexivity]|vm_compute; reflexivity]. }
  assert (Hq : (length (queue sample_two) <= Z.to_nat ADC_QUEUE)%nat) by (vm_compute; lia).
  split; [exact Hcur|]. split; [exact Hq|].
  destruct (service_contract sample_two Hcur Hq) as (_ & _ & Hroom).
  destruct (Hroom ltac:(vm_compute; discriminate) ltac:(vm_compute; discriminate))
    as (_ & Hs & _).
  exact Hs.
Defined.

Lemma service_round_robin_witness :
  cursor_valid sample_two /\
  serve_run 3 sample_two (after_service (after_service (after_service sample_two))) /\
  exists reqs,
    requests (after_service (after_service (after_service sample_two)))
    = requests sample_two ++ reqs /\
    (count_occ Z.eq_dec reqs 5 = 1%nat \/ count_occ Z.eq_dec reqs 5 = 2%nat).
Proof.
  assert (Hcur : cursor_valid sample_two).
  { right. split; [vm_compute; split; [discriminate|reflexivity]|vm_compute; reflexivity]. }
  assert (Hrun : serve_run 3 sample_two (after_service (after_service (after_service sample_two)))).
  { apply (serve_more 2 sample_two sample_two (after_service sample_two));
      [repeat split; reflexivity|vm_compute; reflexivity|].
    apply (serve_more 1 _ (after_service sample_two) (after_service (after_service sample_two)));
      [repeat split; reflexivity|vm_compute; reflexivity|].
    apply (serve_more 0 _ (after_service (after_service sample_two))
                      (after_service (after_service (after_service sample_two))));
      [repeat split; reflexivity|vm_compute; reflexivity|].
    apply serve_done. }
  split; [exact Hcur|]. split; [exact Hrun|].
  destruct (service_round_robin 3 sample_two _ Hcur Hrun) as (reqs & Hreq & _ & _ & Hcount).
  exists reqs. split; [exact Hreq|].
  apply (Hcount 5). vm_compute. right. left. reflexivity.
Defined.

(** * Further properties of the driver *)

(** ** Clock gating *)

(** X1.  On every value of the 8 bit register PMCON1, [hsk_adc_enable]
    clears and [hsk_adc_disable] sets the ADC disable request, bit 0, and
    neither changes another bit; each undoes the other: enabling a
    disabled converter gives the register of enabling directly, and the
    other way round. *)
Theorem clock_gate_toggles_bit_0 (p : Z) :
  0 <= p < 256 ->
  Z.land (hsk_adc_enable p) 1 = 0 /\
  Z.land (hsk_adc_disable p) 1 = 1 /\
  Z.shiftr (hsk_adc_enable p) 1 = Z.shiftr p 1 /\
  Z.shiftr (hsk_adc_disable p) 1 = Z.shiftr p 1 /\
  hsk_adc_enable (hsk_adc_disable p) = hsk_adc_enable p /\
  hsk_adc_disable (hsk_adc_enable p) = hsk_adc_disable p.
Proof.
  intros Hp.
  assert (Hall : forallb check_pmcon1 (seqZ 0 256) = true) by (vm_compute; reflexivity).
  rewrite forallb_forall in Hall. specialize (Hall p).
  rewrite <- list_elem_of_In, elem_of_seqZ in Hall. specialize (Hall ltac:(lia)).
  unfold check_pmcon1 in Hall.
  repeat (apply andb_true_iff in Hall as [Hall ?]).
  repeat match goal with H : (_ =? _) = true |- _ => apply Z.eqb_eq in H end.
  repeat split; assumption.
Qed.

(** ** Initialisation *)

(** The timing computation yields a prescaler selector and a sample time
    that fit their fields, whatever the arguments. *)
Lemma conv_timing_fits (resolution convTime : Z) :
  0 <= fst (conv_timing resolution convTime) <= 3 /\
  0 <= snd (conv_timing resolution convTime) <= 255.
Proof.
  unfold conv_timing.
  set (bits := if resolution =? ADC_RESOLUTION_10 then 10 else 8).
  set (t := u16 (convTime * 24)).
  assert (Hu : forall x, 0 <= u16 x < 65536) by (intros x; apply Z.mod_pos_bound; lia).
  change (Z.shiftl 1 8) with 256. change (256 - 1) with 255.
  unfold ADC_CLK_12MHz, ADC_CLK_8MHz, ADC_CLK_6MHz, ADC_CLK_750kHz.
  destruct (t <=? 1 + 2 * (258 + bits));
    [|destruct (t <=? 1 + 3 * (258 + bits)); [|destruct (t <=? 1 + 4 * (258 + bits))]];
    cbn beta iota zeta;
    match goal with
    | |- context [if ?x >=? 256 then _ else _] =>
        destruct (Z.geb_spec x 256); cbn [fst snd]; specialize (Hu (x - 0))
    end;
    try lia;
    match goal with
    | |- _ /\ 0 <= u16 ?x <= 255 => pose proof (Z.mod_pos_bound x 65536 eq_refl); unfold u16 in *; lia
    end.
Qed.

Lemma globctr_after_fields (g resolution ctc : Z) :
  0 <= g < 256 ->
  resolution = ADC_RESOLUTION_10 \/ resolution = ADC_RESOLUTION_8 ->
  0 <= ctc <= 3 ->
  Z.land (Z.shiftr (globctr_after g resolution ctc) BIT_DW) 1 = resolution /\
  Z.land (Z.shiftr (globctr_after g resolution ctc) BIT_CTC) (Z.shiftl 1 CNT_CTC - 1) = ctc /\
  Z.testbit (globctr_after g resolution ctc) BIT_ANON = true /\
  Z.land (globctr_after g resolution ctc) 15 = Z.land g 15.
Proof.
  intros Hg Hres Hctc.
  assert (Hall : forallb check_globctr (seqZ 0 256) = true) by (vm_compute; reflexivity).
  rewrite forallb_forall in Hall. specialize (Hall g).
  rewrite <- list_elem_of_In, elem_of_seqZ in Hall. specialize (Hall ltac:(lia)).
  unfold check_globctr in Hall. rewrite forallb_forall in Hall.
  specialize (Hall resolution ltac:(destruct Hres; subst; cbn; tauto)).
  rewrite forallb_forall in Hall. specialize (Hall ctc).
  rewrite <- list_elem_of_In, elem_of_seqZ in Hall. specialize (Hall ltac:(lia)).
  cbn zeta in Hall.
  repeat (apply andb_true_iff in Hall as [Hall ?]).
  repeat match goal with H : (_ =? _) = true |- _ => apply Z.eqb_eq in H end.
  repeat split; assumption.
Qed.

(** The registers and globals [hsk_adc_init] leaves. *)
Lemma init_result (resolution convTime : Z) (s : adc) :
  resolution = ADC_RESOLUTION_10 \/ resolution = ADC_RESOLUTION_8 ->
  let s' := hsk_adc_init resolution convTime s in
  ADC_GLOBCTR (regs s')
  = globctr_after (ADC_GLOBCTR (regs s)) resolution (fst (conv_timing resolution convTime)) /\
  ADC_INPCR0 (regs s') = u8 (snd (conv_timing resolution convTime)) /\
  ADCSR0 s' = (if resolution =? ADC_RESOLUTION_10 then H_isr10 else H_isr8) /\
  EADC s' = true /\
  targets s' = replicate (Z.to_nat ADC_CHANNELS) 0 /\
  beyond s' = beyond s /\ nextChannel s' = nextChannel s /\
  queue s' = queue s /\ mem s' = mem s /\ stores s' = stores s /\ requests s' = requests s.
Proof.
  intros Hres s'. subst s'. unfold hsk_adc_init.
  destruct (conv_timing resolution convTime) as [ctc stc]. cbn [fst snd].
  destruct Hres; subst resolution; cbn; repeat split; reflexivity.
Qed.

(** X2.  [hsk_adc_init] with one of the two resolution selectors, on an
    8 bit ADC_GLOBCTR: afterwards the data width bit holds the selector,
    the prescaler field the selected prescaler, the analog part is on and
    the low four bits of the register are as before; ADC_INPCR0 holds the
    computed sample time, which is at most 255 for every conversion time;
    the handler of the resolution is installed and the interrupt enabled;
    the registry is empty.  The cursor is not reset. *)
Theorem init_configures_converter (resolution convTime : Z) (s : adc) :
  resolution = ADC_RESOLUTION_10 \/ resolution = ADC_RESOLUTION_8 ->
  0 <= ADC_GLOBCTR (regs s) < 256 ->
  let s' := hsk_adc_init resolution convTime s in
  let g := ADC_GLOBCTR (regs s') in
  Z.land (Z.shiftr g BIT_DW) 1 = resolution /\
  Z.land (Z.shiftr g BIT_CTC) (Z.shiftl 1 CNT_CTC - 1) = fst (conv_timing resolution convTime) /\
  Z.testbit g BIT_ANON = true /\
  Z.land g 15 = Z.land (ADC_GLOBCTR (regs s)) 15 /\
  ADC_INPCR0 (regs s') = snd (conv_timing resolution convTime) /\
  0 <= ADC_INPCR0 (regs s') <= 255 /\
  ADCSR0 s' = (if resolution =? ADC_RESOLUTION_10 then H_isr10 else H_isr8) /\
  EADC s' = true /\
  open_channels s' = [] /\
  targets_ok s' /\
  nextChannel s' = nextChannel s.
Proof.
  intros Hres Hg s' g.
  destruct (init_result resolution convTime s Hres)
    as (Hglob & Hinp & Hh & He & Ht & _ & Hn & _).
  fold s' in Hglob, Hinp, Hh, He, Ht, Hn.
  destruct (conv_timing_fits resolution convTime) as [Hctc Hstc].
  destruct (globctr_after_fields _ resolution _ Hg Hres Hctc) as (H1 & H2 & H3 & H4).
  unfold g. rewrite Hglob.
  assert (Hu : u8 (snd (conv_timing resolution convTime)) = snd (conv_timing resolution convTime))
    by (unfold u8; apply Z.mod_small; lia).
  rewrite Hinp, Hu.
  split; [exact H1|]. split; [exact H2|]. split; [exact H3|]. split; [exact H4|].
  split; [reflexivity|]. split; [exact Hstc|]. split; [exact Hh|]. split; [exact He|].
  split; [|split; [|exact Hn]].
  - unfold open_channels, is_open, read_target. rewrite Ht. reflexivity.
  - unfold targets_ok. rewrite Ht. reflexivity.
Qed.

(** What a matching open does to registry, cursor and the rest. *)
Lemma opened_registers (c t : Z) (s : adc) :
  targets_ok s -> 0 <= c < ADC_CHANNELS ->
  read_target (opened c t s) c = t /\
  (forall i, 0 <= i -> i <> c -> read_target (opened c t s) i = read_target s i) /\
  targets (opened c t s) = <[Z.to_nat c := t]> (targets s) /\
  nextChannel (opened c t s) = (if nextChannel s >=? ADC_CHANNELS then c else nextChannel s) /\
  queue (opened c t s) = queue s /\ mem (opened c t s) = mem s /\
  ADCSR0 (opened c t s) = ADCSR0 s /\ regs (opened c t s) = regs s /\
  beyond (opened c t s) = beyond s /\ EADC (opened c t s) = EADC s /\
  stores (opened c t s) = stores s /\ requests (opened c t s) = requests s.
Proof.
  intros Hok Hc. unfold opened. cbn zeta.
  set (s1 := set_EADC (EADC s) (write_target c t (set_EADC false s))).
  assert (Hrd : forall i, 0 <= i -> read_target s1 i = if i =? c then t else read_target s i).
  { intros i Hi.
    change (read_target s1 i) with (read_target (write_target c t (set_EADC false s)) i).
    rewrite read_target_write by assumption. reflexivity. }
  assert (Hn : nextChannel s1 = nextChannel s)
    by (unfold s1; cbn; rewrite nextChannel_write_target; reflexivity).
  assert (Hfr : targets s1 = <[Z.to_nat c := t]> (targets s) /\ queue s1 = queue s /\
                mem s1 = mem s /\ ADCSR0 s1 = ADCSR0 s /\ regs s1 = regs s /\
                beyond s1 = beyond s /\ EADC s1 = EADC s /\ stores s1 = stores s /\
                requests s1 = requests s).
  { unfold s1, write_target. cbn [targets set_audit set_EADC].
    destruct (lookup_lt_is_Some_2 (targets s) (Z.to_nat c)) as [x Hx];
      [unfold targets_ok in Hok; rewrite Hok; unfold ADC_CHANNELS in *; lia|].
    rewrite Hx. cbn. repeat split; reflexivity. }
  destruct Hfr as (Ht & Hq & Hm & Hh & Hr & Hb & He & Hst & Hrq).
  rewrite Hn.
  assert (Hproj : forall s2 : adc,
    (s2 = s1 \/ s2 = set_nextChannel c s1) ->
    read_target s2 c = t /\
    (forall i, 0 <= i -> i <> c -> read_target s2 i = read_target s i) /\
    targets s2 = <[Z.to_nat c := t]> (targets s) /\ queue s2 = queue s /\ mem s2 = mem s /\
    ADCSR0 s2 = ADCSR0 s /\ regs s2 = regs s /\ beyond s2 = beyond s /\
    EADC s2 = EADC s /\ stores s2 = stores s /\ requests s2 = requests s).
  { intros s2 Hs2.
    assert (Hrd2 : forall i, read_target s2 i = read_target s1 i)
      by (intros i; destruct Hs2; subst s2; reflexivity).
    split; [rewrite Hrd2, Hrd by lia; rewrite Z.eqb_refl; reflexivity|].
    split; [intros i Hi Hne; rewrite Hrd2, Hrd by lia;
            apply Z.eqb_neq in Hne; rewrite Hne; reflexivity|].
    destruct Hs2; subst s2; cbn; repeat split; assumption. }
  destruct (nextChannel s >=? ADC_CHANNELS).
  - destruct (Hproj (set_nextChannel c s1))
      as (H1 & H2 & H3 & H4 & H5 & H6 & H7 & H8 & H9 & H10 & H11); [auto|].
    repeat split; assumption.
  - destruct (Hproj s1) as (H1 & H2 & H3 & H4 & H5 & H6 & H7 & H8 & H9 & H10 & H11); [auto|].
    repeat split; assumption.
Qed.

Lemma open10_in_mode10 (c t : Z) (s : adc) :
  mode10 s -> hsk_adc_open10 c t s = opened c t s /\ hsk_adc_open8 c t s = s.
Proof.
  unfold mode10, hsk_adc_open10, hsk_adc_open8. intros ->. split; reflexivity.
Qed.

Lemma open8_in_mode8 (c t : Z) (s : adc) :
  mode8 s -> hsk_adc_open8 c t s = opened c t s /\ hsk_adc_open10 c t s = s.
Proof.
  unfold mode8, hsk_adc_open10, hsk_adc_open8. intros ->. split; reflexivity.
Qed.

Lemma init_mode (resolution convTime : Z) (s : adc) :
  resolution = ADC_RESOLUTION_10 \/ resolution = ADC_RESOLUTION_8 ->
  0 <= ADC_GLOBCTR (regs s) < 256 ->
  Z.land (Z.shiftr (ADC_GLOBCTR (regs (hsk_adc_init resolution convTime s))) BIT_DW) 1
  = resolution /\
  targets_ok (hsk_adc_init resolution convTime s) /\
  nextChannel (hsk_adc_init resolution convTime s) = nextChannel s.
Proof.
  intros Hres Hg.
  destruct (init_result resolution convTime s Hres) as (Hglob & _ & _ & _ & Ht & _ & Hn & _).
  cbn zeta in *.
  destruct (conv_timing_fits resolution convTime) as [Hctc _].
  destruct (globctr_after_fields _ resolution _ Hg Hres Hctc) as (H1 & _).
  rewrite Hglob. split; [exact H1|]. split; [|exact Hn].
  unfold targets_ok. rewrite Ht. reflexivity.
Qed.

(** X3.  The resolution of [hsk_adc_init] decides which open works: after
    an initialisation for 10 bit results [hsk_adc_open10] registers the
    target of a channel and [hsk_adc_open8] changes nothing, after one for
    8 bit results it is the other way round.  The first open after the
    initialisation of a fresh driver takes the cursor. *)
Theorem init_selects_open_variant (convTime channel target : Z) (s : adc) :
  0 <= ADC_GLOBCTR (regs s) < 256 ->
  0 <= channel < ADC_CHANNELS ->
  let s10 := hsk_adc_init ADC_RESOLUTION_10 convTime s in
  let s8 := hsk_adc_init ADC_RESOLUTION_8 convTime s in
  read_target (hsk_adc_open10 channel target s10) channel = target /\
  hsk_adc_open8 channel target s10 = s10 /\
  read_target (hsk_adc_open8 channel target s8) channel = target /\
  hsk_adc_open10 channel target s8 = s8 /\
  (ADC_CHANNELS <= nextChannel s ->
   nextChannel (hsk_adc_open10 channel target s10) = channel /\
   nextChannel (hsk_adc_open8 channel target s8) = channel).
Proof.
  intros Hg Hc s10 s8.
  destruct (init_mode ADC_RESOLUTION_10 convTime s (or_introl eq_refl) Hg) as (Hm10 & Hok10 & Hn10).
  destruct (init_mode ADC_RESOLUTION_8 convTime s (or_intror eq_refl) Hg) as (Hm8 & Hok8 & Hn8).
  fold s10 in Hm10, Hok10, Hn10. fold s8 in Hm8, Hok8, Hn8.
  destruct (open10_in_mode10 channel target s10 Hm10) as [-> ->].
  destruct (open8_in_mode8 channel target s8 Hm8) as [-> ->].
  destruct (opened_registers channel target s10 Hok10 Hc) as (H1 & _ & _ & Hc10 & _).
  destruct (opened_registers channel target s8 Hok8 Hc) as (H2 & _ & _ & Hc8 & _).
  split; [exact H1|]. split; [reflexivity|]. split; [exact H2|]. split; [reflexivity|].
  intros Hnone. rewrite Hc10, Hc8, Hn10, Hn8.
  destruct (Z.geb_spec (nextChannel s) ADC_CHANNELS); [split; reflexivity|lia].
Qed.

(** X4.  For a conversion time the converter can meet (its clock ticks
    fit 16 bits, it is not below the shortest and not above the longest
    conversion), the prescaler and sample time of [hsk_adc_init] give the
    longest conversion that does not exceed the request: it takes at most
    the requested ticks and less than one sample time unit fewer, and
    every faster prescaler would stay below the request even with the
    longest sample time. *)
Theorem conv_timing_meets_request (resolution convTime : Z) :
  resolution = ADC_RESOLUTION_10 \/ resolution = ADC_RESOLUTION_8 ->
  0 <= convTime -> convTime * 24 < 65536 ->
  0 <= ideal_stc (result_bits resolution) (convTime * 24) ADC_CLK_12MHz ->
  ideal_stc (result_bits resolution) (convTime * 24) ADC_CLK_750kHz <= 255 ->
  let bits := result_bits resolution in
  let ctc := fst (conv_timing resolution convTime) in
  let stc := snd (conv_timing resolution convTime) in
  conv_ticks bits ctc stc <= convTime * 24 < conv_ticks bits ctc stc + clk_div ctc /\
  (forall p, 0 <= p < ctc -> conv_ticks bits p 255 < convTime * 24).
Proof.
  intros Hres H0 Hfit Hmin Hmax bits ctc stc.
  destruct (conv_timing_in_range resolution convTime Hres H0 Hfit Hmin)
    as (Hstc & Hctc & Hfast & Hsel).
  fold bits ctc stc in Hstc, Hctc, Hfast, Hsel. fold bits in Hmin, Hmax.
  assert (Hb : bits = 10 \/ bits = 8)
    by (unfold bits, result_bits; destruct (resolution =? ADC_RESOLUTION_10); auto).
  assert (Hideal : ideal_stc bits (convTime * 24) ctc <= 255)
    by (destruct Hsel as [H|H]; [exact H|rewrite H; exact Hmax]).
  rewrite Z.min_r in Hstc by exact Hideal.
  split.
  - unfold conv_ticks. rewrite Hstc. unfold ideal_stc, clk_div,
      ADC_CLK_12MHz, ADC_CLK_8MHz, ADC_CLK_6MHz, ADC_CLK_750kHz in *.
    assert (Hcase : ctc = 0 \/ ctc = 1 \/ ctc = 2 \/ ctc = 3) by lia.
    destruct Hcase as [-> |[-> |[-> | ->]]]; cbn [Z.eqb Pos.eqb];
      clear Hmin Hmax Hsel Hfast Hstc Hideal; Z.div_mod_to_equations; lia.
  - intros p Hp. specialize (Hfast p Hp).
    clear Hmin Hmax Hsel Hstc Hideal.
    unfold conv_ticks, ideal_stc, clk_div,
      ADC_CLK_12MHz, ADC_CLK_8MHz, ADC_CLK_6MHz, ADC_CLK_750kHz in *.
    assert (Hcase : p = 0 \/ p = 1 \/ p = 2) by lia.
    destruct Hcase as [-> |[-> | ->]]; cbn [Z.eqb Pos.eqb] in Hfast |- *;
      Z.div_mod_to_equations; lia.
Qed.

(** ** The driver in use *)

Lemma cleared_frame (c : Z) (s : adc) :
  targets_ok s -> 0 <= c < ADC_CHANNELS ->
  targets (cleared c s) = <[Z.to_nat c := 0]> (targets s) /\
  beyond (cleared c s) = beyond s /\ nextChannel (cleared c s) = nextChannel s /\
  queue (cleared c s) = queue s /\ mem (cleared c s) = mem s /\
  ADCSR0 (cleared c s) = ADCSR0 s /\ regs (cleared c s) = regs s /\
  EADC (cleared c s) = EADC s /\ stores (cleared c s) = stores s /\
  requests (cleared c s) = requests s.
Proof.
  intros Hok Hc. unfold cleared, write_target. cbn [targets set_audit set_EADC].
  destruct (lookup_lt_is_Some_2 (targets s) (Z.to_nat c)) as [x Hx];
    [unfold targets_ok in Hok; rewrite Hok; unfold ADC_CHANNELS in *; lia|].
  rewrite Hx. cbn. repeat split; reflexivity.
Qed.

(** [hsk_adc_close] on a channel of the converter: the state it leaves is
    the state with the target cleared, the cursor possibly moved. *)
Lemma close_result (c : Z) (s : adc) :
  0 <= c < ADC_CHANNELS ->
  exists s' n, hsk_adc_close c s = Some s' /\ s' = set_nextChannel n (cleared c s) /\
    (nextChannel s <> c -> n = nextChannel s) /\
    (nextChannel s = c ->
       n = ADC_CHANNELS \/ (0 <= n < ADC_CHANNELS /\ read_target (cleared c s) n <> 0)).
Proof.
  intros Hc. unfold hsk_adc_close.
  pose proof (close_traced_cases c s Hc) as Hcases. cbn zeta in Hcases.
  destruct Hcases as [[Hne ->]|[Heq (m & reads & _ & _ & ->)]]; cbn.
  - exists (cleared c s), (nextChannel (cleared c s)).
    split; [reflexivity|]. split; [reflexivity|].
    split; [intros _; unfold cleared; cbn; rewrite nextChannel_write_target; reflexivity|].
    intros H. contradiction.
  - eexists. eexists. split; [reflexivity|]. split; [reflexivity|].
    split; [intros H; contradiction|]. intros _.
    destruct (Z.eqb_spec (read_target (cleared c s) (m mod ADC_CHANNELS)) 0) as [Hz|Hnz];
      [left; reflexivity|right].
    split; [apply Z.mod_pos_bound; reflexivity|exact Hnz].
Qed.

Lemma write_QINR0_queue (v : Z) (s : adc) :
  (length (queue s) <= Z.to_nat ADC_QUEUE)%nat ->
  (length (queue (write_QINR0 v s)) <= Z.to_nat ADC_QUEUE)%nat.
Proof.
  intros H. unfold write_QINR0. cbn [queue set_requests].
  destruct (Nat.ltb_spec (length (queue s)) (Z.to_nat ADC_QUEUE)); cbn [queue set_queue].
  - rewrite length_app. cbn [length]. lia.
  - exact H.
Qed.

(** Under a cursor that is "none" or at an open channel
    [hsk_adc_service] returns. *)
Lemma service_returns (s : adc) :
  cursor_valid s ->
  exists b s', hsk_adc_service s = Some (b, s') /\
    (s' = s \/
     s' = set_nextChannel (next_open s (nextChannel s)) (write_QINR0 (nextChannel s) s) /\
     0 <= next_open s (nextChannel s) < ADC_CHANNELS /\
     is_open s (next_open s (nextChannel s)) = true).
Proof.
  intros Hcur. unfold hsk_adc_service.
  destruct (Z.geb_spec (nextChannel s) ADC_CHANNELS) as [Hge|Hlt]; [eauto|].
  destruct Hcur as [H8|[Hr Ho]]; [lia|].
  unfold hsk_adc_request.
  assert (Hu : u8 (Z.shiftl (nextChannel s) BIT_REQCHNR) = nextChannel s).
  { unfold BIT_REQCHNR, u8. rewrite Z.shiftl_0_r. apply Z.mod_small.
    unfold ADC_CHANNELS in Hr. lia. }
  rewrite Hu. case_cond; [eauto|].
  destruct (write_QINR0_frame (nextChannel s) s) as (_ & _ & Ht & Hb & Hn & _).
  rewrite Hn.
  rewrite (service_scan_ext _ s (fun i Hi => eq_sym (same_open_frame s _ Ht Hb i Hi))).
  destruct (service_scan_finds_next s (nextChannel s) Hr Ho) as (n & -> & Hnx & Hnr & Hno).
  cbn [mbind option_bind]. rewrite Hnx. eauto 10.
Qed.

Lemma handlers_keep_queue (s : adc) :
  queue (run_handler s) = queue s.
Proof.
  unfold run_handler. destruct (ADCSR0 s); [reflexivity| | |];
    unfold hsk_adc_isr_warmup10, hsk_adc_isr10, hsk_adc_isr8;
    repeat case_cond; reflexivity.
Qed.

Lemma hw_complete_queue (r : Z) (s : adc) :
  (length (queue (hw_complete r s)) <= length (queue s))%nat.
Proof.
  unfold hw_complete. destruct (queue s) as [|c q] eqn:Hq; [rewrite Hq; lia|].
  cbn [EADC set_result set_queue]. destruct (EADC s);
    [rewrite handlers_keep_queue|]; cbn; lia.
Qed.

Lemma driver_ok_frame (s s' : adc) :
  targets s' = targets s -> beyond s' = beyond s -> nextChannel s' = nextChannel s ->
  (length (queue s') <= Z.to_nat ADC_QUEUE)%nat ->
  driver_ok s -> driver_ok s'.
Proof.
  intros Ht Hb Hn Hq (Hok & Hcur & _). split; [|split; [|exact Hq]].
  - unfold targets_ok. rewrite Ht. exact Hok.
  - apply (cursor_valid_frame s); assumption.
Qed.

Lemma step_keeps_driver_ok (st : step) (s : adc) :
  driver_ok s -> step_ok st -> exists s', do_step st s = Some s' /\ driver_ok s'.
Proof.
  intros Hd Hst. pose proof Hd as (Hok & Hcur & Hq).
  assert (Hopened : forall c t, 0 <= c < ADC_CHANNELS -> t <> 0 -> driver_ok (opened c t s)).
  { intros c t Hc Ht. destruct (opened_valid c t s Hok Hcur Hc Ht) as [Hok' Hcur'].
    destruct (opened_registers c t s Hok Hc) as (_ & _ & _ & _ & Hq' & _).
    split; [exact Hok'|]. split; [exact Hcur'|]. rewrite Hq'. exact Hq. }
  destruct st as [c t|c t|c| |c|r]; cbn [do_step step_ok] in *.
  - destruct Hst as [Hc Ht]. eexists. split; [reflexivity|].
    destruct (open10_cases c t s) as [-> | ->]; auto.
  - destruct Hst as [Hc Ht]. eexists. split; [reflexivity|].
    destruct (open8_cases c t s) as [-> | ->]; auto.
  - destruct (close_valid c s Hok Hcur Hst) as (s' & Hcl & Hok' & Hcur').
    exists s'. split; [exact Hcl|]. split; [exact Hok'|]. split; [exact Hcur'|].
    destruct (close_result c s Hst) as (s2 & n & Hcl2 & -> & _).
    rewrite Hcl in Hcl2. injection Hcl2 as ->.
    destruct (cleared_frame c s Hok Hst) as (_ & _ & _ & Hq' & _).
    cbn [queue set_nextChannel]. rewrite Hq'. exact Hq.
  - destruct (service_returns s Hcur) as (b & s' & -> & [-> |(-> & Hnr & Hno)]); cbn.
    + eauto.
    + eexists. split; [reflexivity|].
      destruct (write_QINR0_frame (nextChannel s) s) as (_ & _ & Ht & Hb & _).
      split; [unfold targets_ok; cbn [targets set_nextChannel]; rewrite Ht; exact Hok|].
      split; [|cbn [queue set_nextChannel]; apply write_QINR0_queue; exact Hq].
      right. cbn [nextChannel set_nextChannel]. split; [exact Hnr|].
      rewrite <- Hno. unfold is_open. f_equal. f_equal.
      apply read_target_frame; cbn; assumption.
  - eexists. split; [reflexivity|]. unfold hsk_adc_request. case_cond; cbn [snd]; [exact Hd|].
    destruct (write_QINR0_frame (u8 (Z.shiftl c BIT_REQCHNR)) s) as (_ & _ & Ht & Hb & Hn & _).
    apply (driver_ok_frame s); try assumption. apply write_QINR0_queue. exact Hq.
  - eexists. split; [reflexivity|].
    destruct (hw_event_frame (Some r) s) as [(Ht & Hb & Hn & _) _]. cbn [hw_event] in *.
    apply (driver_ok_frame s); try assumption.
    pose proof (hw_complete_queue r s). lia.
Qed.

(** X5.  A driver in order stays in order and never hangs: from a state
    whose registry has its eight entries, whose cursor is "none" or at an
    open channel and whose queue holds at most four requests, every
    sequence of opens (of targets that are not null), closes, service
    calls, direct requests and completed conversions, on the channels 0
    to 7, returns and leaves such a state, whatever lies past the
    registry. *)
Theorem driver_stays_in_order (sts : list step) :
  forall s, driver_ok s -> Forall step_ok sts ->
  exists s', do_steps sts s = Some s' /\ driver_ok s'.
Proof.
  induction sts as [|st sts IH]; intros s Hd Hsts.
  - exists s. auto.
  - inversion Hsts as [|? ? Hst Hsts']; subst. cbn [do_steps].
    destruct (step_keeps_driver_ok st s Hd Hst) as (s1 & -> & Hd1).
    cbn [mbind option_bind]. apply IH; assumption.
Qed.

(** ** Registry round trips *)

Lemma read_cleared (c i : Z) (s : adc) :
  targets_ok s -> 0 <= c < ADC_CHANNELS -> 0 <= i ->
  read_target (cleared c s) i = if i =? c then 0 else read_target s i.
Proof.
  intros Hok Hc Hi.
  change (read_target (cleared c s) i) with (read_target (write_target c 0 (set_EADC false s)) i).
  rewrite read_target_write by assumption. reflexivity.
Qed.

Lemma closed_everywhere (s : adc) (i : Z) :
  open_channels s = [] -> 0 <= i < ADC_CHANNELS -> read_target s i = 0.
Proof.
  intros He Hi. destruct (Z.eqb_spec (read_target s i) 0) as [Hz|Hnz]; [exact Hz|exfalso].
  assert (Hin : In i (open_channels s)).
  { apply in_open_channels. split; [exact Hi|]. unfold is_open.
    apply Z.eqb_neq in Hnz. rewrite Hnz. reflexivity. }
  rewrite He in Hin. destruct Hin.
Qed.

Lemma set_nextChannel_frame (n : Z) (s : adc) :
  targets (set_nextChannel n s) = targets s /\ nextChannel (set_nextChannel n s) = n /\
  beyond (set_nextChannel n s) = beyond s /\ mem (set_nextChannel n s) = mem s /\
  queue (set_nextChannel n s) = queue s /\ regs (set_nextChannel n s) = regs s /\
  ADCSR0 (set_nextChannel n s) = ADCSR0 s /\ EADC (set_nextChannel n s) = EADC s /\
  stores (set_nextChannel n s) = stores s /\ requests (set_nextChannel n s) = requests s.
Proof. repeat split; reflexivity. Qed.

Lemma insert_back (l : list Z) (k : nat) (x y : Z) :
  l !! k = Some x -> <[k := x]> (<[k := y]> l) = l.
Proof.
  intros H. rewrite list_insert_insert_eq. apply list_insert_id. exact H.
Qed.

(** X6.  Opening a closed channel and closing it again leaves the driver
    as it was: in 10 bit mode, from a state whose cursor is "none" exactly
    if no channel is open, [hsk_adc_close] after [hsk_adc_open10] on a
    closed channel returns, and registry, cursor, memory, queue,
    registers, handler and interrupt enable are those of before. *)
Theorem open_close_round_trip (c t : Z) (s : adc) :
  targets_ok s -> cursor_exact s -> mode10 s ->
  0 <= c < ADC_CHANNELS -> read_target s c = 0 ->
  exists s', hsk_adc_close c (hsk_adc_open10 c t s) = Some s' /\
    targets s' = targets s /\ nextChannel s' = nextChannel s /\
    beyond s' = beyond s /\ mem s' = mem s /\ queue s' = queue s /\
    regs s' = regs s /\ ADCSR0 s' = ADCSR0 s /\ EADC s' = EADC s /\
    stores s' = stores s /\ requests s' = requests s.
Proof.
  intros Hok Hcur Hmode Hc Hclosed.
  destruct (open10_in_mode10 c t s Hmode) as [-> _].
  destruct (opened_registers c t s Hok Hc)
    as (Hrc & Hro & Ht & Hn & Hq & Hm & Hh & Hr & Hb & He & Hst & Hrq).
  assert (Hok1 : targets_ok (opened c t s))
    by (unfold targets_ok; rewrite Ht, length_insert; exact Hok).
  destruct (close_result c (opened c t s) Hc) as (s' & n & Hcl & -> & Hne & Heq).
  destruct (cleared_frame c (opened c t s) Hok1 Hc)
    as (Ht2 & Hb2 & Hn2 & Hq2 & Hm2 & Hh2 & Hr2 & He2 & Hs2 & Hrq2).
  assert (Hlook : targets s !! Z.to_nat c = Some 0).
  { unfold read_target in Hclosed.
    destruct (lookup_lt_is_Some_2 (targets s) (Z.to_nat c)) as [x Hx];
      [unfold targets_ok in Hok; rewrite Hok; unfold ADC_CHANNELS in *; lia|].
    rewrite Hx in Hclosed. rewrite Hx. congruence. }
  assert (Hcursor : n = nextChannel s).
  { destruct (Z.eq_dec (nextChannel (opened c t s)) c) as [Hat|Hnot].
    - (* the cursor is at [c]: no channel was open *)
      assert (Hnone : nextChannel s = ADC_CHANNELS /\ open_channels s = []).
      { destruct Hcur as [H|[Hr' Ho']]; [exact H|exfalso].
        rewrite Hn in Hat. destruct (Z.geb_spec (nextChannel s) ADC_CHANNELS); [lia|].
        rewrite Hat in Ho'. unfold is_open in Ho'. rewrite Hclosed in Ho'. discriminate. }
      destruct Hnone as [H8 Hempty]. rewrite H8.
      destruct (Heq Hat) as [-> |[Hnr Hopen]]; [reflexivity|exfalso].
      apply Hopen. rewrite read_cleared by (assumption || lia).
      destruct (Z.eqb_spec n c) as [_|Hnc]; [reflexivity|].
      rewrite Hro by lia. apply closed_everywhere; assumption.
    - rewrite (Hne Hnot), Hn.
      destruct (Z.geb_spec (nextChannel s) ADC_CHANNELS); [|reflexivity].
      exfalso. apply Hnot. rewrite Hn.
      destruct (Z.geb_spec (nextChannel s) ADC_CHANNELS); [reflexivity|lia]. }
  exists (set_nextChannel n (cleared c (opened c t s))). split; [exact Hcl|].
  destruct (set_nextChannel_frame n (cleared c (opened c t s)))
    as (-> & -> & -> & -> & -> & -> & -> & -> & -> & ->).
  split; [rewrite Ht2, Ht; apply insert_back; exact Hlook|].
  split; [exact Hcursor|].
  repeat split; congruence.
Qed.

(** X7.  Closing is idempotent: [hsk_adc_close] on a channel of the
    converter returns, and a second close of the same channel returns and
    changes neither registry nor cursor nor anything else of the driver,
    whatever lies past the registry. *)
Theorem close_idempotent (c : Z) (s : adc) :
  targets_ok s -> 0 <= c < ADC_CHANNELS ->
  exists s1 s2,
    hsk_adc_close c s = Some s1 /\ hsk_adc_close c s1 = Some s2 /\
    read_target s1 c = 0 /\
    targets s2 = targets s1 /\ nextChannel s2 = nextChannel s1 /\
    beyond s2 = beyond s1 /\ mem s2 = mem s1 /\ queue s2 = queue s1 /\
    regs s2 = regs s1 /\ ADCSR0 s2 = ADCSR0 s1 /\ EADC s2 = EADC s1.
Proof.
  intros Hok Hc.
  destruct (close_result c s Hc) as (s1 & n & Hcl1 & Hs1 & Hne & Heq).
  destruct (cleared_frame c s Hok Hc) as (Ht & _).
  assert (Hok1 : targets_ok s1).
  { unfold targets_ok. rewrite Hs1. cbn [targets set_nextChannel].
    rewrite Ht, length_insert. exact Hok. }
  assert (Hrc : read_target s1 c = 0).
  { rewrite Hs1. change (read_target (set_nextChannel n (cleared c s)) c)
      with (read_target (cleared c s) c).
    rewrite read_cleared by (assumption || lia). rewrite Z.eqb_refl. reflexivity. }
  assert (Hcur : nextChannel s1 <> c).
  { rewrite Hs1. cbn [nextChannel set_nextChannel].
    destruct (Z.eq_dec (nextChannel s) c) as [Hat|Hnot].
    - destruct (Heq Hat) as [-> |[_ Hopen]]; [unfold ADC_CHANNELS in *; lia|].
      intros ->. apply Hopen. rewrite read_cleared by (assumption || lia).
      rewrite Z.eqb_refl. reflexivity.
    - rewrite (Hne Hnot). exact Hnot. }
  destruct (close_result c s1 Hc) as (s2 & n2 & Hcl2 & Hs2 & Hne2 & _).
  destruct (cleared_frame c s1 Hok1 Hc) as (Ht2 & Hb2 & Hn2 & Hq2 & Hm2 & Hh2 & Hr2 & He2 & _).
  exists s1, s2. split; [exact Hcl1|]. split; [exact Hcl2|]. split; [exact Hrc|].
  rewrite Hs2.
  destruct (set_nextChannel_frame n2 (cleared c s1))
    as (-> & -> & -> & -> & -> & -> & -> & -> & _).
  split.
  - rewrite Ht2. apply list_insert_id.
    unfold read_target in Hrc.
    destruct (lookup_lt_is_Some_2 (targets s1) (Z.to_nat c)) as [x Hx];
      [unfold targets_ok in Hok1; rewrite Hok1; unfold ADC_CHANNELS in *; lia|].
    rewrite Hx in Hrc. rewrite Hx. congruence.
  - split; [apply Hne2; exact Hcur|]. repeat split; assumption.
Qed.

(** ** The cursor after a second initialisation *)

Lemma service_scan_finds_nothing (s : adc) :
  open_channels s = [] -> forall fuel n, service_scan fuel s n = None.
Proof.
  intros He fuel. induction fuel as [|fuel IH]; intros n; [reflexivity|].
  cbn [service_scan].
  rewrite (closed_everywhere s _ He (Z.mod_pos_bound (u8 (n + 1)) ADC_CHANNELS eq_refl)).
  cbn. apply IH.
Qed.

(** With the cursor at a channel, no channel open and room in the queue,
    [hsk_adc_service] does not return. *)
Lemma service_hangs_on_stale_cursor (s : adc) :
  0 <= nextChannel s < ADC_CHANNELS -> open_channels s = [] ->
  (length (queue s) < Z.to_nat ADC_QUEUE)%nat ->
  hsk_adc_service s = None.
Proof.
  intros Hn He Hq. unfold hsk_adc_service.
  destruct (Z.geb_spec (nextChannel s) ADC_CHANNELS); [lia|].
  destruct (request_by_fill (nextChannel s) s Hn ltac:(lia)) as (_ & Hroom & _).
  destruct (Hroom ltac:(lia)) as (-> & _).
  rewrite service_scan_finds_nothing; [reflexivity|].
  rewrite <- He. symmetry. apply open_channels_ext, same_open_frame;
    apply write_QINR0_frame.
Qed.

(** X8.  [hsk_adc_init] empties the registry but leaves the cursor: when
    a driver whose cursor is at a channel is initialised again, the next
    [hsk_adc_service] that finds room in the queue requests that channel
    and then searches the empty registry for an open channel without
    end. *)
Theorem service_hangs_after_second_init (resolution convTime : Z) (s : adc) :
  resolution = ADC_RESOLUTION_10 \/ resolution = ADC_RESOLUTION_8 ->
  0 <= nextChannel s < ADC_CHANNELS ->
  (length (queue s) < Z.to_nat ADC_QUEUE)%nat ->
  nextChannel (hsk_adc_init resolution convTime s) = nextChannel s /\
  open_channels (hsk_adc_init resolution convTime s) = [] /\
  hsk_adc_service (hsk_adc_init resolution convTime s) = None.
Proof.
  intros Hres Hn Hq.
  destruct (init_result resolution convTime s Hres)
    as (_ & _ & _ & _ & Ht & _ & Hn' & Hq' & _).
  cbn zeta in *.
  assert (He : open_channels (hsk_adc_init resolution convTime s) = []).
  { unfold open_channels, is_open, read_target. rewrite Ht. reflexivity. }
  split; [exact Hn'|]. split; [exact He|].
  apply service_hangs_on_stale_cursor; [rewrite Hn'; exact Hn|exact He|rewrite Hq'; exact Hq].
Qed.

(** ** Warm-up *)

Lemma store_mem (p v a : Z) (s : adc) :
  mem (store p v s) a = if a =? p then v else mem s a.
Proof. reflexivity. Qed.

(** The first loop of the warm-up marks every registered target and
    touches nothing but the memory of the targets. *)
Lemma warmup10_mark_result (s : adc) :
  targets (warmup10_mark s) = targets s /\ beyond (warmup10_mark s) = beyond s /\
  ADCSR0 (warmup10_mark s) = ADCSR0 s /\ EADC (warmup10_mark s) = EADC s /\
  regs (warmup10_mark s) = regs s /\
  forall i, 0 <= i < ADC_CHANNELS -> read_target s i <> 0 ->
            mem (warmup10_mark s) (read_target s i) = WARMUP_MARK.
Proof.
  unfold warmup10_mark.
  assert (Hgen : forall l s0,
    let s' := fold_left (fun s i => if read_target s i =? 0 then s
                                    else store (read_target s i) WARMUP_MARK s) l s0 in
    targets s' = targets s0 /\ beyond s' = beyond s0 /\
    ADCSR0 s' = ADCSR0 s0 /\ EADC s' = EADC s0 /\ regs s' = regs s0 /\
    (forall a, mem s0 a = WARMUP_MARK -> mem s' a = WARMUP_MARK) /\
    (forall i, In i l -> read_target s0 i <> 0 -> mem s' (read_target s0 i) = WARMUP_MARK)).
  { induction l as [|i l IH]; intros s0; cbn [fold_left].
    - repeat split; try reflexivity; [auto|intros i []].
    - cbn zeta.
      destruct (Z.eqb_spec (read_target s0 i) 0) as [Hz|Hnz].
      + destruct (IH s0) as (Ht & Hb & Hh & He & Hr & Hkeep & Hmark). cbn zeta in *.
        repeat split; try assumption.
        intros j [<- |Hj] Hreg; [contradiction|auto].
      + destruct (IH (store (read_target s0 i) WARMUP_MARK s0))
          as (Ht & Hb & Hh & He & Hr & Hkeep & Hmark). cbn zeta in *.
        assert (Hrd : forall j, read_target (store (read_target s0 i) WARMUP_MARK s0) j
                                = read_target s0 j) by reflexivity.
        repeat split; try assumption.
        * intros a Ha. apply Hkeep. rewrite store_mem. destruct (a =? _); auto.
        * intros j [<- |Hj] Hreg.
          -- apply Hkeep. rewrite store_mem, Z.eqb_refl. reflexivity.
          -- rewrite <- Hrd. apply Hmark; [exact Hj|]. rewrite Hrd. exact Hreg. }
  destruct (Hgen (seqZ 0 ADC_CHANNELS) s) as (Ht & Hb & Hh & He & Hr & _ & Hmark).
  cbn zeta in *. repeat split; try assumption.
  intros i Hi Hreg. apply Hmark; [|exact Hreg].
  apply list_elem_of_In, elem_of_seqZ. lia.
Qed.










Lemma warmup10_hijack_frame (s : adc) :
  targets (warmup10_hijack s) = targets s /\ beyond (warmup10_hijack s) = beyond s /\
  mem (warmup10_hijack s) = mem s /\ queue (warmup10_hijack s) = queue s /\
  nextChannel (warmup10_hijack s) = nextChannel s /\
  EADC (warmup10_hijack s) = true /\ ADCSR0 (warmup10_hijack s) = H_isr_warmup10.
Proof. repeat split; reflexivity. Qed.


(** A completion that the warm-up handler serves, for a channel with a
    registered target: the result is stored, then the handler steps back
    if no mark is left. *)
Lemma hw_complete_warmup (r c T : Z) (q : list Z) (s : adc) :
  queue s = c :: q -> 0 <= c < ADC_CHANNELS ->
  EADC s = true -> ADCSR0 s = H_isr_warmup10 ->
  read_target s c = T -> T <> 0 ->
  exists s3,
    hw_complete r s = (if warmup_pending s3 then s3 else set_ADCSR0 H_isr10 s3) /\
    targets s3 = targets s /\ beyond s3 = beyond s /\ EADC s3 = true /\
    ADCSR0 s3 = H_isr_warmup10 /\ queue s3 = q /\ nextChannel s3 = nextChannel s /\
    mem s3 T = Z.land r 1023 /\ (forall a, a <> T -> mem s3 a = mem s a).
Proof.
  intros Hq Hc He Hh Ht HT. unfold hw_complete. rewrite Hq.
  destruct (latched_result r c (set_queue q s) Hc) as [Hch Hval]. cbn zeta in Hch, Hval.
  set (s1 := set_result _ _ (set_queue q s)) in *.
  change (EADC s1) with (EADC s). rewrite He.
  unfold run_handler. change (ADCSR0 s1) with (ADCSR0 s). rewrite Hh.
  unfold hsk_adc_isr_warmup10, hsk_adc_isr10. cbn zeta. rewrite Hch, Hval.
  change (read_target s1 c) with (read_target s c). rewrite Ht.
  apply Z.eqb_neq in HT. rewrite HT.
  exists (store T (Z.land r 1023) s1). split; [reflexivity|].
  split; [reflexivity|]. split; [reflexivity|]. split; [exact He|]. split; [exact Hh|].
  split; [reflexivity|]. split; [reflexivity|].
  split; [rewrite store_mem, Z.eqb_refl; reflexivity|].
  intros a Ha. rewrite store_mem. apply Z.eqb_neq in Ha. rewrite Ha. reflexivity.
Qed.

Lemma write_QINR0_idle (v : Z) (s : adc) :
  queue s = [] ->
  queue (write_QINR0 v s) = [Z.land v (Z.shiftl 1 CNT_REQCHNR - 1)] /\
  mem (write_QINR0 v s) = mem s /\ EADC (write_QINR0 v s) = EADC s /\
  ADCSR0 (write_QINR0 v s) = ADCSR0 s.
Proof.
  intros Hq. unfold write_QINR0. cbn [queue set_requests]. rewrite Hq. cbn.
  repeat split; reflexivity.
Qed.

(** One poll of the warm-up with an idle converter and the cursor at an
    open channel, a conversion completing before the next poll: the
    channel is requested, converted and delivered, the cursor moves on,
    the converter is idle again. *)
Lemma warmup_poll_delivers (r : Z) (s : adc) :
  EADC s = true -> ADCSR0 s = H_isr_warmup10 -> queue s = [] ->
  0 <= nextChannel s < ADC_CHANNELS -> is_open s (nextChannel s) = true ->
  exists s1 s2,
    hsk_adc_service s = Some (true, s1) /\ hw_event (Some r) s1 = s2 /\
    targets s2 = targets s /\ beyond s2 = beyond s /\ EADC s2 = true /\ queue s2 = [] /\
    nextChannel s2 = next_open s (nextChannel s) /\
    mem s2 (read_target s (nextChannel s)) = Z.land r 1023 /\
    (forall a, a <> read_target s (nextChannel s) -> mem s2 a = mem s a) /\
    (ADCSR0 s2 = H_isr_warmup10 /\ warmup_pending s2 = true \/ ADCSR0 s2 = H_isr10).
Proof.
  intros He Hh Hq Hr Ho. set (c := nextChannel s) in *.
  assert (Hlen : length (queue s) = 0%nat) by (rewrite Hq; reflexivity).
  change (Z.to_nat ADC_QUEUE) with 4%nat in *.
  destruct (request_by_fill c s Hr ltac:(change (Z.to_nat ADC_QUEUE) with 4%nat; lia))
    as (_ & Hreq & _).
  destruct (Hreq ltac:(change (Z.to_nat ADC_QUEUE) with 4%nat; lia)) as (Hreq' & _).
  destruct (write_QINR0_frame c s) as (_ & _ & Ht & Hb & Hn & _).
  destruct (write_QINR0_idle c s Hq) as (Hq1 & Hm1 & He1 & Hh1).
  destruct (service_scan_finds_next s c Hr Ho) as (n & Hscan & Hnx & _).
  set (s1 := set_nextChannel (next_open s c) (write_QINR0 c s)).
  assert (Hserv : hsk_adc_service s = Some (true, s1)).
  { unfold hsk_adc_service. fold c.
    destruct (Z.geb_spec c ADC_CHANNELS) as [Hge|_]; [lia|].
    rewrite Hreq'. rewrite Hn.
    rewrite (service_scan_ext _ s (fun i Hi => eq_sym (same_open_frame s _ Ht Hb i Hi))).
    fold c. rewrite Hscan. cbn [mbind option_bind]. rewrite Hnx. reflexivity. }
  destruct (set_nextChannel_frame (next_open s c) (write_QINR0 c s))
    as (Ht1 & Hn1 & Hb1 & Hm1' & Hq1' & _ & Hh1' & He1' & _).
  fold s1 in Ht1, Hn1, Hb1, Hm1', Hq1', Hh1', He1'.
  assert (Hc7 : Z.land c (Z.shiftl 1 CNT_REQCHNR - 1) = c).
  { change (Z.shiftl 1 CNT_REQCHNR - 1) with (Z.ones 3).
    rewrite Z.land_ones by lia. apply Z.mod_small. unfold ADC_CHANNELS in Hr.
    change (2 ^ 3) with 8. lia. }
  assert (HT : read_target s c <> 0).
  { unfold is_open in Ho. intros Hz. rewrite Hz in Ho. discriminate. }
  destruct (hw_complete_warmup r c (read_target s c) [] s1) as
    (s3 & Hcomp & Ht3 & Hb3 & He3 & Hh3 & Hq3 & Hn3 & Hm3 & Hm3');
    [rewrite Hq1', Hq1, Hc7; reflexivity|exact Hr|congruence|congruence| |exact HT|].
  { apply read_target_frame; congruence. }
  exists s1, (hw_complete r s1). split; [exact Hserv|]. split; [reflexivity|].
  rewrite Hcomp.
  assert (Hall : forall s4, (s4 = s3 \/ s4 = set_ADCSR0 H_isr10 s3) ->
    targets s4 = targets s /\ beyond s4 = beyond s /\ EADC s4 = true /\ queue s4 = [] /\
    nextChannel s4 = next_open s c /\ mem s4 (read_target s c) = Z.land r 1023 /\
    (forall a, a <> read_target s c -> mem s4 a = mem s a)).
  { intros s4 Hs4.
    assert (Hsame : targets s4 = targets s3 /\ beyond s4 = beyond s3 /\ EADC s4 = EADC s3 /\
                    queue s4 = queue s3 /\ nextChannel s4 = nextChannel s3 /\ mem s4 = mem s3)
      by (destruct Hs4; subst s4; repeat split; reflexivity).
    destruct Hsame as (-> & -> & -> & -> & -> & ->).
    split; [congruence|]. split; [congruence|]. split; [exact He3|]. split; [exact Hq3|].
    split; [congruence|]. split; [exact Hm3|].
    intros a Ha. rewrite (Hm3' a Ha). congruence. }
  destruct (warmup_pending s3) eqn:Hp.
  - destruct (Hall s3 (or_introl eq_refl)) as (H1 & H2 & H3 & H4 & H5 & H6 & H7).
    repeat split; try assumption. left. split; assumption.
  - destruct (Hall _ (or_intror eq_refl)) as (H1 & H2 & H3 & H4 & H5 & H6 & H7).
    repeat split; try assumption. right. reflexivity.
Qed.

Lemma orbit_snoc (nx : Z -> Z) (j : nat) (c : Z) :
  orbit nx (S j) c = orbit nx j c ++ [Nat.iter j nx c].
Proof.
  replace (S j) with (j + 1)%nat by lia. rewrite orbit_app. reflexivity.
Qed.

Lemma iter_next_open (s : adc) (c : Z) (j : nat) :
  0 <= c < ADC_CHANNELS -> is_open s c = true ->
  0 <= Nat.iter j (next_open s) c < ADC_CHANNELS /\
  is_open s (Nat.iter j (next_open s) c) = true.
Proof.
  intros Hc Ho. induction j as [|j [IHr IHo]]; [auto|].
  change (Nat.iter (S j) (next_open s) c) with (next_open s (Nat.iter j (next_open s) c)).
  destruct (service_scan_finds_next s _ IHr IHo) as (_ & _ & _ & Hr & Ho'). auto.
Qed.

(** A round from an open channel meets every open channel. *)
Lemma round_meets_open (s : adc) (c i : Z) :
  0 <= c < ADC_CHANNELS -> is_open s c = true -> In i (open_channels s) ->
  In i (cycle s (length (open_channels s)) c).
Proof.
  intros Hc Ho Hi. destruct (checks_hold s c Hc) as [_ Hchk].
  unfold check_round in Hchk. rewrite Ho in Hchk. cbn [implb] in Hchk. cbn zeta in Hchk.
  apply andb_true_iff in Hchk as [_ Hcount]. rewrite forallb_forall in Hcount.
  apply in_open_channels in Hi as [Hir Hio].
  specialize (Hcount i). rewrite <- list_elem_of_In, elem_of_seqZ in Hcount.
  specialize (Hcount ltac:(unfold ADC_CHANNELS in *; lia)).
  rewrite Hio in Hcount. apply Nat.eqb_eq in Hcount.
  apply (count_occ_In Z.eq_dec). lia.
Qed.

Lemma warmup_loop_ends (s0 : adc) (c0 : Z) :
  0 <= c0 < ADC_CHANNELS -> is_open s0 c0 = true ->
  forall (k j : nat) (rs : list Z) (s : adc),
    (j + k = length (open_channels s0))%nat -> (0 < k)%nat -> (k <= length rs)%nat ->
    targets s = targets s0 -> beyond s = beyond s0 ->
    EADC s = true -> ADCSR0 s = H_isr_warmup10 -> queue s = [] ->
    nextChannel s = Nat.iter j (next_open s0) c0 ->
    (forall x, In x (orbit (next_open s0) j c0) -> mem s (read_target s0 x) <> WARMUP_MARK) ->
    exists s', warmup_loop (map Some rs) s = Some s'.
Proof.
  intros Hc0 Ho0 k. induction k as [|k IH]; intros j rs s Hjk Hk Hrs Ht Hb He Hh Hq Hn Hdel; [lia|].
  destruct rs as [|r rs]; [cbn in Hrs; lia|]. cbn [map].
  destruct (iter_next_open s0 c0 j Hc0 Ho0) as [Hcr Hco].
  assert (Hsame : same_open s0 s) by (apply same_open_frame; assumption).
  assert (Hrd : forall i, read_target s i = read_target s0 i)
    by (intros i; apply read_target_frame; assumption).
  rewrite <- Hn in Hcr, Hco.
  assert (Hco' : is_open s (nextChannel s) = true) by (rewrite <- (Hsame _ Hcr); exact Hco).
  destruct (warmup_poll_delivers r s He Hh Hq Hcr Hco')
    as (s1 & s2 & Hserv & Hev & Ht2 & Hb2 & He2 & Hq2 & Hn2 & Hm2 & Hm2' & Hhand).
  rewrite warmup_loop_polls by exact Hh. rewrite Hserv. cbn [mbind option_bind]. rewrite Hev.
  assert (Hv : Z.land r 1023 <> WARMUP_MARK).
  { assert (0 <= Z.land r 1023 < 1024).
    { change 1023 with (Z.ones 10). rewrite Z.land_ones by lia. apply Z.mod_pos_bound. lia. }
    unfold WARMUP_MARK. lia. }
  assert (Hdel2 : forall x, In x (orbit (next_open s0) (S j) c0) ->
                            mem s2 (read_target s0 x) <> WARMUP_MARK).
  { intros x Hx. rewrite orbit_snoc in Hx. apply in_app_or in Hx as [Hx|[<- |[]]].
    - destruct (Z.eq_dec (read_target s0 x) (read_target s (nextChannel s))) as [Heq|Hne].
      + rewrite Heq, Hm2. exact Hv.
      + rewrite (Hm2' _ Hne). apply Hdel. exact Hx.
    - rewrite <- Hn, <- Hrd, Hm2. exact Hv. }
  destruct Hhand as [[Hh2 Hp]|Hh2];
    [|exists s2; apply warmup_loop_returns; rewrite Hh2; discriminate].
  assert (Hk' : (0 < k)%nat).
  { destruct k as [|k]; [exfalso|lia].
    unfold warmup_pending in Hp. apply existsb_exists in Hp as (i & Hi & Hpi).
    apply andb_true_iff in Hpi as [Hreg Hmark].
    apply list_elem_of_In, elem_of_seqZ in Hi. apply Z.eqb_eq in Hmark.
    assert (Hrd2 : read_target s2 i = read_target s0 i)
      by (apply read_target_frame; congruence).
    rewrite Hrd2 in Hreg, Hmark.
    assert (Hin : In i (open_channels s0)).
    { apply in_open_channels. split; [unfold ADC_CHANNELS in *; lia|exact Hreg]. }
    apply (round_meets_open s0 c0 i Hc0 Ho0) in Hin.
    unfold cycle in Hin. replace (length (open_channels s0)) with (S j) in Hin by lia.
    apply (Hdel2 i Hin). exact Hmark. }
  apply (IH (S j) rs s2); try assumption; try congruence; try lia.
  - cbn in Hrs. lia.
  - rewrite Hn2, Hn.
    rewrite <- (next_open_ext s0 s _ Hsame). reflexivity.
Qed.

(** X10.  The warm-up with open channels ends: in 10 bit mode, with the
    cursor at an open channel and an idle converter, if one conversion
    completes between two polls of the warm-up, [hsk_adc_warmup10]
    returns after at most as many polls as channels are open. *)
Theorem warmup10_returns_after_a_round (rs : list Z) (s : adc) :
  mode10 s -> cursor_exact s -> open_channels s <> [] -> queue s = [] ->
  (length (open_channels s) <= length rs)%nat ->
  exists s', hsk_adc_warmup10 (map Some rs) s = Some s'.
Proof.
  intros Hmode Hcur Hopen Hq Hrs. unfold hsk_adc_warmup10.
  unfold mode10 in Hmode. rewrite Hmode, Z.eqb_refl. cbn [negb].
  destruct Hcur as [[_ He]|[Hr Ho]]; [contradiction|].
  destruct (warmup10_mark_result s) as (Ht & Hb & _).
  destruct (warmup10_mark_frame s) as (Hn & Hq').
  destruct (warmup10_hijack_frame (warmup10_mark s)) as (Hth & Hbh & _ & Hqh & Hnh & Heh & Hhh).
  set (s1 := warmup10_hijack (warmup10_mark s)) in *.
  assert (Ht1 : targets s1 = targets s) by (rewrite Hth; exact Ht).
  assert (Hb1 : beyond s1 = beyond s) by (rewrite Hbh; exact Hb).
  assert (Hq1 : queue s1 = []) by (rewrite Hqh, Hq'; exact Hq).
  assert (Hn1 : nextChannel s1 = Nat.iter 0 (next_open s) (nextChannel s))
    by (rewrite Hnh; exact Hn).
  assert (HK : (0 < length (open_channels s))%nat)
    by (destruct (open_channels s); [contradiction|cbn; lia]).
  exact (warmup_loop_ends s (nextChannel s) Hr Ho (length (open_channels s)) 0%nat rs s1
           eq_refl HK Hrs Ht1 Hb1 Heh Hhh Hq1 Hn1 (fun x (H : In x []) => match H with end)).
Qed.

(** * The display driver *)

Lemma codepage_at_table (rom : Z -> Z) (i : Z) :
  0 <= i < 128 -> codepage_at rom i = nth (Z.to_nat i) codepage 0.
Proof.
  intros Hi. unfold codepage_at.
  destruct (Z.ltb_spec i 0); [lia|].
  destruct (lookup_lt_is_Some_2 codepage (Z.to_nat i)) as [b Hb];
    [change (length codepage) with 128%nat; lia|].
  rewrite Hb. symmetry. apply nth_lookup_Some with (d := 0) in Hb.
  rewrite <- Hb. clear. generalize (Z.to_nat i). intros n.
  revert n. generalize codepage. induction l as [|x l IH]; intros [|n]; cbn; auto.
Qed.

Lemma codepage_byte (i : nat) : 0 <= nth i codepage 0 < 256.
Proof.
  assert (Hall : Forall (fun b => 0 <= b < 256) codepage)
    by (unfold codepage; repeat constructor; lia).
  destruct (Nat.lt_ge_cases i (length codepage)) as [Hlt|Hge].
  - rewrite Forall_forall in Hall. apply Hall. apply list_elem_of_In, nth_In. exact Hlt.
  - rewrite nth_overflow by exact Hge. lia.
Qed.

(** The two digit loops are the loop [digits_loop], whatever the code
    memory around the table holds: their indices stay inside the table. *)
Lemma writeDec_loop_digits (rom : Z -> Z) (n : nat) :
  forall buffer value power pos point, 0 <= value ->
  writeDec_loop rom n buffer value power pos point
  = digits_loop 10 n buffer value power pos point.
Proof.
  induction n as [|n IH]; intros buffer value power pos point Hv; [reflexivity|].
  cbn [writeDec_loop digits_loop].
  rewrite (codepage_at_table rom (value mod 10))
    by (pose proof (Z.mod_pos_bound value 10); lia).
  rewrite (codepage_at_table rom 32) by lia.
  apply IH. apply Z.div_pos; lia.
Qed.

Lemma writeHex_loop_digits (rom : Z -> Z) (n : nat) :
  forall buffer value power pos point, 0 <= value ->
  writeHex_loop rom n buffer value power pos point
  = digits_loop 16 n buffer value power pos point.
Proof.
  induction n as [|n IH]; intros buffer value power pos point Hv; [reflexivity|].
  cbn [writeHex_loop digits_loop].
  assert (Hl : Z.land value 15 = value mod 16).
  { change 15 with (Z.ones 4). rewrite Z.land_ones by lia. reflexivity. }
  assert (Hs : Z.shiftr value 4 = value / 16).
  { rewrite Z.shiftr_div_pow2 by lia. reflexivity. }
  rewrite Hl, Hs.
  rewrite (codepage_at_table rom (value mod 16))
    by (pose proof (Z.mod_pos_bound value 16); lia).
  rewrite (codepage_at_table rom 32) by lia.
  apply IH. apply Z.div_pos; lia.
Qed.

Lemma digits_loop_frame (base : Z) (n : nat) :
  forall buffer value power pos point j,
  ~ (pos <= j < pos + Z.of_nat n) ->
  digits_loop base n buffer value power pos point j = buffer j.
Proof.
  induction n as [|n IH]; intros buffer value power pos point j Hj; [reflexivity|].
  cbn [digits_loop]. rewrite IH by lia. unfold poke.
  destruct (Z.eqb_spec j (pos + Z.of_nat n)); [lia|reflexivity].
Qed.

Lemma glyph_of_digit (base point d : Z) :
  base = 10 \/ base = 16 -> point = 0x7f \/ point = 0xff \/ point = -1 ->
  0 <= d < base ->
  glyph_digit base (Z.land (nth (Z.to_nat d) codepage 0) point) = Some d /\
  glyph_digit base (Z.land (nth 32 codepage 0) point) = Some 0.
Proof.
  intros Hbase Hpoint Hd.
  assert (Hall : forallb check_glyphs [0x7f; 0xff; -1] = true) by (vm_compute; reflexivity).
  rewrite forallb_forall in Hall.
  specialize (Hall point ltac:(cbn; destruct Hpoint as [-> |[-> | ->]]; tauto)).
  unfold check_glyphs in Hall.
  apply andb_true_iff in Hall as [Hall H32]. apply andb_true_iff in Hall as [H10 H16].
  rewrite forallb_forall in H10, H16, H32.
  split.
  - destruct Hbase as [-> | ->].
    + specialize (H10 d). rewrite <- list_elem_of_In, elem_of_seqZ in H10.
      apply bool_decide_eq_true_1 in H10; [exact H10|lia].
    + specialize (H16 d). rewrite <- list_elem_of_In, elem_of_seqZ in H16.
      apply bool_decide_eq_true_1 in H16; [exact H16|lia].
  - specialize (H32 base ltac:(cbn; destruct Hbase as [-> | ->]; tauto)).
    apply bool_decide_eq_true_1 in H32. exact H32.
Qed.

(** Reading back what the digit loop wrote gives the low digits of the
    value. *)
Lemma digits_loop_read (base : Z) (n : nat) :
  base = 10 \/ base = 16 ->
  forall buffer value power pos point,
  0 <= value -> point = 0x7f \/ point = 0xff ->
  read_number base (digits_loop base n buffer value power pos point) pos n
  = Some (value mod base ^ Z.of_nat n).
Proof.
  intros Hbase.
  assert (Hb0 : 0 < base) by (destruct Hbase; lia).
  induction n as [|n IH]; intros buffer value power pos point Hv Hpoint.
  - cbn. rewrite Z.mod_1_r. reflexivity.
  - cbn [read_number digits_loop].
    rewrite IH by (try apply Z.div_pos; assumption || lia).
    cbn [mbind option_bind].
    rewrite digits_loop_frame by lia. unfold poke. rewrite Z.eqb_refl.
    pose proof (Z.mod_pos_bound value base Hb0) as Hd.
    assert (Hg : glyph_digit base
      (if power =? 0
       then Z.land (if negb (value =? 0) || (power <=? 0)
                    then nth (Z.to_nat (value mod base)) codepage 0
                    else nth 32 codepage 0) point
       else if negb (value =? 0) || (power <=? 0)
            then nth (Z.to_nat (value mod base)) codepage 0
            else nth 32 codepage 0) = Some (value mod base)).
    { assert (Hraw : forall b, Z.land b (-1) = b) by (intros; apply Z.land_m1_r).
      destruct (Z.eqb_spec value 0) as [Hz|Hnz]; cbn [negb orb].
      - assert (H0 : value mod base = 0) by (rewrite Hz; apply Z.mod_0_l; lia).
        rewrite H0.
        destruct (Z.eqb_spec power 0) as [Hp|Hp].
        + rewrite Hp. cbn [Z.leb Z.compare].
          apply (glyph_of_digit base point 0 Hbase); [tauto|lia].
        + destruct (power <=? 0).
          * rewrite <- (Hraw (nth _ _ _)).
            apply (glyph_of_digit base (-1) 0 Hbase); [tauto|lia].
          * rewrite <- (Hraw (nth _ _ _)).
            apply (glyph_of_digit base (-1) 0 Hbase); [tauto|lia].
      - destruct (power =? 0).
        + apply (glyph_of_digit base point _ Hbase); [tauto|lia].
        + rewrite <- (Hraw (nth _ _ _)).
          apply (glyph_of_digit base (-1) _ Hbase); [tauto|lia]. }
    destruct (power =? 0); rewrite Hg; cbn [mbind option_bind]; f_equal;
      rewrite Nat2Z.inj_succ, Z.pow_succ_r by lia;
      rewrite (Z.rem_mul_r value base (base ^ Z.of_nat n)) by lia; lia.
Qed.

(** X11.  A number written by [hsk_icm7228_writeDec] can be read back:
    the [len] cells from [pos] on show the [len] low decimal digits of the
    value, leading zeros blank or not, whatever the power: the value
    itself if it is below [10 ^ len], and else the value without its high
    digits.  The cells outside are as before, and the code memory around
    the code page is not read. *)
Theorem writeDec_reads_back (rom : Z -> Z) (buffer : Z -> Z) (value power pos len : Z) :
  0 <= len -> 0 <= value ->
  read_number 10 (hsk_icm7228_writeDec rom buffer value power pos len) pos (Z.to_nat len)
  = Some (value mod 10 ^ len) /\
  (value < 10 ^ len ->
   read_number 10 (hsk_icm7228_writeDec rom buffer value power pos len) pos (Z.to_nat len)
   = Some value) /\
  (forall j, ~ (pos <= j < pos + len) ->
             hsk_icm7228_writeDec rom buffer value power pos len j = buffer j) /\
  (forall rom', hsk_icm7228_writeDec rom' buffer value power pos len
                = hsk_icm7228_writeDec rom buffer value power pos len).
Proof.
  intros Hlen Hv. unfold hsk_icm7228_writeDec. cbn zeta.
  assert (Hpoint : (if negb (power =? 0) then 0x7f else 0xff) = 0x7f \/
                   (if negb (power =? 0) then 0x7f else 0xff) = 0xff)
    by (destruct (power =? 0); cbn; auto).
  rewrite writeDec_loop_digits by lia.
  rewrite digits_loop_read by (auto || lia).
  rewrite Z2Nat.id by lia.
  split; [reflexivity|split; [|split]].
  - intros Hlt. rewrite Z.mod_small by lia. reflexivity.
  - intros j Hj. apply digits_loop_frame. rewrite Z2Nat.id by lia. exact Hj.
  - intros rom'. apply writeDec_loop_digits. lia.
Qed.

(** X12.  The same for [hsk_icm7228_writeHex]: the cells show the [len]
    low hexadecimal digits of the value, the value itself if it is below
    [16 ^ len]. *)
Theorem writeHex_reads_back (rom : Z -> Z) (buffer : Z -> Z) (value power pos len : Z) :
  0 <= len -> 0 <= value ->
  read_number 16 (hsk_icm7228_writeHex rom buffer value power pos len) pos (Z.to_nat len)
  = Some (value mod 16 ^ len) /\
  (value < 16 ^ len ->
   read_number 16 (hsk_icm7228_writeHex rom buffer value power pos len) pos (Z.to_nat len)
   = Some value) /\
  (forall j, ~ (pos <= j < pos + len) ->
             hsk_icm7228_writeHex rom buffer value power pos len j = buffer j) /\
  (forall rom', hsk_icm7228_writeHex rom' buffer value power pos len
                = hsk_icm7228_writeHex rom buffer value power pos len).
Proof.
  intros Hlen Hv. unfold hsk_icm7228_writeHex. cbn zeta.
  assert (Hpoint : (if negb (power =? 0) then 0x7f else 0xff) = 0x7f \/
                   (if negb (power =? 0) then 0x7f else 0xff) = 0xff)
    by (destruct (power =? 0); cbn; auto).
  rewrite writeHex_loop_digits by lia.
  rewrite digits_loop_read by (auto || lia).
  rewrite Z2Nat.id by lia.
  split; [reflexivity|split; [|split]].
  - intros Hlt. rewrite Z.mod_small by lia. reflexivity.
  - intros j Hj. apply digits_loop_frame. rewrite Z2Nat.id by lia. exact Hj.
  - intros rom'. apply writeHex_loop_digits. lia.
Qed.

Lemma digits_loop_cells (base : Z) (n : nat) :
  0 < base ->
  forall buffer value power pos point j,
  0 <= value -> -128 <= power -> power + Z.of_nat n <= 128 ->
  pos <= j < pos + Z.of_nat n ->
  digits_loop base n buffer value power pos point j
  = masked_pattern base point value power (pos + Z.of_nat n - 1 - j).
Proof.
  intros Hbase.
  induction n as [|n IH]; intros buffer value power pos point j Hv Hlo Hhi Hj; [lia|].
  cbn [digits_loop].
  destruct (Z.eq_dec j (pos + Z.of_nat n)) as [Heq|Hne].
  - rewrite digits_loop_frame by lia. unfold poke.
    destruct (Z.eqb_spec j (pos + Z.of_nat n)); [|lia].
    replace (pos + Z.of_nat (S n) - 1 - j) with 0 by lia.
    unfold masked_pattern. cbn zeta.
    rewrite Z.pow_0_r, Z.div_1_r, Z.add_0_r.
    destruct (Z.eqb_spec value 0), (Z.leb_spec power 0), (Z.ltb_spec 0 power);
      try lia; reflexivity.
  - assert (Hs : s8 (power + 1) = power + 1).
    { unfold s8. rewrite Z.mod_small by lia. lia. }
    rewrite Hs, IH by (try apply Z.div_pos; lia).
    unfold masked_pattern. cbn zeta.
    replace (pos + Z.of_nat (S n) - 1 - j) with (Z.succ (pos + Z.of_nat n - 1 - j)) by lia.
    rewrite Z.pow_succ_r, <- Z.div_div by lia.
    replace (power + 1 + (pos + Z.of_nat n - 1 - j))
      with (power + Z.succ (pos + Z.of_nat n - 1 - j)) by lia.
    reflexivity.
Qed.

Lemma masked_pattern_digit (base value power k : Z) :
  masked_pattern base (if negb (power =? 0) then 0x7f else 0xff) value power k
  = digit_pattern base value power k.
Proof.
  unfold masked_pattern, digit_pattern. cbn zeta.
  destruct (power + k =? 0); [|reflexivity].
  destruct (power =? 0); cbn [negb andb]; [|reflexivity].
  assert (Hbyte : forall b, 0 <= b < 256 -> Z.land b 255 = b).
  { intros b Hb. change 255 with (Z.ones 8). rewrite Z.land_ones by lia.
    apply Z.mod_small. exact Hb. }
  destruct (_ && _); apply Hbyte, codepage_byte.
Qed.

(** The decimal point (bit 7 clear) of the pattern of a digit. *)
Lemma digit_pattern_point (base value power k : Z) :
  base = 10 \/ base = 16 -> 0 <= value -> 0 <= k ->
  Z.testbit (digit_pattern base value power k) 7
  = negb ((power + k =? 0) && negb (power =? 0)).
Proof.
  intros Hbase Hv Hk.
  assert (Hall : forallb (fun d =>
            Z.testbit (nth (Z.to_nat d) codepage 0) 7 &&
            negb (Z.testbit (Z.land (nth (Z.to_nat d) codepage 0) 0x7f) 7))
            (32 :: seqZ 0 16) = true) by (vm_compute; reflexivity).
  rewrite forallb_forall in Hall.
  assert (Hd : forall d, 0 <= d < 16 \/ d = 32 ->
            Z.testbit (nth (Z.to_nat d) codepage 0) 7 = true /\
            Z.testbit (Z.land (nth (Z.to_nat d) codepage 0) 0x7f) 7 = false).
  { intros d Hd. specialize (Hall d).
    rewrite andb_true_iff, negb_true_iff in Hall. apply Hall.
    destruct Hd as [Hd| ->]; [right|left; reflexivity].
    apply list_elem_of_In, elem_of_seqZ. lia. }
  unfold digit_pattern. cbn zeta.
  assert (Hm : 0 <= (value / base ^ k) mod base < 16).
  { pose proof (Z.mod_pos_bound (value / base ^ k) base). destruct Hbase; lia. }
  destruct (Hd 32 ltac:(auto)) as [Hb1 Hb0].
  destruct (Hd _ (or_introl Hm)) as [Hd1 Hd0].
  change (Z.to_nat 32) with 32%nat in Hb1, Hb0.
  destruct ((value / base ^ k =? 0) && (0 <? power + k)),
           ((power + k =? 0) && negb (power =? 0)); cbn [negb]; assumption.
Qed.

(** X13.  Where [hsk_icm7228_writeDec] puts what: while the power stays a
    [char] (it is incremented once per digit) the cell [j] of the field
    holds the pattern of digit [pos + len - 1 - j] of the value, counted
    from the right: a blank in place of a zero left of the highest
    non-zero digit and of the point, and the decimal point lit exactly at
    the digit of power 0, unless that is the last one. *)
Theorem writeDec_places_digits (rom : Z -> Z) (buffer : Z -> Z)
  (value power pos len j : Z) :
  0 <= value -> 0 <= len -> -128 <= power -> power + len <= 128 ->
  pos <= j < pos + len ->
  let k := pos + len - 1 - j in
  hsk_icm7228_writeDec rom buffer value power pos len j = digit_pattern 10 value power k /\
  Z.testbit (hsk_icm7228_writeDec rom buffer value power pos len j) 7
  = negb ((power + k =? 0) && negb (power =? 0)).
Proof.
  intros Hv Hlen Hlo Hhi Hj k.
  assert (Hcell : hsk_icm7228_writeDec rom buffer value power pos len j
                  = digit_pattern 10 value power k).
  { unfold hsk_icm7228_writeDec. cbn zeta.
    rewrite writeDec_loop_digits by lia.
    rewrite digits_loop_cells by (rewrite ?Z2Nat.id; lia).
    rewrite Z2Nat.id by lia. apply masked_pattern_digit. }
  split; [exact Hcell|].
  rewrite Hcell. apply digit_pattern_point; [auto|lia|unfold k; lia].
Qed.

(** X14.  The same for [hsk_icm7228_writeHex], in base 16. *)
Theorem writeHex_places_digits (rom : Z -> Z) (buffer : Z -> Z)
  (value power pos len j : Z) :
  0 <= value -> 0 <= len -> -128 <= power -> power + len <= 128 ->
  pos <= j < pos + len ->
  let k := pos + len - 1 - j in
  hsk_icm7228_writeHex rom buffer value power pos len j = digit_pattern 16 value power k /\
  Z.testbit (hsk_icm7228_writeHex rom buffer value power pos len j) 7
  = negb ((power + k =? 0) && negb (power =? 0)).
Proof.
  intros Hv Hlen Hlo Hhi Hj k.
  assert (Hcell : hsk_icm7228_writeHex rom buffer value power pos len j
                  = digit_pattern 16 value power k).
  { unfold hsk_icm7228_writeHex. cbn zeta.
    rewrite writeHex_loop_digits by lia.
    rewrite digits_loop_cells by (rewrite ?Z2Nat.id; lia).
    rewrite Z2Nat.id by lia. apply masked_pattern_digit. }
  split; [exact Hcell|].
  rewrite Hcell. apply digit_pattern_point; [auto|lia|unfold k; lia].
Qed.

Lemma illuminate_loop_frame (rom : Z -> Z) (n : nat) :
  forall buffer segments pos j,
  0 <= pos -> pos + Z.of_nat n <= 256 ->
  ~ (pos <= j < pos + Z.of_nat n) ->
  illuminate_loop rom n buffer segments pos j = buffer j.
Proof.
  induction n as [|n IH]; intros buffer segments pos j Hpos Hend Hj; [reflexivity|].
  cbn [illuminate_loop].
  destruct n as [|n'].
  - cbn [illuminate_loop]. unfold poke. destruct (Z.eqb_spec j pos); [lia|reflexivity].
  - assert (Hp : u8 (pos + 1) = pos + 1) by (unfold u8; apply Z.mod_small; lia).
    rewrite Hp, IH by lia. unfold poke. destruct (Z.eqb_spec j pos); [lia|reflexivity].
Qed.

Lemma illuminate_pattern (rom : Z -> Z) (i : Z) :
  0 <= i <= 8 -> lit (codepage_at rom (ILLUMINATE_OFFSET + i)) = i.
Proof.
  intros Hi. rewrite codepage_at_table by (unfold ILLUMINATE_OFFSET; lia).
  assert (Hall : forallb (fun i =>
            lit (nth (Z.to_nat (ILLUMINATE_OFFSET + i)) codepage 0) =? i) (seqZ 0 9) = true)
    by (vm_compute; reflexivity).
  rewrite forallb_forall in Hall. apply Z.eqb_eq, Hall.
  apply list_elem_of_In, elem_of_seqZ. lia.
Qed.

Lemma lit_cells_ext (f g : Z -> Z) (n : nat) :
  forall pos, (forall j, pos <= j < pos + Z.of_nat n -> f j = g j) ->
  lit_cells f pos n = lit_cells g pos n.
Proof.
  induction n as [|n IH]; intros pos H; [reflexivity|].
  cbn [lit_cells]. rewrite (H pos) by lia. f_equal. apply IH. intros j Hj. apply H. lia.
Qed.

Lemma illuminate_loop_lit (rom : Z -> Z) (n m : nat) :
  forall buffer segments pos,
  0 <= segments < 256 -> 0 <= pos -> pos + Z.of_nat (n + m) <= 256 ->
  lit_cells (illuminate_loop rom (n + m) buffer segments pos) pos n
  = Z.min segments (8 * Z.of_nat n).
Proof.
  induction n as [|n IH]; intros buffer segments pos Hs Hpos Hend; [cbn; lia|].
  cbn [Nat.add illuminate_loop lit_cells].
  set (ill := if segments >? 8 then 8 else segments).
  assert (Hill : ill = Z.min segments 8).
  { unfold ill. destruct (Z.gtb_spec segments 8); lia. }
  assert (Hseg : u8 (segments - ill) = segments - ill).
  { unfold u8. apply Z.mod_small. lia. }
  rewrite Hseg.
  destruct (Nat.eq_dec (n + m)%nat 0%nat) as [Hz|Hnz].
  - assert (Hn : n = 0%nat) by lia. rewrite Hz, Hn.
    cbn [illuminate_loop lit_cells]. unfold poke. rewrite Z.eqb_refl.
    rewrite illuminate_pattern by lia. lia.
  - assert (Hp : u8 (pos + 1) = pos + 1) by (unfold u8; apply Z.mod_small; lia).
    rewrite Hp. rewrite illuminate_loop_frame by lia.
    unfold poke at 1. rewrite Z.eqb_refl.
    rewrite illuminate_pattern by lia.
    rewrite IH by lia. lia.
Qed.

(** X15.  [hsk_icm7228_illuminate] fills the [len] cells from [pos] on
    with lit segments from the first cell on: the first [i] cells light
    [segments] segments, or all their [8 * i] if [segments] is more; so
    the field lights exactly [segments] segments, or all it has.  The
    cells outside of the field are left as they are. *)
Theorem illuminate_lights_segments (rom : Z -> Z) (buffer : Z -> Z)
  (segments pos len : Z) :
  0 <= segments < 256 -> 0 <= pos -> 0 <= len -> pos + len <= 256 ->
  (forall i, 0 <= i <= len ->
     lit_cells (hsk_icm7228_illuminate rom buffer segments pos len) pos (Z.to_nat i)
     = Z.min segments (8 * i)) /\
  (forall j, ~ (pos <= j < pos + len) ->
     hsk_icm7228_illuminate rom buffer segments pos len j = buffer j).
Proof.
  intros Hs Hpos Hlen Hend. unfold hsk_icm7228_illuminate. split.
  - intros i Hi.
    replace (Z.to_nat len) with (Z.to_nat i + Z.to_nat (len - i))%nat by lia.
    rewrite illuminate_loop_lit by lia. lia.
  - intros j Hj. apply illuminate_loop_frame; lia.
Qed.



(** * The properties above on sample inputs *)

Lemma clock_gate_toggles_bit_0_witness :
  0 <= 0x35 < 256 /\
  Z.land (hsk_adc_enable 0x35) 1 = 0 /\ Z.land (hsk_adc_disable 0x35) 1 = 1.
Proof.
  assert (H : 0 <= 0x35 < 256) by lia.
  split; [exact H|].
  destruct (clock_gate_toggles_bit_0 0x35 H) as (He & Hd & _).
  split; [exact He|exact Hd].
Defined.

Lemma init_configures_converter_witness :
  0 <= ADC_GLOBCTR (regs (power_on (fun _ => 0))) < 256 /\
  EADC (hsk_adc_init ADC_RESOLUTION_10 20 (power_on (fun _ => 0))) = true /\
  open_channels (hsk_adc_init ADC_RESOLUTION_10 20 (power_on (fun _ => 0))) = [].
Proof.
  assert (H : 0 <= ADC_GLOBCTR (regs (power_on (fun _ => 0))) < 256) by (cbn; lia).
  split; [exact H|].
  pose proof (init_configures_converter ADC_RESOLUTION_10 20 (power_on (fun _ => 0))
                (or_introl eq_refl) H) as Hinit.
  cbv zeta in Hinit.
  destruct Hinit as (_ & _ & _ & _ & _ & _ & _ & He & Ho & _).
  split; [exact He|exact Ho].
Defined.

Lemma init_selects_open_variant_witness :
  0 <= ADC_GLOBCTR (regs (power_on (fun _ => 0))) < 256 /\
  0 <= 3 < ADC_CHANNELS /\
  read_target (hsk_adc_open10 3 256 (hsk_adc_init ADC_RESOLUTION_10 20 (power_on (fun _ => 0)))) 3
  = 256 /\
  hsk_adc_open10 3 256 (hsk_adc_init ADC_RESOLUTION_8 20 (power_on (fun _ => 0)))
  = hsk_adc_init ADC_RESOLUTION_8 20 (power_on (fun _ => 0)).
Proof.
  assert (H : 0 <= ADC_GLOBCTR (regs (power_on (fun _ => 0))) < 256) by (cbn; lia).
  assert (Hc : 0 <= 3 < ADC_CHANNELS) by (unfold ADC_CHANNELS; lia).
  split; [exact H|]. split; [exact Hc|].
  pose proof (init_selects_open_variant 20 3 256 (power_on (fun _ => 0)) H Hc) as Hopen.
  cbv zeta in Hopen.
  destruct Hopen as (H10 & _ & _ & H8 & _).
  split; [exact H10|exact H8].
Defined.

Lemma conv_timing_meets_request_witness :
  20 * 24 < 65536 /\
  0 <= ideal_stc (result_bits ADC_RESOLUTION_10) (20 * 24) ADC_CLK_12MHz /\
  ideal_stc (result_bits ADC_RESOLUTION_10) (20 * 24) ADC_CLK_750kHz <= 255 /\
  conv_ticks 10 (fst (conv_timing ADC_RESOLUTION_10 20)) (snd (conv_timing ADC_RESOLUTION_10 20))
  <= 20 * 24.
Proof.
  assert (H1 : 20 * 24 < 65536) by lia.
  assert (H2 : 0 <= ideal_stc (result_bits ADC_RESOLUTION_10) (20 * 24) ADC_CLK_12MHz)
    by (vm_compute; discriminate).
  assert (H3 : ideal_stc (result_bits ADC_RESOLUTION_10) (20 * 24) ADC_CLK_750kHz <= 255)
    by (vm_compute; discriminate).
  split; [exact H1|]. split; [exact H2|]. split; [exact H3|].
  pose proof (conv_timing_meets_request ADC_RESOLUTION_10 20 (or_introl eq_refl)
                ltac:(lia) H1 H2 H3) as Hconv.
  cbv zeta in Hconv.
  destruct Hconv as [[Hle _] _]. exact Hle.
Defined.

Lemma driver_stays_in_order_witness :
  driver_ok sample_two /\
  Forall step_ok [StOpen10 1 260; StService; StComplete 0x1234; StClose 3; StRequest 5] /\
  exists s', do_steps [StOpen10 1 260; StService; StComplete 0x1234; StClose 3; StRequest 5]
                      sample_two = Some s' /\ driver_ok s'.
Proof.
  assert (Hok : driver_ok sample_two).
  { split; [reflexivity|]. split.
    - right. split; [vm_compute; split; [discriminate|reflexivity]|vm_compute; reflexivity].
    - vm_compute. lia. }
  assert (Hsteps : Forall step_ok
            [StOpen10 1 260; StService; StComplete 0x1234; StClose 3; StRequest 5]).
  { repeat constructor; unfold ADC_CHANNELS; (lia || discriminate). }
  split; [exact Hok|]. split; [exact Hsteps|].
  exact (driver_stays_in_order _ sample_two Hok Hsteps).
Defined.

Lemma open_close_round_trip_witness :
  targets_ok sample_two /\ cursor_exact sample_two /\ mode10 sample_two /\
  0 <= 1 < ADC_CHANNELS /\ read_target sample_two 1 = 0 /\
  exists s', hsk_adc_close 1 (hsk_adc_open10 1 260 sample_two) = Some s' /\
             targets s' = targets sample_two /\ nextChannel s' = nextChannel sample_two.
Proof.
  assert (Ht : targets_ok sample_two) by reflexivity.
  assert (Hcur : cursor_exact sample_two).
  { right. split; [vm_compute; split; [discriminate|reflexivity]|vm_compute; reflexivity]. }
  assert (Hm : mode10 sample_two) by (vm_compute; reflexivity).
  assert (Hc : 0 <= 1 < ADC_CHANNELS) by (unfold ADC_CHANNELS; lia).
  assert (Hr : read_target sample_two 1 = 0) by (vm_compute; reflexivity).
  split; [exact Ht|]. split; [exact Hcur|]. split; [exact Hm|].
  split; [exact Hc|]. split; [exact Hr|].
  destruct (open_close_round_trip 1 260 sample_two Ht Hcur Hm Hc Hr)
    as (s' & Hs & Htg & Hn & _).
  exists s'. split; [exact Hs|]. split; [exact Htg|exact Hn].
Defined.

Lemma close_idempotent_witness :
  targets_ok sample_two /\ 0 <= 3 < ADC_CHANNELS /\
  exists s1 s2,
    hsk_adc_close 3 sample_two = Some s1 /\ hsk_adc_close 3 s1 = Some s2 /\
    targets s2 = targets s1 /\ nextChannel s2 = nextChannel s1.
Proof.
  assert (Ht : targets_ok sample_two) by reflexivity.
  assert (Hc : 0 <= 3 < ADC_CHANNELS) by (unfold ADC_CHANNELS; lia).
  split; [exact Ht|]. split; [exact Hc|].
  destruct (close_idempotent 3 sample_two Ht Hc) as (s1 & s2 & H1 & H2 & _ & Htg & Hn & _).
  exists s1, s2. split; [exact H1|]. split; [exact H2|]. split; [exact Htg|exact Hn].
Defined.

Lemma service_hangs_after_second_init_witness :
  0 <= nextChannel sample_two < ADC_CHANNELS /\
  (length (queue sample_two) < Z.to_nat ADC_QUEUE)%nat /\
  hsk_adc_service (hsk_adc_init ADC_RESOLUTION_10 20 sample_two) = None.
Proof.
  assert (Hn : 0 <= nextChannel sample_two < ADC_CHANNELS)
    by (vm_compute; split; [discriminate|reflexivity]).
  assert (Hq : (length (queue sample_two) < Z.to_nat ADC_QUEUE)%nat) by (vm_compute; lia).
  split; [exact Hn|]. split; [exact Hq|].
  destruct (service_hangs_after_second_init ADC_RESOLUTION_10 20 sample_two
              (or_introl eq_refl) Hn Hq) as (_ & _ & Hs).
  exact Hs.
Defined.


Lemma warmup10_returns_after_a_round_witness :
  mode10 sample_two /\ cursor_exact sample_two /\ open_channels sample_two <> [] /\
  queue sample_two = [] /\ (length (open_channels sample_two) <= length [5; 7])%nat /\
  exists s', hsk_adc_warmup10 (map Some [5; 7]) sample_two = Some s'.
Proof.
  assert (Hm : mode10 sample_two) by (vm_compute; reflexivity).
  assert (Hcur : cursor_exact sample_two).
  { right. split; [vm_compute; split; [discriminate|reflexivity]|vm_compute; reflexivity]. }
  assert (Ho : open_channels sample_two <> []) by (vm_compute; discriminate).
  assert (Hq : queue sample_two = []) by (vm_compute; reflexivity).
  assert (Hl : (length (open_channels sample_two) <= length [5; 7])%nat) by (vm_compute; lia).
  split; [exact Hm|]. split; [exact Hcur|]. split; [exact Ho|].
  split; [exact Hq|]. split; [exact Hl|].
  exact (warmup10_returns_after_a_round [5; 7] sample_two Hm Hcur Ho Hq Hl).
Defined.

Lemma writeDec_reads_back_witness :
  0 <= 6 /\ 0 <= 1234 /\
  read_number 10 (hsk_icm7228_writeDec (fun _ => 0) (fun _ => 0) 1234 (-2) 0 6) 0 (Z.to_nat 6)
  = Some 1234.
Proof.
  assert (Hl : 0 <= 6) by lia.
  assert (Hv : 0 <= 1234) by lia.
  split; [exact Hl|]. split; [exact Hv|].
  destruct (writeDec_reads_back (fun _ => 0) (fun _ => 0) 1234 (-2) 0 6 Hl Hv)
    as (_ & Hsmall & _).
  apply Hsmall. reflexivity.
Defined.

Lemma writeHex_reads_back_witness :
  0 <= 4 /\ 0 <= 0xBEEF /\
  read_number 16 (hsk_icm7228_writeHex (fun _ => 0) (fun _ => 0) 0xBEEF 0 2 4) 2 (Z.to_nat 4)
  = Some 0xBEEF.
Proof.
  assert (Hl : 0 <= 4) by lia.
  assert (Hv : 0 <= 0xBEEF) by lia.
  split; [exact Hl|]. split; [exact Hv|].
  destruct (writeHex_reads_back (fun _ => 0) (fun _ => 0) 0xBEEF 0 2 4 Hl Hv)
    as (_ & Hsmall & _).
  apply Hsmall. reflexivity.
Defined.

Lemma writeDec_places_digits_witness :
  0 <= 1234 /\ 0 <= 6 /\ -128 <= -2 /\ -2 + 6 <= 128 /\ 0 <= 3 < 0 + 6 /\
  hsk_icm7228_writeDec (fun _ => 0) (fun _ => 0) 1234 (-2) 0 6 3 = digit_pattern 10 1234 (-2) 2 /\
  Z.testbit (hsk_icm7228_writeDec (fun _ => 0) (fun _ => 0) 1234 (-2) 0 6 3) 7 = false.
Proof.
  assert (H1 : 0 <= 1234) by lia.
  assert (H2 : 0 <= 6) by lia.
  assert (H3 : -128 <= -2) by lia.
  assert (H4 : -2 + 6 <= 128) by lia.
  assert (H5 : 0 <= 3 < 0 + 6) by lia.
  split; [exact H1|]. split; [exact H2|]. split; [exact H3|]. split; [exact H4|].
  split; [exact H5|].
  pose proof (writeDec_places_digits (fun _ => 0) (fun _ => 0) 1234 (-2) 0 6 3 H1 H2 H3 H4 H5)
    as Hcell.
  cbv zeta in Hcell. exact Hcell.
Defined.

Lemma writeHex_places_digits_witness :
  0 <= 0xBEEF /\ 0 <= 4 /\ -128 <= 0 /\ 0 + 4 <= 128 /\ 2 <= 5 < 2 + 4 /\
  hsk_icm7228_writeHex (fun _ => 0) (fun _ => 0) 0xBEEF 0 2 4 5 = digit_pattern 16 0xBEEF 0 0.
Proof.
  assert (H1 : 0 <= 0xBEEF) by lia.
  assert (H2 : 0 <= 4) by lia.
  assert (H3 : -128 <= 0) by lia.
  assert (H4 : 0 + 4 <= 128) by lia.
  assert (H5 : 2 <= 5 < 2 + 4) by lia.
  split; [exact H1|]. split; [exact H2|]. split; [exact H3|]. split; [exact H4|].
  split; [exact H5|].
  pose proof (writeHex_places_digits (fun _ => 0) (fun _ => 0) 0xBEEF 0 2 4 5 H1 H2 H3 H4 H5)
    as Hcell.
  cbv zeta in Hcell. exact (proj1 Hcell).
Defined.

Lemma illuminate_lights_segments_witness :
  0 <= 19 < 256 /\ 0 <= 1 /\ 0 <= 4 /\ 1 + 4 <= 256 /\
  lit_cells (hsk_icm7228_illuminate (fun _ => 0) (fun _ => 0) 19 1 4) 1 (Z.to_nat 4) = 19.
Proof.
  assert (H1 : 0 <= 19 < 256) by lia.
  assert (H2 : 0 <= 1) by lia.
  assert (H3 : 0 <= 4) by lia.
  assert (H4 : 1 + 4 <= 256) by lia.
  split; [exact H1|]. split; [exact H2|]. split; [exact H3|]. split; [exact H4|].
  destruct (illuminate_lights_segments (fun _ => 0) (fun _ => 0) 19 1 4 H1 H2 H3 H4)
    as [Hlit _].
  exact (Hlit 4 ltac:(lia)).
Defined.

